(** * The Pangolin installer wizard ([install/tui.go])

    A shallow embedding of the wizard's screen graph, its controller
    ([model.Update] and the handlers it dispatches to) and the step sequences
    it hands to the Bubble Tea runtime, followed by the properties of the
    specification that were checked against them.

    Conventions.  Go [int] values are [Z] (the wizard's values are far from
    64-bit overflow; [%] is [Z.rem]).  Go strings are byte strings, as
    [string] is here.  A Go [error] is [option string] ([nil] is [None]).  A
    run-time panic (index out of range) is [None] in the [option] monad.  A
    value receiver [(m model)] is a functional update of the record. *)

From Stdlib Require Import String Ascii List ZArith Bool Lia.
Import ListNotations.
Open Scope string_scope.
Open Scope Z_scope.

(** ** Pieces of the Go standard library the wizard uses *)

Module Go.

Definition error := option string.

(** [strings.Contains]. *)
Fixpoint Contains (s substr : string) : bool :=
  String.prefix substr s
  || match s with
     | EmptyString => false
     | String _ rest => Contains rest substr
     end.

Definition newline : string := String (ascii_of_nat 10) EmptyString.

(** [strings.Join]. *)
Definition Join (elems : list string) (sep : string) : string :=
  String.concat sep elems.

Definition HasSuffix (s suffix : string) : bool :=
  let n := String.length s in
  let k := String.length suffix in
  (k <=? n)%nat && String.eqb (String.substring (n - k) k s) suffix.

(** [strings.TrimSuffix]. *)
Definition TrimSuffix (s suffix : string) : string :=
  if HasSuffix s suffix
  then String.substring 0 (String.length s - String.length suffix) s
  else s.

(** [len] of a slice, as a Go [int]. *)
Definition len {A} (l : list A) : Z := Z.of_nat (List.length l).

(** [l[i]]: panics ([None]) outside [0 <= i < len l]. *)
Definition index {A} (l : list A) (i : Z) : option A :=
  if (0 <=? i) && (i <? len l) then nth_error l (Z.to_nat i) else None.

(** [l[i] = x] for an index known to be in range. *)
Fixpoint store {A} (l : list A) (i : nat) (x : A) : list A :=
  match l, i with
  | [], _ => []
  | _ :: t, O => x :: t
  | h :: t, S j => h :: store t j x
  end.

Definition digit (c : ascii) : option Z :=
  let n := Z.of_nat (nat_of_ascii c) in
  if (48 <=? n) && (n <=? 57) then Some (n - 48) else None.

Fixpoint digits (s : string) (acc : Z) : option Z :=
  match s with
  | EmptyString => Some acc
  | String c rest =>
      match digit c with
      | Some d => digits rest (acc * 10 + d)
      | None => None
      end
  end.

(** [strconv.Atoi]: an optional sign and at least one decimal digit; a
    value outside the 64-bit range is reported as an error. *)
Definition Atoi (s : string) : option Z :=
  let '(neg, body) :=
    match s with
    | String "-" rest => (true, rest)
    | String "+" rest => (false, rest)
    | _ => (false, s)
    end in
  match body with
  | EmptyString => None
  | _ =>
      match digits body 0 with
      | Some n =>
          let v := if neg then - n else n in
          if (- 2 ^ 63 <=? v) && (v <? 2 ^ 63) then Some v else None
      | None => None
      end
  end.

Definition digitChar (d : Z) : ascii := ascii_of_nat (Z.to_nat (48 + d)).

Fixpoint decimal (fuel : nat) (n : Z) (acc : string) : string :=
  match fuel with
  | O => acc
  | S fuel' =>
      let acc' := String (digitChar (Z.rem n 10)) acc in
      if n <? 10 then acc' else decimal fuel' (Z.quot n 10) acc'
  end.

(** [fmt.Sprintf("%d", n)]. *)
Definition Itoa (n : Z) : string :=
  if n <? 0
  then String "-" (decimal (S (Z.to_nat (- n))) (- n) EmptyString)
  else decimal (S (Z.to_nat n)) n EmptyString.

End Go.

(** ** The option monad, for code that may panic *)

Definition bind {A B} (c : option A) (k : A -> option B) : option B :=
  match c with
  | Some a => k a
  | None => None
  end.

Notation "x <- c ;; k" := (bind c (fun x => k))
  (at level 61, c at next level, right associativity).

(** ** Screens *)

Definition screenID := string.

Definition welcomeScreen : screenID := "welcome".
Definition hybridModeScreen : screenID := "hybrid_mode".
Definition hybridCredentialsScreen : screenID := "hybrid_credentials".
Definition domainConfigScreen : screenID := "domain_config".
Definition emailConfigScreen : screenID := "email_config".
Definition emailInputScreen : screenID := "email_input".
Definition advancedConfigScreen : screenID := "advanced_config".
Definition containerScreen : screenID := "container".
Definition installContainersScreen : screenID := "install_containers".
Definition installScreen : screenID := "install".
Definition crowdsecScreen : screenID := "crowdsec".
Definition crowdsecManageScreen : screenID := "crowdsec_manage".
Definition crowdsecInstallScreen : screenID := "crowdsec_install".
Definition setupTokenScreen : screenID := "setup_token".
Definition completeScreen : screenID := "complete".

(** The fifteen declared screens, in declaration order. *)
Definition declaredScreens : list screenID :=
  [ welcomeScreen; hybridModeScreen; hybridCredentialsScreen;
    domainConfigScreen; emailConfigScreen; emailInputScreen;
    advancedConfigScreen; containerScreen; installContainersScreen;
    installScreen; crowdsecScreen; crowdsecManageScreen;
    crowdsecInstallScreen; setupTokenScreen; completeScreen ].

(** ** The configuration record

    [Config] and [SupportedContainer] are declared in another file of the
    package; the record below has the fields [tui.go] reads or writes, and
    [versions] stands for what [loadVersions] fills in. *)

Inductive SupportedContainer := Undefined | Docker | Podman.

Record Config := mkConfig {
  HybridMode : bool;
  DashboardDomain : string;
  BaseDomain : string;
  LetsEncryptEmail : string;
  InstallGerbil : bool;
  EnableEmail : bool;
  EmailSMTPHost : string;
  EmailSMTPPort : Z;
  EmailSMTPUser : string;
  EmailSMTPPass : string;
  EmailNoReply : string;
  EnableIPv6 : bool;
  InstallationContainerType : SupportedContainer;
  DoCrowdsecInstall : bool;
  Secret : string;
  versions : list string
}.

(** [Config{}]. *)
Definition emptyConfig : Config :=
  mkConfig false "" "" "" false false "" 0 "" "" "" false Undefined false "" [].

Definition containerEqb (a b : SupportedContainer) : bool :=
  match a, b with
  | Undefined, Undefined | Docker, Docker | Podman, Podman => true
  | _, _ => false
  end.

Module Cfg.
Definition setHybridMode (v : bool) (c : Config) : Config :=
  mkConfig v c.(DashboardDomain) c.(BaseDomain) c.(LetsEncryptEmail)
    c.(InstallGerbil) c.(EnableEmail) c.(EmailSMTPHost) c.(EmailSMTPPort)
    c.(EmailSMTPUser) c.(EmailSMTPPass) c.(EmailNoReply) c.(EnableIPv6)
    c.(InstallationContainerType) c.(DoCrowdsecInstall) c.(Secret)
    c.(versions).
Definition setDashboardDomain (v : string) (c : Config) : Config :=
  mkConfig c.(HybridMode) v c.(BaseDomain) c.(LetsEncryptEmail)
    c.(InstallGerbil) c.(EnableEmail) c.(EmailSMTPHost) c.(EmailSMTPPort)
    c.(EmailSMTPUser) c.(EmailSMTPPass) c.(EmailNoReply) c.(EnableIPv6)
    c.(InstallationContainerType) c.(DoCrowdsecInstall) c.(Secret)
    c.(versions).
Definition setBaseDomain (v : string) (c : Config) : Config :=
  mkConfig c.(HybridMode) c.(DashboardDomain) v c.(LetsEncryptEmail)
    c.(InstallGerbil) c.(EnableEmail) c.(EmailSMTPHost) c.(EmailSMTPPort)
    c.(EmailSMTPUser) c.(EmailSMTPPass) c.(EmailNoReply) c.(EnableIPv6)
    c.(InstallationContainerType) c.(DoCrowdsecInstall) c.(Secret)
    c.(versions).
Definition setLetsEncryptEmail (v : string) (c : Config) : Config :=
  mkConfig c.(HybridMode) c.(DashboardDomain) c.(BaseDomain) v
    c.(InstallGerbil) c.(EnableEmail) c.(EmailSMTPHost) c.(EmailSMTPPort)
    c.(EmailSMTPUser) c.(EmailSMTPPass) c.(EmailNoReply) c.(EnableIPv6)
    c.(InstallationContainerType) c.(DoCrowdsecInstall) c.(Secret)
    c.(versions).
Definition setInstallGerbil (v : bool) (c : Config) : Config :=
  mkConfig c.(HybridMode) c.(DashboardDomain) c.(BaseDomain)
    c.(LetsEncryptEmail) v c.(EnableEmail) c.(EmailSMTPHost)
    c.(EmailSMTPPort) c.(EmailSMTPUser) c.(EmailSMTPPass) c.(EmailNoReply)
    c.(EnableIPv6) c.(InstallationContainerType) c.(DoCrowdsecInstall)
    c.(Secret) c.(versions).
Definition setEnableEmail (v : bool) (c : Config) : Config :=
  mkConfig c.(HybridMode) c.(DashboardDomain) c.(BaseDomain)
    c.(LetsEncryptEmail) c.(InstallGerbil) v c.(EmailSMTPHost)
    c.(EmailSMTPPort) c.(EmailSMTPUser) c.(EmailSMTPPass) c.(EmailNoReply)
    c.(EnableIPv6) c.(InstallationContainerType) c.(DoCrowdsecInstall)
    c.(Secret) c.(versions).
(** The five assignments both [handleSubmit] and [nextScreen] make on the
    e-mail input screen. *)
Definition setEmail (host : string) (port : Z) (user pass noReply : string)
    (c : Config) : Config :=
  mkConfig c.(HybridMode) c.(DashboardDomain) c.(BaseDomain)
    c.(LetsEncryptEmail) c.(InstallGerbil) c.(EnableEmail) host port user
    pass noReply c.(EnableIPv6) c.(InstallationContainerType)
    c.(DoCrowdsecInstall) c.(Secret) c.(versions).
Definition setEnableIPv6 (v : bool) (c : Config) : Config :=
  mkConfig c.(HybridMode) c.(DashboardDomain) c.(BaseDomain)
    c.(LetsEncryptEmail) c.(InstallGerbil) c.(EnableEmail)
    c.(EmailSMTPHost) c.(EmailSMTPPort) c.(EmailSMTPUser) c.(EmailSMTPPass)
    c.(EmailNoReply) v c.(InstallationContainerType) c.(DoCrowdsecInstall)
    c.(Secret) c.(versions).
Definition setInstallationContainerType (v : SupportedContainer)
    (c : Config) : Config :=
  mkConfig c.(HybridMode) c.(DashboardDomain) c.(BaseDomain)
    c.(LetsEncryptEmail) c.(InstallGerbil) c.(EnableEmail)
    c.(EmailSMTPHost) c.(EmailSMTPPort) c.(EmailSMTPUser) c.(EmailSMTPPass)
    c.(EmailNoReply) c.(EnableIPv6) v c.(DoCrowdsecInstall) c.(Secret)
    c.(versions).
Definition setDoCrowdsecInstall (v : bool) (c : Config) : Config :=
  mkConfig c.(HybridMode) c.(DashboardDomain) c.(BaseDomain)
    c.(LetsEncryptEmail) c.(InstallGerbil) c.(EnableEmail)
    c.(EmailSMTPHost) c.(EmailSMTPPort) c.(EmailSMTPUser) c.(EmailSMTPPass)
    c.(EmailNoReply) c.(EnableIPv6) c.(InstallationContainerType) v
    c.(Secret) c.(versions).
Definition setSecret (v : string) (c : Config) : Config :=
  mkConfig c.(HybridMode) c.(DashboardDomain) c.(BaseDomain)
    c.(LetsEncryptEmail) c.(InstallGerbil) c.(EnableEmail)
    c.(EmailSMTPHost) c.(EmailSMTPPort) c.(EmailSMTPUser) c.(EmailSMTPPass)
    c.(EmailNoReply) c.(EnableIPv6) c.(InstallationContainerType)
    c.(DoCrowdsecInstall) v c.(versions).
End Cfg.

(** ** The screen graph *)

Definition getNextScreen (currentScreen : screenID) (choice : Z)
    (config : Config) : screenID :=
  if String.eqb currentScreen welcomeScreen then hybridModeScreen
  else if String.eqb currentScreen hybridModeScreen then
    if choice =? 0 then hybridCredentialsScreen else domainConfigScreen
  else if String.eqb currentScreen hybridCredentialsScreen then
    domainConfigScreen
  else if String.eqb currentScreen domainConfigScreen then
    if config.(HybridMode) then advancedConfigScreen else emailConfigScreen
  else if String.eqb currentScreen emailConfigScreen then
    if choice =? 0 then emailInputScreen else advancedConfigScreen
  else if String.eqb currentScreen emailInputScreen then advancedConfigScreen
  else if String.eqb currentScreen advancedConfigScreen then containerScreen
  else if String.eqb currentScreen containerScreen then
    installContainersScreen
  else if String.eqb currentScreen installContainersScreen then installScreen
  else if String.eqb currentScreen installScreen then
    if negb config.(HybridMode) then crowdsecScreen else setupTokenScreen
  else if String.eqb currentScreen crowdsecScreen then
    if choice =? 0 then crowdsecManageScreen else setupTokenScreen
  else if String.eqb currentScreen crowdsecManageScreen then
    if config.(DoCrowdsecInstall) then crowdsecInstallScreen
    else setupTokenScreen
  else if String.eqb currentScreen crowdsecInstallScreen then
    setupTokenScreen
  else if String.eqb currentScreen setupTokenScreen then completeScreen
  else if String.eqb currentScreen completeScreen then completeScreen
  else welcomeScreen.

Definition getPrevScreen (currentScreen : screenID) (config : Config)
    : screenID :=
  if String.eqb currentScreen welcomeScreen then welcomeScreen
  else if String.eqb currentScreen hybridModeScreen then welcomeScreen
  else if String.eqb currentScreen hybridCredentialsScreen then
    hybridModeScreen
  else if String.eqb currentScreen domainConfigScreen then
    if config.(HybridMode) then hybridCredentialsScreen
    else hybridModeScreen
  else if String.eqb currentScreen emailConfigScreen then domainConfigScreen
  else if String.eqb currentScreen emailInputScreen then emailConfigScreen
  else if String.eqb currentScreen advancedConfigScreen then
    if config.(HybridMode) then domainConfigScreen
    else if config.(EnableEmail) then emailInputScreen
    else emailConfigScreen
  else if String.eqb currentScreen containerScreen then advancedConfigScreen
  else if String.eqb currentScreen installContainersScreen then
    containerScreen
  else if String.eqb currentScreen installScreen then
    installContainersScreen
  else if String.eqb currentScreen crowdsecScreen then installScreen
  else if String.eqb currentScreen crowdsecManageScreen then crowdsecScreen
  else if String.eqb currentScreen setupTokenScreen then
    if config.(DoCrowdsecInstall) then crowdsecManageScreen
    else installScreen
  else if String.eqb currentScreen completeScreen then completeScreen
  else welcomeScreen.


(** ** Widgets

    The text input, the viewport and the spinner come from the Bubbles
    library.  Their state is kept as far as the wizard reads or writes it;
    what they do with a message is a parameter of the controller below. *)

Record TextInput := mkTextInput {
  tiValue : string;
  tiFocus : bool;
  Placeholder : string;
  EchoPassword : bool;
  tiWidth : Z;
  CharLimit : Z
}.

Module textinput.
(** [textinput.New()], as far as the fields kept here go. *)
Definition New : TextInput := mkTextInput "" false "" false 0 0.
Definition Value (t : TextInput) : string := t.(tiValue).
Definition Focused (t : TextInput) : bool := t.(tiFocus).
Definition Focus (t : TextInput) : TextInput :=
  mkTextInput t.(tiValue) true t.(Placeholder) t.(EchoPassword) t.(tiWidth)
    t.(CharLimit).
Definition Blur (t : TextInput) : TextInput :=
  mkTextInput t.(tiValue) false t.(Placeholder) t.(EchoPassword) t.(tiWidth)
    t.(CharLimit).
Definition setPlaceholder (p : string) (t : TextInput) : TextInput :=
  mkTextInput t.(tiValue) t.(tiFocus) p t.(EchoPassword) t.(tiWidth)
    t.(CharLimit).
Definition setEchoPassword (t : TextInput) : TextInput :=
  mkTextInput t.(tiValue) t.(tiFocus) t.(Placeholder) true t.(tiWidth)
    t.(CharLimit).
Definition setLimits (w limit : Z) (t : TextInput) : TextInput :=
  mkTextInput t.(tiValue) t.(tiFocus) t.(Placeholder) t.(EchoPassword) w
    limit.
End textinput.

Record Viewport := mkViewport {
  vpWidth : Z;
  vpHeight : Z;
  vpContent : string;
  vpAtBottom : bool
}.

Module viewport.
Definition New (w h : Z) : Viewport := mkViewport w h "" true.
Definition SetContent (s : string) (v : Viewport) : Viewport :=
  mkViewport v.(vpWidth) v.(vpHeight) s v.(vpAtBottom).
Definition GotoBottom (v : Viewport) : Viewport :=
  mkViewport v.(vpWidth) v.(vpHeight) v.(vpContent) true.
End viewport.

Record Spinner := mkSpinner { frame : Z }.

(** ** Fields *)

Inductive fieldType := fieldButton | fieldInput.

Definition isInput (t : fieldType) : bool :=
  match t with fieldInput => true | fieldButton => false end.

Definition isButton (t : fieldType) : bool :=
  match t with fieldButton => true | fieldInput => false end.

Record field := mkField {
  ftype : fieldType;
  label : string;
  input : TextInput;
  required : bool
}.

Definition setInput (t : TextInput) (f : field) : field :=
  mkField f.(ftype) f.(label) t f.(required).

(** The zero value of [textinput.Model], which a button field carries. *)
Definition zeroInput : TextInput := mkTextInput "" false "" false 0 0.

Definition createInputField (label : string) (required : bool) : field :=
  mkField fieldInput label (textinput.setLimits 40 100 textinput.New) required.

Definition createButtonField (label : string) : field :=
  mkField fieldButton label zeroInput false.

(** ** Key bindings

    A binding is kept as the list of key names it answers to; [key.Matches]
    compares the name of the pressed key with them. *)

Definition Binding := list string.

Record keyMap := mkKeyMap {
  Up : Binding;
  Down : Binding;
  Left : Binding;
  Right : Binding;
  Enter : Binding;
  Back : Binding;
  Quit : Binding;
  Help : Binding;
  Tab : Binding;
  ShiftTab : Binding
}.

Definition keys : keyMap :=
  mkKeyMap ["up"; "k"] ["down"; "j"] ["left"; "h"] ["right"; "l"] ["enter"]
    ["esc"] ["ctrl+c"] ["?"] ["tab"] ["shift+tab"].

Definition Matches (k : string) (b : Binding) : bool :=
  existsb (String.eqb k) b.

(** ** Messages *)

Inductive Msg :=
| WindowSizeMsg (Width Height : Z)
| KeyMsg (key : string)
| installStepMsg (step : string)
| installLogMsg (log : string)
| installBatchLogsMsg (logs : list string)
| installCompleteMsg
| installErrorMsg (e : Go.error)
| spinnerTickMsg
| otherMsg (tag : string).

(** ** The controller's state *)

Record model := mkModel {
  currentScreen : screenID;
  config : Config;
  fields : list field;
  focusIndex : Z;
  err : Go.error;
  spinner : Spinner;
  helpWidth : Z;
  mkeys : keyMap;
  showHelp : bool;
  width : Z;
  height : Z;
  installing : bool;
  lastChoice : Z;
  installLogs : list string;
  logsViewport : Viewport;
  installStep : string;
  portWarnings : list string
}.

Module Upd.
Definition setCurrentScreen (v : screenID) (m : model) : model :=
  mkModel v m.(config) m.(fields) m.(focusIndex) m.(err) m.(spinner)
    m.(helpWidth) m.(mkeys) m.(showHelp) m.(width) m.(height) m.(installing)
    m.(lastChoice) m.(installLogs) m.(logsViewport) m.(installStep)
    m.(portWarnings).
Definition setConfig (v : Config) (m : model) : model :=
  mkModel m.(currentScreen) v m.(fields) m.(focusIndex) m.(err) m.(spinner)
    m.(helpWidth) m.(mkeys) m.(showHelp) m.(width) m.(height) m.(installing)
    m.(lastChoice) m.(installLogs) m.(logsViewport) m.(installStep)
    m.(portWarnings).
Definition setFields (v : list field) (m : model) : model :=
  mkModel m.(currentScreen) m.(config) v m.(focusIndex) m.(err) m.(spinner)
    m.(helpWidth) m.(mkeys) m.(showHelp) m.(width) m.(height) m.(installing)
    m.(lastChoice) m.(installLogs) m.(logsViewport) m.(installStep)
    m.(portWarnings).
Definition setFocusIndex (v : Z) (m : model) : model :=
  mkModel m.(currentScreen) m.(config) m.(fields) v m.(err) m.(spinner)
    m.(helpWidth) m.(mkeys) m.(showHelp) m.(width) m.(height) m.(installing)
    m.(lastChoice) m.(installLogs) m.(logsViewport) m.(installStep)
    m.(portWarnings).
Definition setErr (v : Go.error) (m : model) : model :=
  mkModel m.(currentScreen) m.(config) m.(fields) m.(focusIndex) v
    m.(spinner) m.(helpWidth) m.(mkeys) m.(showHelp) m.(width) m.(height)
    m.(installing) m.(lastChoice) m.(installLogs) m.(logsViewport)
    m.(installStep) m.(portWarnings).
Definition setSpinner (v : Spinner) (m : model) : model :=
  mkModel m.(currentScreen) m.(config) m.(fields) m.(focusIndex) m.(err) v
    m.(helpWidth) m.(mkeys) m.(showHelp) m.(width) m.(height) m.(installing)
    m.(lastChoice) m.(installLogs) m.(logsViewport) m.(installStep)
    m.(portWarnings).
Definition setSize (w h : Z) (m : model) : model :=
  mkModel m.(currentScreen) m.(config) m.(fields) m.(focusIndex) m.(err)
    m.(spinner) w m.(mkeys) m.(showHelp) w h m.(installing) m.(lastChoice)
    m.(installLogs) m.(logsViewport) m.(installStep) m.(portWarnings).
Definition setShowHelp (v : bool) (m : model) : model :=
  mkModel m.(currentScreen) m.(config) m.(fields) m.(focusIndex) m.(err)
    m.(spinner) m.(helpWidth) m.(mkeys) v m.(width) m.(height) m.(installing)
    m.(lastChoice) m.(installLogs) m.(logsViewport) m.(installStep)
    m.(portWarnings).
Definition setInstalling (v : bool) (m : model) : model :=
  mkModel m.(currentScreen) m.(config) m.(fields) m.(focusIndex) m.(err)
    m.(spinner) m.(helpWidth) m.(mkeys) m.(showHelp) m.(width) m.(height) v
    m.(lastChoice) m.(installLogs) m.(logsViewport) m.(installStep)
    m.(portWarnings).
Definition setLastChoice (v : Z) (m : model) : model :=
  mkModel m.(currentScreen) m.(config) m.(fields) m.(focusIndex) m.(err)
    m.(spinner) m.(helpWidth) m.(mkeys) m.(showHelp) m.(width) m.(height)
    m.(installing) v m.(installLogs) m.(logsViewport) m.(installStep)
    m.(portWarnings).
Definition setInstallLogs (v : list string) (m : model) : model :=
  mkModel m.(currentScreen) m.(config) m.(fields) m.(focusIndex) m.(err)
    m.(spinner) m.(helpWidth) m.(mkeys) m.(showHelp) m.(width) m.(height)
    m.(installing) m.(lastChoice) v m.(logsViewport) m.(installStep)
    m.(portWarnings).
Definition setLogsViewport (v : Viewport) (m : model) : model :=
  mkModel m.(currentScreen) m.(config) m.(fields) m.(focusIndex) m.(err)
    m.(spinner) m.(helpWidth) m.(mkeys) m.(showHelp) m.(width) m.(height)
    m.(installing) m.(lastChoice) m.(installLogs) v m.(installStep)
    m.(portWarnings).
Definition setInstallStep (v : string) (m : model) : model :=
  mkModel m.(currentScreen) m.(config) m.(fields) m.(focusIndex) m.(err)
    m.(spinner) m.(helpWidth) m.(mkeys) m.(showHelp) m.(width) m.(height)
    m.(installing) m.(lastChoice) m.(installLogs) m.(logsViewport) v
    m.(portWarnings).
End Upd.

(** ** Collaborators

    Everything the wizard calls that lives outside [tui.go]: the widgets'
    own [Update] and [SetValue], and the external actions of the
    installation steps.  An action reads and changes the machine it runs on,
    the [World]. *)

Class Collaborators (World : Type) := {
  textinput_Update : TextInput -> Msg -> TextInput;
  textinput_SetValue : string -> TextInput -> TextInput;
  viewport_Update : Viewport -> Msg -> Viewport;
  spinner_Update : Spinner -> Msg -> Spinner;
  getPublicIP : string;
  TrimSpace : string -> string;
  GOOS : string;
  loadVersions : Config -> World -> Config * World;
  generateRandomSecretKey : World -> string * World;
  createConfigFiles : Config -> World -> Go.error * World;
  moveFile : string -> string -> World -> World;
  CombinedOutput : list string -> World -> (string * Go.error) * World;
  Run : list string -> World -> Go.error * World;
  isDockerInstalled : World -> bool * World;
  installDocker : World -> World;
  startDockerService : World -> Go.error * World;
  isDockerRunning : World -> bool * World;
  Sleep : Z -> World -> World;
  stopContainers : SupportedContainer -> World -> Go.error * World;
  backupConfig : World -> Go.error * World;
  installCrowdsec : Config -> World -> Go.error * World
}.

Section Controller.

Context {World : Type} {ext : Collaborators World}.

(** ** Commands

    A step of a [tea.Sequence] is a closure over the copy of the model its
    method was called on; it may change that copy (never the controller's)
    and the world, and returns one message. *)

Definition Step : Type := model * World -> Msg * (model * World).

#[warnings="-register-all"]
Inductive Cmd :=
| nilCmd
| tea_Quit
| spinner_Tick
| widgetCmd
| returnMsg (msg : Msg)
| tea_Batch (cmds : list Cmd)
| tea_Sequence (captured : model) (steps : list Step).

Definition logStep (line : string) : Step :=
  fun st => (installLogMsg line, st).

Definition completeStep : Step :=
  fun st => (installCompleteMsg, st).

(** Steps 1 and 2 of every configuration-writing sequence. *)
Definition loadConfigurationStep : Step :=
  fun st =>
    let '(m, w) := st in
    let '(c, w) := loadVersions m.(config) w in
    let '(secret, w) := generateRandomSecretKey w in
    (installLogMsg "✓ Configuration loaded and secret generated",
     (Upd.setConfig (Cfg.setSecret secret c) m, w)).

Definition createConfigFilesStep : Step :=
  fun st =>
    let '(m, w) := st in
    let '(e, w) := createConfigFiles m.(config) w in
    match e with
    | Some e => (installLogMsg ("❌ Config error: " ++ e), (m, w))
    | None =>
        let w := moveFile "config/docker-compose.yml" "docker-compose.yml" w in
        (installLogMsg "✓ Configuration files created", (m, w))
    end.

(** [m.config.InstallationContainerType == Docker && !isDockerInstalled() &&
    runtime.GOOS == "linux"], evaluated left to right. *)
Definition dockerMissing (st : model * World) : bool * World :=
  let '(m, w) := st in
  if containerEqb m.(config).(InstallationContainerType) Docker then
    let '(installed, w) := isDockerInstalled w in
    if negb installed then (String.eqb GOOS "linux", w) else (false, w)
  else (false, w).

Definition isPodman (m : model) : bool :=
  containerEqb m.(config).(InstallationContainerType) Podman.

Definition testRuntimeStep : Step :=
  fun st =>
    let '(m, w) := st in
    if isPodman m then
      let '(r, w) := CombinedOutput ["podman-compose"; "--version"] w in
      match snd r with
      | Some e => (installLogMsg ("❌ podman-compose error: " ++ e), (m, w))
      | None =>
          (installLogMsg ("✓ podman-compose available: " ++ TrimSpace (fst r)),
           (m, w))
      end
    else
      let '(r, w) := CombinedOutput ["docker"; "compose"; "version"] w in
      match snd r with
      | Some _ =>
          let '(r, w) := CombinedOutput ["docker-compose"; "--version"] w in
          match snd r with
          | Some e =>
              (installLogMsg ("❌ docker compose error: " ++ e), (m, w))
          | None =>
              (installLogMsg
                 ("✓ docker-compose available: " ++ TrimSpace (fst r)),
               (m, w))
          end
      | None =>
          (installLogMsg ("✓ docker compose available: " ++ TrimSpace (fst r)),
           (m, w))
      end.

Definition announceDockerStep : Step :=
  fun st =>
    let '(missing, w) := dockerMissing st in
    if missing
    then (installLogMsg "🐳 Docker not installed, installing Docker...",
          (fst st, w))
    else (installLogMsg "✓ Container runtime ready", (fst st, w)).

Definition installDockerStep : Step :=
  fun st =>
    let '(missing, w) := dockerMissing st in
    if missing then
      let w := installDocker w in
      let '(e, w) := startDockerService w in
      match e with
      | Some e =>
          (installLogMsg ("⚠️ Docker service start error: " ++ e), (fst st, w))
      | None => (installLogMsg "✓ Docker service started", (fst st, w))
      end
    else (installLogMsg "✓ Container runtime ready", (fst st, w)).

Definition waitDockerStep : Step :=
  fun st =>
    let '(missing, w) := dockerMissing st in
    if missing
    then (installLogMsg "⏳ Waiting for Docker to start...", (fst st, w))
    else (installLogMsg "✓ Container runtime ready", (fst st, w)).

(** [for i := 0; i < 5; i++ { if isDockerRunning() { return ... };
    time.Sleep(2 * time.Second) }]; [None] when the loop runs out. *)
Fixpoint pollDocker (tries : nat) (w : World) : option unit * World :=
  match tries with
  | O => (None, w)
  | S tries' =>
      let '(running, w) := isDockerRunning w in
      if running then (Some tt, w) else pollDocker tries' (Sleep 2 w)
  end.

Definition checkDockerStep : Step :=
  fun st =>
    let '(missing, w) := dockerMissing st in
    if missing then
      let '(r, w) := pollDocker 5 w in
      match r with
      | Some _ => (installLogMsg "✓ Docker is running!", (fst st, w))
      | None => (installLogMsg "⚠️ Docker may not be running yet", (fst st, w))
      end
    else (installLogMsg "✓ Container runtime ready", (fst st, w)).

Definition checkComposeFileStep : Step :=
  fun st =>
    let '(m, w) := st in
    let '(r, w) := CombinedOutput ["ls"; "-la"; "docker-compose.yml"] w in
    match snd r with
    | Some _ => (installLogMsg "❌ docker-compose.yml not found", (m, w))
    | None => (installLogMsg "✓ docker-compose.yml found", (m, w))
    end.

(** The command line both the pull and the start step build: Podman's
    compose, or Docker's with the legacy binary as a fallback. *)
Definition composeCommand (m : model) (args : list string) (w : World)
    : list string * World :=
  if isPodman m then
    ("podman-compose" :: "-f" :: "docker-compose.yml" :: args, w)
  else
    let '(e, w) := Run ["docker"; "compose"; "version"] w in
    match e with
    | Some _ => ("docker-compose" :: "-f" :: "docker-compose.yml" :: args, w)
    | None =>
        ("docker" :: "compose" :: "-f" :: "docker-compose.yml" :: args, w)
    end.

Definition composeStep (args : list string) (failed succeeded : string)
    : Step :=
  fun st =>
    let '(m, w) := st in
    let '(cmd, w) := composeCommand m args w in
    let '(r, w) := CombinedOutput cmd w in
    let result := TrimSpace (fst r) in
    let result := if String.eqb result "" then "(no output)" else result in
    match snd r with
    | Some e =>
        (installLogMsg
           (failed ++ e ++ Go.newline ++ "Output: " ++ result), (m, w))
    | None =>
        (installLogMsg (succeeded ++ Go.newline ++ "Output: " ++ result),
         (m, w))
    end.

Definition announceStep (podman docker : string) : Step :=
  fun st =>
    if isPodman (fst st) then (installLogMsg podman, st)
    else (installLogMsg docker, st).

Definition performInstallationAsync (m : model) : Cmd :=
  tea_Sequence m
    [ loadConfigurationStep;
      createConfigFilesStep;
      testRuntimeStep;
      announceDockerStep;
      installDockerStep;
      waitDockerStep;
      checkDockerStep;
      checkComposeFileStep;
      announceStep "🚢 Pulling container images with podman-compose..."
        "🚢 Pulling container images with docker compose...";
      composeStep ["pull"] "❌ Image pull failed: "
        "✅ Images pulled successfully";
      announceStep "🚀 Starting containers with podman-compose..."
        "🚀 Starting containers with docker compose...";
      composeStep ["up"; "-d"] "❌ Container start failed: "
        "✅ Containers started successfully";
      logStep "🎉 Installation process completed!";
      logStep "";
      logStep "📋 Review the logs above for any errors or warnings.";
      logStep "🔍 Use ↑↓ arrows to scroll through the installation output.";
      logStep "✨ Press Ctrl+C to exit when you're ready." ].

Definition performConfigCreationAsync (m : model) : Cmd :=
  tea_Sequence m
    [ loadConfigurationStep;
      createConfigFilesStep;
      logStep "🎉 Configuration files created successfully!";
      logStep "";
      logStep
        "📋 You can now install containers manually or proceed to CrowdSec setup.";
      logStep "✨ Press Ctrl+C to exit when you're ready.";
      completeStep ].

Definition performConfigCreationAndProceedAsync (m : model) : Cmd :=
  tea_Sequence m
    [ loadConfigurationStep;
      createConfigFilesStep;
      (fun st =>
         if (fst st).(lastChoice) =? 0
         then (installLogMsg "🚀 Proceeding with container installation...", st)
         else
           (installLogMsg
              "⏭️ Skipping container installation, proceeding to CrowdSec setup...",
            st));
      completeStep ].

Definition performCrowdsecInstallationAsync (m : model) : Cmd :=
  tea_Sequence m
    [ logStep "🛑 Stopping existing containers...";
      (fun st =>
         let '(m, w) := st in
         let '(e, w) :=
           stopContainers m.(config).(InstallationContainerType) w in
         match e with
         | Some e =>
             (installLogMsg ("❌ Failed to stop containers: " ++ e), (m, w))
         | None => (installLogMsg "✓ Containers stopped successfully", (m, w))
         end);
      logStep "💾 Backing up configuration...";
      (fun st =>
         let '(m, w) := st in
         let '(e, w) := backupConfig w in
         match e with
         | Some e => (installLogMsg ("❌ Backup failed: " ++ e), (m, w))
         | None => (installLogMsg "✓ Configuration backed up", (m, w))
         end);
      logStep "🛡️ Installing CrowdSec security solution...";
      (fun st =>
         let '(m, w) := st in
         let '(e, w) := installCrowdsec m.(config) w in
         match e with
         | Some e =>
             (installLogMsg ("❌ CrowdSec installation failed: " ++ e), (m, w))
         | None => (installLogMsg "✅ CrowdSec installed successfully!", (m, w))
         end);
      logStep "🎉 CrowdSec installation completed!";
      logStep "";
      logStep "📋 Review the logs above for any errors or warnings.";
      logStep "🔍 Use ↑↓ arrows to scroll through the installation output.";
      logStep "✨ Press Ctrl+C to exit when you're ready.";
      completeStep ].

Definition startInstallation (m : model) : model * Cmd :=
  let m := Upd.setInstalling true m in
  (m, tea_Batch [spinner_Tick; performInstallationAsync m]).

Definition startCrowdsecInstallation (m : model) : model * Cmd :=
  let m := Upd.setInstalling true m in
  (m, tea_Batch [spinner_Tick; performCrowdsecInstallationAsync m]).

Definition createConfigFilesOnly (m : model) : model * Cmd :=
  let m := Upd.setInstalling true m in
  (m, tea_Batch [spinner_Tick; performConfigCreationAsync m]).

Definition createConfigFilesAndProceed (m : model) : model * Cmd :=
  let m := Upd.setInstalling true m in
  (m, tea_Batch [spinner_Tick; performConfigCreationAndProceedAsync m]).

(** ** Building a screen's fields *)

Fixpoint focusEach (i focus : Z) (fs : list field) : list field :=
  match fs with
  | [] => []
  | f :: rest =>
      (if isInput f.(ftype) then
         if i =? focus then setInput (textinput.Focus f.(input)) f
         else setInput (textinput.Blur f.(input)) f
       else f)
      :: focusEach (i + 1) focus rest
  end.

Definition updateFocus (m : model) : model :=
  Upd.setFields (focusEach 0 m.(focusIndex) m.(fields)) m.

Definition yesNo : list field :=
  [createButtonField "Yes"; createButtonField "No"].

(** An input field with its placeholder and, when [prefill] is not empty,
    that value set. *)
Definition seededInput (label : string) (required : bool)
    (placeholder prefill : string) : field :=
  let f := createInputField label required in
  let i := textinput.setPlaceholder placeholder f.(input) in
  setInput (if String.eqb prefill "" then i else textinput_SetValue prefill i)
    f.

Definition hybridDomainFields (c : Config) : list field :=
  [ seededInput "Public IP or Domain" true
      "203.0.113.1 or myserver.example.com"
      (if String.eqb c.(DashboardDomain) "" then getPublicIP
       else c.(DashboardDomain));
    createButtonField "Continue" ].

Definition standardDomainFields (c : Config) : list field :=
  let subdomain :=
    if negb (String.eqb c.(DashboardDomain) "")
       && negb (String.eqb c.(BaseDomain) "")
    then
      let sub := Go.TrimSuffix c.(DashboardDomain) ("." ++ c.(BaseDomain)) in
      if String.eqb sub c.(DashboardDomain) then None else Some sub
    else None in
  let f1 := createInputField "Dashboard Subdomain" false in
  let i1 := textinput.setPlaceholder "pangolin" f1.(input) in
  [ seededInput "Base Domain" true "example.com" c.(BaseDomain);
    setInput (match subdomain with
              | Some sub => textinput_SetValue sub i1
              | None => i1
              end) f1;
    seededInput "Let's Encrypt Email" true "admin@example.com"
      c.(LetsEncryptEmail);
    createButtonField "Continue" ].

Definition emailInputFields (c : Config) : list field :=
  let f3 := createInputField "SMTP Password" false in
  let i3 := textinput.setEchoPassword f3.(input) in
  [ seededInput "SMTP Host" false "" c.(EmailSMTPHost);
    seededInput "SMTP Port" false ""
      (if c.(EmailSMTPPort) >? 0 then Go.Itoa c.(EmailSMTPPort) else "587");
    seededInput "SMTP Username" false "" c.(EmailSMTPUser);
    setInput (if String.eqb c.(EmailSMTPPass) "" then i3
              else textinput_SetValue c.(EmailSMTPPass) i3) f3;
    seededInput "No-Reply Email" false "" c.(EmailNoReply);
    createButtonField "Continue" ].

Definition initScreen (m : model) : model :=
  let m := Upd.setErr None (Upd.setFocusIndex 0 (Upd.setFields [] m)) in
  let s := m.(currentScreen) in
  let c := m.(config) in
  let m :=
    if String.eqb s welcomeScreen then m
    else if String.eqb s hybridModeScreen then
      Upd.setFocusIndex (if c.(HybridMode) then 0 else 1)
        (Upd.setFields yesNo m)
    else if String.eqb s hybridCredentialsScreen then Upd.setFields yesNo m
    else if String.eqb s domainConfigScreen then
      if c.(HybridMode) then Upd.setFields (hybridDomainFields c) m
      else Upd.setFields (standardDomainFields c) m
    else if String.eqb s emailConfigScreen then
      Upd.setFocusIndex (if c.(EnableEmail) then 0 else 1)
        (Upd.setFields yesNo m)
    else if String.eqb s emailInputScreen then
      Upd.setFields (emailInputFields c) m
    else if String.eqb s advancedConfigScreen then Upd.setFields yesNo m
    else if String.eqb s containerScreen then
      Upd.setFocusIndex
        (if containerEqb c.(InstallationContainerType) Podman then 1 else 0)
        (Upd.setFields
           [createButtonField "Docker"; createButtonField "Podman"] m)
    else if String.eqb s installContainersScreen then Upd.setFields yesNo m
    else if String.eqb s crowdsecScreen then Upd.setFields yesNo m
    else if String.eqb s crowdsecManageScreen then Upd.setFields yesNo m
    else m in
  updateFocus m.

(** ** Handlers *)

Definition handleNavigation (m : model) (direction : Z) : model * Cmd :=
  if Go.len m.(fields) =? 0 then (m, nilCmd)
  else
    let m := Upd.setErr None m in
    let n := Go.len m.(fields) in
    let m :=
      if direction >? 0
      then Upd.setFocusIndex (Z.rem (m.(focusIndex) + 1) n) m
      else Upd.setFocusIndex (Z.rem (m.(focusIndex) - 1 + n) n) m in
    (updateFocus m, nilCmd).

Definition hasButtonFields (m : model) : bool :=
  existsb (fun f => isButton f.(ftype)) m.(fields).

Definition handleBack (m : model) : model * Cmd :=
  if String.eqb m.(currentScreen) welcomeScreen then (m, tea_Quit)
  else
    let prevScreen := getPrevScreen m.(currentScreen) m.(config) in
    if String.eqb prevScreen m.(currentScreen) then (m, tea_Quit)
    else (initScreen (Upd.setCurrentScreen prevScreen m), nilCmd).

(** [m.fields[i].input.Value()]. *)
Definition valueAt (m : model) (i : Z) : option string :=
  f <- Go.index m.(fields) i ;; Some (textinput.Value f.(input)).

(** The block [if len(m.fields) >= 5 { ... }] that [handleSubmit] and
    [nextScreen] both run on the e-mail input screen. *)
Definition saveEmailConfig (m : model) : option model :=
  if Go.len m.(fields) >=? 5 then
    host <- valueAt m 0 ;;
    portText <- valueAt m 1 ;;
    user <- valueAt m 2 ;;
    pass <- valueAt m 3 ;;
    noReply <- valueAt m 4 ;;
    let port := match Go.Atoi portText with Some p => p | None => 587 end in
    Some (Upd.setConfig
            (Cfg.setEmail host port user pass noReply m.(config)) m)
  else Some m.

Definition nextScreen (m : model) : option (model * Cmd) :=
  let next := getNextScreen m.(currentScreen) m.(lastChoice) m.(config) in
  m <- (if String.eqb m.(currentScreen) emailInputScreen
        then saveEmailConfig m else Some m) ;;
  let m := Upd.setCurrentScreen next m in
  if String.eqb next installScreen then Some (startInstallation m)
  else if String.eqb next crowdsecInstallScreen then
    Some (startCrowdsecInstallation m)
  else if String.eqb next completeScreen
          && String.eqb m.(currentScreen) completeScreen then
    Some (m, tea_Quit)
  else if String.eqb next installContainersScreen then
    Some (initScreen (Upd.setCurrentScreen next m), nilCmd)
  else if String.eqb m.(currentScreen) installContainersScreen
          && Bool.eqb m.(installing) false then
    if m.(lastChoice) =? 0 then Some (startInstallation m)
    else if negb m.(config).(HybridMode) then
      Some (initScreen (Upd.setCurrentScreen crowdsecScreen m), nilCmd)
    else Some (initScreen (Upd.setCurrentScreen setupTokenScreen m), nilCmd)
  else Some (initScreen m, nilCmd).

(** The first field the validation loop stops at. *)
Definition missingRequired (fs : list field) : option field :=
  find (fun f => f.(required) && String.eqb (textinput.Value f.(input)) "")
    fs.

Definition validateAndSaveDomainConfig (m : model) : option (model * Cmd) :=
  match missingRequired m.(fields) with
  | Some f => Some (Upd.setErr (Some (f.(label) ++ " is required")) m, nilCmd)
  | None =>
      if m.(config).(HybridMode) then
        dashboardDomain <- valueAt m 0 ;;
        nextScreen
          (Upd.setConfig
             (Cfg.setInstallGerbil true
                (Cfg.setDashboardDomain dashboardDomain m.(config))) m)
      else
        baseDomain <- valueAt m 0 ;;
        subdomain <- valueAt m 1 ;;
        email <- valueAt m 2 ;;
        let subdomain :=
          if String.eqb subdomain "" then "pangolin" else subdomain in
        let dashboardDomain := subdomain ++ "." ++ baseDomain in
        nextScreen
          (Upd.setConfig
             (Cfg.setInstallGerbil true
                (Cfg.setLetsEncryptEmail email
                   (Cfg.setDashboardDomain dashboardDomain
                      (Cfg.setBaseDomain baseDomain m.(config))))) m)
  end.

Definition handleSubmit (m : model) : option (model * Cmd) :=
  if String.eqb m.(currentScreen) domainConfigScreen then
    validateAndSaveDomainConfig m
  else if String.eqb m.(currentScreen) emailInputScreen then
    m <- saveEmailConfig m ;; nextScreen m
  else nextScreen m.

Definition handleButtonPress (m : model) : option (model * Cmd) :=
  let m := Upd.setLastChoice m.(focusIndex) m in
  let s := m.(currentScreen) in
  let c := m.(config) in
  let yes := m.(focusIndex) =? 0 in
  if String.eqb s welcomeScreen then nextScreen m
  else if String.eqb s hybridModeScreen then
    nextScreen (Upd.setConfig (Cfg.setHybridMode yes c) m)
  else if String.eqb s hybridCredentialsScreen then nextScreen m
  else if String.eqb s domainConfigScreen then validateAndSaveDomainConfig m
  else if String.eqb s emailConfigScreen then
    nextScreen (Upd.setConfig (Cfg.setEnableEmail yes c) m)
  else if String.eqb s emailInputScreen then handleSubmit m
  else if String.eqb s advancedConfigScreen then
    nextScreen (Upd.setConfig (Cfg.setEnableIPv6 yes c) m)
  else if String.eqb s containerScreen then
    nextScreen
      (Upd.setConfig
         (Cfg.setInstallationContainerType (if yes then Docker else Podman) c)
         m)
  else if String.eqb s installContainersScreen then
    Some (createConfigFilesAndProceed m)
  else if String.eqb s crowdsecScreen then
    nextScreen (Upd.setConfig (Cfg.setDoCrowdsecInstall yes c) m)
  else if String.eqb s crowdsecManageScreen then
    nextScreen
      (Upd.setConfig
         (Cfg.setDoCrowdsecInstall
            (if m.(focusIndex) =? 1 then false else true) c) m)
  else if String.eqb s setupTokenScreen then nextScreen m
  else Some (m, nilCmd).

Definition handleEnter (m : model) : option (model * Cmd) :=
  if Go.len m.(fields) =? 0 then nextScreen m
  else
    currentField <- Go.index m.(fields) m.(focusIndex) ;;
    match currentField.(ftype) with
    | fieldButton => handleButtonPress m
    | fieldInput =>
        if m.(focusIndex) <? Go.len m.(fields) - 1 then
          Some (handleNavigation m 1)
        else
          let hasButton :=
            existsb (fun f => isButton f.(ftype))
              (skipn (Z.to_nat (m.(focusIndex) + 1)) m.(fields)) in
          if hasButton then Some (handleNavigation m 1) else handleSubmit m
    end.

(** ** [Update] *)

(** The field under the focus when it is a text input:
    [m.focusIndex < len(m.fields) && m.fields[m.focusIndex].fieldType ==
    fieldInput].  A negative index panics. *)
Definition focusedInput (m : model) : option (option field) :=
  if m.(focusIndex) <? Go.len m.(fields) then
    f <- Go.index m.(fields) m.(focusIndex) ;;
    Some (if isInput f.(ftype) then Some f else None)
  else Some None.

(** The tail of [Update], reached by every message no case returned on:
    the focused input and, on the install screen, the viewport see the
    message. *)
Definition updateWidgets (m : model) (msg : Msg) (cmds : list Cmd)
    : option (model * Cmd) :=
  focused <- focusedInput m ;;
  let '(m, cmds) :=
    match focused with
    | Some f =>
        (Upd.setFields
           (Go.store m.(fields) (Z.to_nat m.(focusIndex))
              (setInput (textinput_Update f.(input) msg) f)) m,
         (cmds ++ [widgetCmd])%list)
    | None => (m, cmds)
    end in
  let '(m, cmds) :=
    if String.eqb m.(currentScreen) installScreen
    then (Upd.setLogsViewport (viewport_Update m.(logsViewport) msg) m,
          (cmds ++ [widgetCmd])%list)
    else (m, cmds) in
  Some (m, tea_Batch cmds).

Definition showLogs (m : model) : model :=
  Upd.setLogsViewport
    (viewport.GotoBottom
       (viewport.SetContent (Go.Join m.(installLogs) Go.newline)
          m.(logsViewport))) m.

Definition successMarker : string := "🎉 Installation completed successfully!".
Definition failureMarker : string := "Error".

(** The loop over a batch's lines: the command of the first line that holds
    a marker. *)
Fixpoint scanLogs (logs : list string) : Cmd :=
  match logs with
  | [] => nilCmd
  | log :: rest =>
      if Go.Contains log successMarker then returnMsg installCompleteMsg
      else if Go.Contains log failureMarker then
        returnMsg (installErrorMsg (Some "installation failed"))
      else scanLogs rest
  end.

Definition Update (m : model) (msg : Msg) : option (model * Cmd) :=
  match msg with
  | WindowSizeMsg w h => updateWidgets (Upd.setSize w h m) msg []
  | KeyMsg k =>
      focused <- focusedInput m ;;
      let focusedOnInput :=
        match focused with
        | Some f => textinput.Focused f.(input)
        | None => false
        end in
      let notInstall := negb (String.eqb m.(currentScreen) installScreen) in
      if Matches k m.(mkeys).(Quit) then Some (m, tea_Quit)
      else if Matches k m.(mkeys).(Help) then
        if negb focusedOnInput
        then Some (Upd.setShowHelp (negb m.(showHelp)) m, nilCmd)
        else updateWidgets m msg []
      else if Matches k m.(mkeys).(Back) then
        if notInstall && negb focusedOnInput then Some (handleBack m)
        else updateWidgets m msg []
      else if Matches k m.(mkeys).(Enter) then
        if notInstall then handleEnter m else updateWidgets m msg []
      else if Matches k m.(mkeys).(Tab) then
        if notInstall then Some (handleNavigation m 1)
        else updateWidgets m msg []
      else if Matches k m.(mkeys).(ShiftTab) then
        if notInstall then Some (handleNavigation m (-1))
        else updateWidgets m msg []
      else if Matches k m.(mkeys).(Up) then updateWidgets m msg []
      else if Matches k m.(mkeys).(Down) then updateWidgets m msg []
      else if Matches k m.(mkeys).(Left) then
        if notInstall && negb focusedOnInput && hasButtonFields m
        then Some (handleNavigation m (-1))
        else updateWidgets m msg []
      else if Matches k m.(mkeys).(Right) then
        if notInstall && negb focusedOnInput && hasButtonFields m
        then Some (handleNavigation m 1)
        else updateWidgets m msg []
      else updateWidgets m msg []
  | installStepMsg step => Some (Upd.setInstallStep step m, nilCmd)
  | installLogMsg log =>
      let m := Upd.setInstallLogs (m.(installLogs) ++ [log])%list m in
      let m :=
        if Go.len m.(installLogs) >? 200
        then Upd.setInstallLogs (skipn 1 m.(installLogs)) m
        else m in
      Some (showLogs m, nilCmd)
  | installBatchLogsMsg logs =>
      let m := Upd.setInstallLogs (m.(installLogs) ++ logs)%list m in
      let m :=
        if Go.len m.(installLogs) >? 200
        then
          let start := Go.len m.(installLogs) - 200 in
          Upd.setInstallLogs (skipn (Z.to_nat start) m.(installLogs)) m
        else m in
      Some (showLogs m, scanLogs logs)
  | installCompleteMsg => Some (Upd.setInstalling false m, nilCmd)
  | installErrorMsg e => Some (Upd.setErr e (Upd.setInstalling false m), nilCmd)
  | spinnerTickMsg =>
      if m.(installing)
      then updateWidgets (Upd.setSpinner (spinner_Update m.(spinner) msg) m)
             msg [widgetCmd]
      else updateWidgets m msg []
  | otherMsg _ => updateWidgets m msg []
  end.

(** ** The runtime's side

    Bubble Tea runs the steps of a [tea.Sequence] one after the other and
    hands each step's message to [Update]; a command [Update] returns is run
    in turn and its message handed to [Update] as well. *)

Fixpoint runSteps (steps : list Step) (st : model * World)
    : list Msg * (model * World) :=
  match steps with
  | [] => ([], st)
  | step :: rest =>
      let '(msg, st) := step st in
      let '(msgs, st) := runSteps rest st in
      (msg :: msgs, st)
  end.

(** One message through [Update], followed by the message of the command it
    returned when that command is [func() tea.Msg { return ... }].  ([Update]
    returns no command for the two messages such a command carries.) *)
Definition deliver (ctl : model) (msg : Msg) : option model :=
  r <- Update ctl msg ;;
  match snd r with
  | returnMsg msg' => r' <- Update (fst r) msg' ;; Some (fst r')
  | _ => Some (fst r)
  end.

Fixpoint deliverAll (ctl : model) (msgs : list Msg) : option model :=
  match msgs with
  | [] => Some ctl
  | msg :: rest => ctl <- deliver ctl msg ;; deliverAll ctl rest
  end.

(** The controller after the runtime has run a step sequence to its end. *)
Definition runSequence (ctl : model) (c : Cmd) (w : World) : option model :=
  match c with
  | tea_Sequence captured steps =>
      deliverAll ctl (fst (runSteps steps (captured, w)))
  | _ => Some ctl
  end.

End Controller.

(** ** The initial state

    [initialModel] reads the persisted configuration and probes ports 80
    and 443; both results are arguments here. *)

Definition initialModel (existingConfig : option Config)
    (portWarnings : list string) : model :=
  mkModel welcomeScreen
    (match existingConfig with Some c => c | None => emptyConfig end)
    [] 0 None (mkSpinner 0) 0 keys false 0 0 false 0 []
    (viewport.SetContent "" (viewport.New 70 12)) "" portWarnings.

(** ** A machine to run the wizard on

    Collaborators for running the definitions on concrete inputs: the
    widgets ignore what they are sent, [SetValue] stores the text as it is,
    commands print nothing and succeed, and writing the configuration files
    fails when [configError] says so. *)

Definition labCollaborators (configError : Go.error) : Collaborators unit :=
  {| textinput_Update := fun t _ => t;
     textinput_SetValue := fun s t =>
       mkTextInput s t.(tiFocus) t.(Placeholder) t.(EchoPassword) t.(tiWidth)
         t.(CharLimit);
     viewport_Update := fun v _ => v;
     spinner_Update := fun s _ => mkSpinner (s.(frame) + 1);
     getPublicIP := "203.0.113.1";
     TrimSpace := fun s => s;
     GOOS := "linux";
     loadVersions := fun c w => (c, w);
     generateRandomSecretKey := fun w => ("secret", w);
     createConfigFiles := fun _ w => (configError, w);
     moveFile := fun _ _ w => w;
     CombinedOutput := fun _ w => (("", None), w);
     Run := fun _ w => (None, w);
     isDockerInstalled := fun w => (true, w);
     installDocker := fun w => w;
     startDockerService := fun w => (None, w);
     isDockerRunning := fun w => (true, w);
     Sleep := fun _ w => w;
     stopContainers := fun _ w => (None, w);
     backupConfig := fun w => (None, w);
     installCrowdsec := fun _ w => (None, w) |}.

(** A model on [screen] with the fields [initScreen] gives it. *)
Definition labModel (screen : screenID) (c : Config) : model :=
  initScreen (ext := labCollaborators None)
    (Upd.setConfig c (Upd.setCurrentScreen screen (initialModel None []))).

(** Typing [text] into the input at position [i]. *)
Definition typeInto (i : nat) (text : string) (m : model) : model :=
  match nth_error m.(fields) i with
  | Some f =>
      Upd.setFields
        (Go.store m.(fields) i
           (setInput
              (mkTextInput text f.(input).(tiFocus) f.(input).(Placeholder)
                 f.(input).(EchoPassword) f.(input).(tiWidth)
                 f.(input).(CharLimit)) f)) m
  | None => m
  end.

(** ** States of the controller

    What the handlers rely on when they index [m.fields]: the focus is a
    valid index whenever there are fields, and the domain screen has the
    fields its mode reads. *)

Definition focusInRange (m : model) : Prop :=
  0 <= m.(focusIndex)
  /\ (m.(fields) = [] \/ m.(focusIndex) < Go.len m.(fields)).

Definition domainFieldsPresent (m : model) : Prop :=
  m.(currentScreen) = domainConfigScreen ->
  (if m.(config).(HybridMode) then 1 else 3) <= Go.len m.(fields).

Definition wellFormed (m : model) : Prop :=
  focusInRange m /\ domainFieldsPresent m.

(** The screens up to the question whether to install the containers. *)
Definition questionScreens : list screenID :=
  [ welcomeScreen; hybridModeScreen; hybridCredentialsScreen;
    domainConfigScreen; emailConfigScreen; emailInputScreen;
    advancedConfigScreen; containerScreen; installContainersScreen ].

(** On one of those screens, the last of them showing its buttons. *)
Definition beforeInstall (m : model) : Prop :=
  In m.(currentScreen) questionScreens
  /\ (m.(currentScreen) = installContainersScreen ->
      m.(fields) <> []
      /\ Forall (fun f => f.(ftype) = fieldButton) m.(fields)).

(** The inputs know where the focus is: the one under the focus index is
    focused and no other is. *)
Definition focusFollowsIndex (m : model) : Prop :=
  forall (i : nat) (f : field),
    nth_error m.(fields) i = Some f ->
    f.(ftype) = fieldInput ->
    textinput.Focused f.(input) = (Z.of_nat i =? m.(focusIndex)).

(** What a field is apart from the focus flag of its input. *)
Definition fieldContent (f : field)
    : fieldType * string * bool * (string * string * bool * Z * Z) :=
  (f.(ftype), f.(label), f.(required),
   (f.(input).(tiValue), f.(input).(Placeholder), f.(input).(EchoPassword),
    f.(input).(tiWidth), f.(input).(CharLimit))).

(** ** Reading an existing installation

    [loadExistingConfig] asks whether [config/config.yml] exists and reads
    the application and the Traefik configuration; what those three calls
    return is given here as arguments: whether the file is missing, and for
    each read either the value the wizard uses (the dashboard URL, the
    Let's Encrypt e-mail) or the text of the error. *)

Inductive result (A : Type) :=
| Ok (value : A)
| Err (message : string).

Arguments Ok {A} value.
Arguments Err {A} message.

Module Strings.

Definition HasPrefix (s prefix : string) : bool := String.prefix prefix s.

(** [strings.TrimPrefix]. *)
Definition TrimPrefix (s prefix : string) : string :=
  if HasPrefix s prefix
  then String.substring (String.length prefix)
         (String.length s - String.length prefix) s
  else s.

(** The pieces of [s] between the occurrences of [sep], taken from the left
    and not overlapping; [skip] characters of an occurrence just found are
    still to be passed over, and [piece] is the piece being read. *)
Fixpoint splitFrom (sep s : string) (skip : nat) (piece : string)
    : list string :=
  match s with
  | EmptyString => [piece]
  | String c rest =>
      match skip with
      | S k => splitFrom sep rest k piece
      | O =>
          if String.prefix sep s
          then piece :: splitFrom sep rest (String.length sep - 1) ""
          else splitFrom sep rest 0 (piece ++ String c "")
      end
  end.

(** [strings.Split], for a separator that is not empty. *)
Definition Split (s sep : string) : list string := splitFrom sep s 0 "".

End Strings.

Definition loadExistingConfig (missing : bool) (appConfig : result string)
    (traefikConfig : result string) : result Config :=
  if missing then Err "config file does not exist"
  else
    match appConfig with
    | Err e => Err ("failed to read app config: " ++ e)
    | Ok DashboardURL =>
        match traefikConfig with
        | Err e => Err ("failed to read traefik config: " ++ e)
        | Ok email =>
            let config := emptyConfig in
            let config :=
              if negb (String.eqb DashboardURL "") then
                let dashboardURL :=
                  if Strings.HasPrefix DashboardURL "https://"
                  then Strings.TrimPrefix DashboardURL "https://"
                  else if Strings.HasPrefix DashboardURL "http://"
                  then Strings.TrimPrefix DashboardURL "http://"
                  else DashboardURL in
                let parts := Strings.Split dashboardURL "." in
                if Go.len parts >=? 2 then
                  Cfg.setBaseDomain
                    (Go.Join (skipn (Z.to_nat (Go.len parts - 2)) parts) ".")
                    (Cfg.setDashboardDomain dashboardURL config)
                else config
              else config in
            Ok (Cfg.setInstallationContainerType Docker
                  (Cfg.setHybridMode false
                     (Cfg.setLetsEncryptEmail email config)))
        end
    end.

(** No dot in [s]. *)
Fixpoint dotFree (s : string) : bool :=
  match s with
  | EmptyString => true
  | String c rest => negb (Ascii.eqb c ".") && dotFree rest
  end.

(** ** Walks in the screen graph *)

(** [getNextScreen] applied along a list of answers and configurations, one
    pair for each step, and [getPrevScreen] along a list of
    configurations. *)
Fixpoint walkForward (s : screenID) (steps : list (Z * Config)) : screenID :=
  match steps with
  | [] => s
  | (choice, config) :: rest =>
      walkForward (getNextScreen s choice config) rest
  end.

Fixpoint walkBack (s : screenID) (configs : list Config) : screenID :=
  match configs with
  | [] => s
  | config :: rest => walkBack (getPrevScreen s config) rest
  end.

(** Measures for the two walks: a bound on the forward steps left before the
    exit screen, and on the backward steps left before the welcome screen. *)
Definition stepsToExit (s : screenID) : nat :=
  if String.eqb s completeScreen then 0
  else if String.eqb s setupTokenScreen then 1
  else if String.eqb s crowdsecInstallScreen then 2
  else if String.eqb s crowdsecManageScreen then 3
  else if String.eqb s crowdsecScreen then 4
  else if String.eqb s installScreen then 5
  else if String.eqb s installContainersScreen then 6
  else if String.eqb s containerScreen then 7
  else if String.eqb s advancedConfigScreen then 8
  else if String.eqb s emailInputScreen then 9
  else if String.eqb s emailConfigScreen then 10
  else if String.eqb s domainConfigScreen then 11
  else if String.eqb s hybridCredentialsScreen then 12
  else if String.eqb s hybridModeScreen then 13
  else if String.eqb s welcomeScreen then 14
  else 15.

Definition stepsToStart (s : screenID) : nat :=
  if String.eqb s welcomeScreen then 0
  else if String.eqb s hybridCredentialsScreen then 2
  else if String.eqb s domainConfigScreen then 3
  else if String.eqb s emailConfigScreen then 4
  else if String.eqb s emailInputScreen then 5
  else if String.eqb s advancedConfigScreen then 6
  else if String.eqb s containerScreen then 7
  else if String.eqb s installContainersScreen then 8
  else if String.eqb s installScreen then 9
  else if String.eqb s crowdsecScreen then 10
  else if String.eqb s crowdsecManageScreen then 11
  else if String.eqb s setupTokenScreen then 12
  else 1.

(** * Properties *)

(** ** The screen graph *)

Example declared_screens_distinct : NoDup declaredScreens.
Proof.
  unfold declaredScreens.
  repeat (constructor; [ simpl; intuition discriminate | ]).
  constructor.
Qed.

Example standard_path_forward :
  getNextScreen domainConfigScreen 0 emptyConfig = emailConfigScreen
  /\ getNextScreen emailConfigScreen 1 emptyConfig = advancedConfigScreen
  /\ getNextScreen installScreen 0 emptyConfig = crowdsecScreen
  /\ getNextScreen "no_such_screen" 0 emptyConfig = welcomeScreen.
Proof. repeat split; reflexivity. Qed.

Ltac use_screen_facts :=
  repeat match goal with
    | H : ?s = ?s -> _ |- _ => specialize (H eq_refl)
    | H : _ /\ _ |- _ => destruct H
    end.

Ltac unfold_screens :=
  cbv [ welcomeScreen hybridModeScreen hybridCredentialsScreen
        domainConfigScreen emailConfigScreen emailInputScreen
        advancedConfigScreen containerScreen installContainersScreen
        installScreen crowdsecScreen crowdsecManageScreen
        crowdsecInstallScreen setupTokenScreen completeScreen ] in *.

(** C1 (as stated, refuted).  Forward from the setup-token screen the wizard
    reaches the exit screen, whose predecessor is the exit screen itself.
    Under a configuration that says hybrid mode, answering No on the mode
    screen leads to the domain screen, whose predecessor is then the
    credentials screen.  And the setup-token screen reached by declining
    CrowdSec, on either CrowdSec question, goes back to the install
    screen. *)
Lemma next_prev_not_inverse :
  getPrevScreen (getNextScreen setupTokenScreen 0 emptyConfig) emptyConfig
    <> setupTokenScreen
  /\ getPrevScreen
       (getNextScreen hybridModeScreen 1 (Cfg.setHybridMode true emptyConfig))
       (Cfg.setHybridMode true emptyConfig)
     <> hybridModeScreen
  /\ getPrevScreen (getNextScreen crowdsecScreen 1 emptyConfig) emptyConfig
     <> crowdsecScreen
  /\ getPrevScreen (getNextScreen crowdsecManageScreen 1 emptyConfig)
       emptyConfig
     <> crowdsecManageScreen.
Proof. repeat split; vm_compute; discriminate. Qed.

(** C1 (amended).  [getPrevScreen] undoes [getNextScreen] from every screen
    up to the install screen, from the CrowdSec question when it is answered
    Yes and from the exit screen, under a configuration that agrees with the
    choice the way the controller records it: the mode flag is the answer of
    the mode screen and is set on the credentials screen, the e-mail screens
    are standard-mode screens whose flag is the answer of the e-mail
    question, and a hybrid installation has no CrowdSec flag. *)
Theorem next_prev_inverse (S0 : screenID) (choice : Z) (C : Config) :
  In S0 [ welcomeScreen; hybridModeScreen; hybridCredentialsScreen;
          domainConfigScreen; emailConfigScreen; emailInputScreen;
          advancedConfigScreen; containerScreen; installContainersScreen;
          installScreen; crowdsecScreen; completeScreen ] ->
  (S0 = hybridModeScreen -> C.(HybridMode) = (choice =? 0)) ->
  (S0 = hybridCredentialsScreen -> C.(HybridMode) = true) ->
  (S0 = emailConfigScreen ->
   C.(HybridMode) = false /\ C.(EnableEmail) = (choice =? 0)) ->
  (S0 = emailInputScreen ->
   C.(HybridMode) = false /\ C.(EnableEmail) = true) ->
  (S0 = installScreen -> C.(HybridMode) = true ->
   C.(DoCrowdsecInstall) = false) ->
  (S0 = crowdsecScreen -> choice = 0) ->
  getPrevScreen (getNextScreen S0 choice C) C = S0.
Proof.
  intros HS Hmode Hcred Hmail Hinput Hinstall Hcrowd.
  simpl in HS.
  repeat (destruct HS as [<- | HS]; [ use_screen_facts | ]);
    try contradiction.
  all: unfold getNextScreen, getPrevScreen.
  all: destruct C as [hybrid ? ? ? ? email ? ? ? ? ? ? ? crowdsec ? ?].
  all: simpl in *; try subst choice.
  all: try (remember (choice =? 0) as yes eqn:Eyes; clear Eyes; destruct yes).
  all: destruct hybrid, email, crowdsec; unfold_screens; simpl in *.
  all: intuition congruence.
Qed.

Lemma next_prev_inverse_witness :
  (Cfg.setHybridMode true emptyConfig).(HybridMode) = (0 =? 0)
  /\ getPrevScreen
       (getNextScreen hybridModeScreen 0 (Cfg.setHybridMode true emptyConfig))
       (Cfg.setHybridMode true emptyConfig)
     = hybridModeScreen.
Proof.
  split; [ reflexivity | ].
  apply next_prev_inverse; simpl;
    intuition (try discriminate; try reflexivity).
Defined.

(** ** The controller *)

Section ControllerProperties.

Context {World : Type} {ext : Collaborators World}.

(** *** Going back *)

Lemma handleBack_self_loop (m : model) :
  getPrevScreen m.(currentScreen) m.(config) = m.(currentScreen) ->
  handleBack m = (m, tea_Quit).
Proof.
  intros Hloop. unfold handleBack. rewrite Hloop, String.eqb_refl.
  destruct (String.eqb m.(currentScreen) welcomeScreen); reflexivity.
Qed.

Lemma handleBack_moves (m : model) :
  getPrevScreen m.(currentScreen) m.(config) <> m.(currentScreen) ->
  handleBack m
  = (initScreen
       (Upd.setCurrentScreen (getPrevScreen m.(currentScreen) m.(config)) m),
     nilCmd).
Proof.
  intros Hmove. unfold handleBack.
  destruct (String.eqb m.(currentScreen) welcomeScreen) eqn:Hw.
  - apply String.eqb_eq in Hw. exfalso. apply Hmove. now rewrite Hw.
  - destruct (String.eqb _ m.(currentScreen)) eqn:Hp; [ | reflexivity ].
    apply String.eqb_eq in Hp. contradiction.
Qed.

(** C9.  The entry screen is its own predecessor and the exit screen its own
    successor, whatever the configuration and the choice; [handleBack] on
    either of them leaves the model as it is and asks the runtime to quit. *)
Theorem terminal_screens_fixed (C : Config) (choice : Z) (m : model) :
  getPrevScreen welcomeScreen C = welcomeScreen
  /\ getNextScreen completeScreen choice C = completeScreen
  /\ handleBack (Upd.setCurrentScreen welcomeScreen m)
     = (Upd.setCurrentScreen welcomeScreen m, tea_Quit)
  /\ handleBack (Upd.setCurrentScreen completeScreen m)
     = (Upd.setCurrentScreen completeScreen m, tea_Quit).
Proof.
  repeat split; try reflexivity.
  all: apply handleBack_self_loop; reflexivity.
Qed.

(** *** The log sink *)

Local Open Scope list_scope.

Lemma keep_one (A : Type) (xs : list A) (a : A) :
  (length xs <= 200)%nat ->
  (if Go.len (xs ++ [a]) >? 200 then skipn 1 (xs ++ [a]) else xs ++ [a])
  = skipn (length (xs ++ [a]) - 200) (xs ++ [a]).
Proof.
  intros Hbound. unfold Go.len.
  assert (Hlen : length (xs ++ [a]) = S (length xs))
    by (rewrite length_app; simpl; lia).
  destruct (Z.gtb_spec (Z.of_nat (length (xs ++ [a]))) 200) as [Hgt | Hle].
  - replace (length (xs ++ [a]) - 200)%nat with 1%nat by lia. reflexivity.
  - replace (length (xs ++ [a]) - 200)%nat with 0%nat by lia. reflexivity.
Qed.

Lemma keep_batch (A : Type) (l : list A) :
  (if Go.len l >? 200 then skipn (Z.to_nat (Go.len l - 200)) l else l)
  = skipn (length l - 200) l.
Proof.
  unfold Go.len.
  destruct (Z.gtb_spec (Z.of_nat (length l)) 200) as [Hgt | Hle].
  - f_equal. lia.
  - replace (length l - 200)%nat with 0%nat by lia. reflexivity.
Qed.

Lemma keep_keep (A : Type) (xs ys : list A) :
  let kept := skipn (length xs - 200) xs in
  skipn (length (kept ++ ys) - 200) (kept ++ ys)
  = skipn (length (xs ++ ys) - 200) (xs ++ ys).
Proof.
  intros kept. subst kept.
  set (k := (length xs - 200)%nat).
  assert (Hshift : skipn k xs ++ ys = skipn k (xs ++ ys)).
  { rewrite skipn_app. replace (k - length xs)%nat with 0%nat by lia.
    reflexivity. }
  rewrite Hshift, skipn_skipn. f_equal.
  rewrite length_skipn, length_app. lia.
Qed.

Lemma kept_length (A : Type) (l : list A) :
  (length (skipn (length l - 200) l) <= 200)%nat.
Proof. rewrite length_skipn. lia. Qed.

Lemma Update_installLogMsg (m : model) (log : string) :
  Update m (installLogMsg log)
  = Some
      (showLogs
         (Upd.setInstallLogs
            (if Go.len (m.(installLogs) ++ [log]) >? 200
             then skipn 1 (m.(installLogs) ++ [log])
             else (m.(installLogs) ++ [log])%list) m),
       nilCmd).
Proof.
  unfold Update. cbn [installLogs Upd.setInstallLogs].
  destruct (Go.len (m.(installLogs) ++ [log]) >? 200); reflexivity.
Qed.

Lemma Update_installBatchLogsMsg (m : model) (logs : list string) :
  Update m (installBatchLogsMsg logs)
  = Some
      (showLogs
         (Upd.setInstallLogs
            (skipn (length (m.(installLogs) ++ logs) - 200)
               (m.(installLogs) ++ logs)) m),
       scanLogs logs).
Proof.
  rewrite <- keep_batch.
  unfold Update. cbn [installLogs Upd.setInstallLogs].
  destruct (Go.len (m.(installLogs) ++ logs) >? 200); reflexivity.
Qed.

Lemma deliver_installLogMsg (m : model) (log : string) :
  exists m',
    deliver m (installLogMsg log) = Some m'
    /\ m'.(installLogs)
       = (if Go.len (m.(installLogs) ++ [log]) >? 200
          then skipn 1 (m.(installLogs) ++ [log])
          else (m.(installLogs) ++ [log])%list)
    /\ m'.(installing) = m.(installing)
    /\ m'.(err) = m.(err)
    /\ m'.(currentScreen) = m.(currentScreen)
    /\ m'.(config) = m.(config).
Proof.
  unfold deliver. rewrite Update_installLogMsg. simpl.
  eexists. split; [ reflexivity | ]. repeat split.
Qed.

(** Single-line events change neither the busy flag nor the error, however
    many of them arrive and whatever they say. *)
Lemma deliverAll_logs_frame (msgs : list Msg) :
  Forall (fun msg => exists log, msg = installLogMsg log) msgs ->
  forall m,
  exists m',
    deliverAll m msgs = Some m'
    /\ m'.(installing) = m.(installing)
    /\ m'.(err) = m.(err)
    /\ m'.(currentScreen) = m.(currentScreen)
    /\ m'.(config) = m.(config).
Proof.
  induction 1 as [ | msg rest [log ->] _ IH ]; intros m.
  - exists m. repeat split.
  - destruct (deliver_installLogMsg m log)
      as (m1 & Hrun & _ & Hbusy & Herr & Hscreen & Hcfg).
    destruct (IH m1) as (m' & Hrest & Hbusy' & Herr' & Hscreen' & Hcfg').
    exists m'. cbn [deliverAll map]. rewrite Hrun. cbn [bind]. split; [ exact Hrest | ].
    repeat split; congruence.
Qed.

Lemma deliverAll_logs_kept (lines : list string) :
  forall m,
  (length m.(installLogs) <= 200)%nat ->
  exists m',
    deliverAll m (map installLogMsg lines) = Some m'
    /\ m'.(installLogs)
       = skipn (length (m.(installLogs) ++ lines) - 200)
           (m.(installLogs) ++ lines).
Proof.
  induction lines as [ | line rest IH ]; intros m Hbound.
  - exists m. split; [ reflexivity | ].
    rewrite app_nil_r. replace (length m.(installLogs) - 200)%nat with 0%nat
      by lia. reflexivity.
  - destruct (deliver_installLogMsg m line) as (m1 & Hrun & Hlogs & _).
    rewrite (@keep_one _ _ line Hbound) in Hlogs.
    destruct (IH m1) as (m' & Hrest & Hkept).
    { rewrite Hlogs. apply kept_length. }
    exists m'. cbn [deliverAll map]. rewrite Hrun. cbn [bind]. split; [ exact Hrest | ].
    rewrite Hkept, Hlogs, keep_keep, <- app_assoc. reflexivity.
Qed.

(** C10.  A single-line log event returns no command and gives back the
    model it was given with the line appended to the sink and the viewport
    showing the sink from its bottom: the busy flag, the error and the
    current screen are as before, whatever the line says.  The markers are
    looked for in the lines of a batch event only. *)
Theorem single_log_only_appends (m : model) (log : string) :
  exists m',
    Update m (installLogMsg log) = Some (m', nilCmd)
    /\ m' = showLogs (Upd.setInstallLogs m'.(installLogs) m)
    /\ m'.(installLogs)
       = (if Go.len (m.(installLogs) ++ [log]) >? 200
          then skipn 1 (m.(installLogs) ++ [log])
          else (m.(installLogs) ++ [log])%list)
    /\ m'.(installing) = m.(installing)
    /\ m'.(err) = m.(err)
    /\ m'.(currentScreen) = m.(currentScreen)
    /\ (exists mb,
          Update m (installBatchLogsMsg [log]) = Some (mb, scanLogs [log]))
    /\ scanLogs (World := World) [successMarker]
       = returnMsg installCompleteMsg
    /\ scanLogs (World := World) [failureMarker]
       = returnMsg (installErrorMsg (Some "installation failed")).
Proof.
  eexists. split; [ apply Update_installLogMsg | ].
  repeat split.
  eexists. apply Update_installBatchLogsMsg.
Qed.

(** *** The step sequences *)

Ltac split_step :=
  repeat (simpl;
          match goal with
          | |- context [match ?x with _ => _ end] => destruct x
          end).

Lemma runSteps_logs (steps : list (@Step World)) :
  Forall (fun step : @Step World =>
            forall st, exists log, fst (step st) = installLogMsg log) steps ->
  forall st,
    Forall (fun msg => exists log, msg = installLogMsg log)
      (fst (runSteps steps st)).
Proof.
  induction 1 as [ | step rest Hstep _ IH ]; intros st; simpl.
  - constructor.
  - destruct (Hstep st) as [log Hlog].
    destruct (step st) as [msg st1]. simpl in Hlog. subst msg.
    specialize (IH st1). destruct (runSteps rest st1) as [msgs st2].
    simpl in *. constructor; [ now exists log | exact IH ].
Qed.

Lemma logStep_logs (line : string) (st : model * World) :
  exists log, fst (logStep line st) = installLogMsg log.
Proof. now exists line. Qed.

(** Every step of the primary installation answers with a single-line log
    event, whatever its external actions did. *)
Lemma performInstallationAsync_logs (captured : model) (w : World) :
  forall steps,
    performInstallationAsync captured = tea_Sequence captured steps ->
    Forall (fun msg => exists log, msg = installLogMsg log)
      (fst (runSteps steps (captured, w))).
Proof.
  intros steps Hsteps. injection Hsteps as <-.
  apply runSteps_logs.
  repeat (apply Forall_cons; [ | try apply logStep_logs ]);
    try apply Forall_nil.
  all: intros [m w0].
  all: unfold loadConfigurationStep, createConfigFilesStep, testRuntimeStep,
         announceDockerStep, installDockerStep, waitDockerStep,
         checkDockerStep, checkComposeFileStep, announceStep, composeStep,
         composeCommand, dockerMissing, logStep.
  all: split_step; eexists; reflexivity.
Qed.

Lemma deliver_log (m : model) (log : string) :
  deliver m (installLogMsg log)
  = Some
      (showLogs
         (Upd.setInstallLogs
            (if Go.len (m.(installLogs) ++ [log]) >? 200
             then skipn 1 (m.(installLogs) ++ [log])
             else m.(installLogs) ++ [log]) m)).
Proof. unfold deliver. rewrite Update_installLogMsg. reflexivity. Qed.

Lemma deliverAll_app (m : model) (first rest : list Msg) :
  deliverAll m (first ++ rest)
  = (m1 <- deliverAll m first ;; deliverAll m1 rest).
Proof.
  revert m. induction first as [ | msg first IH ]; intros m; simpl.
  - reflexivity.
  - destruct (deliver m msg) as [m1 | ]; simpl; [ apply IH | reflexivity ].
Qed.

Lemma runSteps_app (first rest : list (@Step World)) (st : model * World) :
  fst (runSteps (first ++ rest) st)
  = fst (runSteps first st) ++ fst (runSteps rest (snd (runSteps first st))).
Proof.
  revert st. induction first as [ | step first IH ]; intros st; simpl.
  - reflexivity.
  - destruct (step st) as [msg st1]. specialize (IH st1).
    destruct (runSteps (first ++ rest) st1) as [msgs st2].
    destruct (runSteps first st1) as [msgs1 st3].
    simpl in *. now rewrite IH.
Qed.

Lemma loadConfigurationStep_logs (st : model * World) :
  exists log, fst (loadConfigurationStep st) = installLogMsg log.
Proof.
  destruct st as [m w]. unfold loadConfigurationStep.
  destruct (loadVersions m.(config) w) as [c w1].
  destruct (generateRandomSecretKey w1) as [secret w2].
  eexists. reflexivity.
Qed.

Lemma createConfigFilesStep_logs (st : model * World) :
  exists log, fst (createConfigFilesStep st) = installLogMsg log.
Proof.
  destruct st as [m w]. unfold createConfigFilesStep.
  destruct (createConfigFiles m.(config) w) as [[e | ] w1];
    eexists; reflexivity.
Qed.

(** C2 (the code evaluated where it departs from the claim).  Whatever the
    external actions do, the primary installation sequence run to its end
    leaves the busy flag and the error of the controller as they were, and
    so does any sequence of steps that emit single log lines, the success
    marker among them: a controller that [startInstallation] made busy stays
    busy. *)
Theorem primary_install_never_completes (ctl captured : model) (w : World)
    (lines : list string) :
  (exists ctl',
     runSequence ctl (performInstallationAsync captured) w = Some ctl'
     /\ ctl'.(installing) = ctl.(installing)
     /\ ctl'.(err) = ctl.(err))
  /\ (exists ctl',
        runSequence ctl
          (tea_Sequence captured (map logStep (lines ++ [successMarker]))) w
        = Some ctl'
        /\ ctl'.(installing) = ctl.(installing)
        /\ ctl'.(err) = ctl.(err)).
Proof.
  split.
  - destruct (deliverAll_logs_frame _
                (@performInstallationAsync_logs captured w _ eq_refl) ctl)
      as (ctl' & Hrun & Hbusy & Herr & _).
    exists ctl'. repeat split; assumption.
  - assert (Hlogs : Forall (fun step : @Step World =>
                      forall st, exists log, fst (step st) = installLogMsg log)
                      (map logStep (lines ++ [successMarker]))).
    { apply Forall_forall. intros step Hin. apply in_map_iff in Hin.
      destruct Hin as (line & <- & _). apply logStep_logs. }
    destruct (deliverAll_logs_frame _
                (runSteps_logs _ Hlogs (captured, w)) ctl)
      as (ctl' & Hrun & Hbusy & Herr & _).
    exists ctl'. repeat split; assumption.
Qed.

(** C3 (the code evaluated where it departs from the claim).  Five steps of
    which the third emits a line with the failure marker: all five lines
    reach an empty sink in order, and neither the error nor the busy flag of
    the controller changes.  And the configuration-writing sequence ends with
    the controller idle and its error as it was, whatever writing the files
    returned. *)
Theorem failure_line_not_reported (ctl captured : model) (w : World)
    (l1 l2 l4 l5 : string) :
  (exists ctl',
     runSequence (Upd.setInstallLogs [] ctl)
       (tea_Sequence captured
          (map logStep
             [l1; l2; (failureMarker ++ ": step 3 failed")%string; l4; l5]))
       w
     = Some ctl'
     /\ ctl'.(installLogs)
        = [l1; l2; (failureMarker ++ ": step 3 failed")%string; l4; l5]
     /\ ctl'.(err) = ctl.(err)
     /\ ctl'.(installing) = ctl.(installing))
  /\ (exists ctl',
        runSequence ctl (performConfigCreationAsync captured) w = Some ctl'
        /\ ctl'.(err) = ctl.(err)
        /\ ctl'.(installing) = false).
Proof.
  split.
  - eexists. split; [ reflexivity | ]. repeat split.
  - unfold runSequence, performConfigCreationAsync.
    match goal with
    | |- context [runSteps [?s1; ?s2; ?s3; ?s4; ?s5; ?s6; ?s7] ?st] =>
        change [s1; s2; s3; s4; s5; s6; s7]
          with ([s1; s2; s3; s4; s5; s6] ++ [s7]);
        rewrite runSteps_app;
        assert (Hlogs : Forall (fun msg => exists log, msg = installLogMsg log)
                          (fst (runSteps [s1; s2; s3; s4; s5; s6] st)))
    end.
    { apply runSteps_logs.
      repeat (apply Forall_cons; [ | try apply logStep_logs ]);
        try apply Forall_nil.
      all: first [ apply loadConfigurationStep_logs
                 | apply createConfigFilesStep_logs
                 | intros st; apply logStep_logs ]. }
    rewrite deliverAll_app.
    destruct (deliverAll_logs_frame _ Hlogs ctl)
      as (ctl1 & -> & _ & Herr & _).
    cbn [bind deliverAll]. eexists. split; [ reflexivity | ].
    simpl. split; [ exact Herr | reflexivity ].
Qed.

(** *** Screens and fields *)

Lemma focusEach_length (fs : list field) :
  forall i focus, length (focusEach i focus fs) = length fs.
Proof.
  induction fs as [ | f rest IH ]; intros i focus; simpl;
    [ reflexivity | now rewrite IH ].
Qed.

(** [initScreen] replaces the fields, the focus and the error, and nothing
    else. *)
Lemma initScreen_frame (m : model) :
  exists fs i,
    initScreen m = Upd.setFields fs (Upd.setFocusIndex i (Upd.setErr None m)).
Proof.
  unfold initScreen, updateFocus.
  cbn [currentScreen config Upd.setErr Upd.setFocusIndex Upd.setFields].
  repeat match goal with
    | |- context [if String.eqb (currentScreen m) ?s then _ else _] =>
        destruct (String.eqb (currentScreen m) s)
    end;
    try destruct (HybridMode (config m));
    eexists; eexists; reflexivity.
Qed.

Lemma handleNavigation_forward (m : model) :
  0 <= m.(focusIndex) < Go.len m.(fields) - 1 ->
  handleNavigation (World := World) m 1
  = (updateFocus
       (Upd.setFocusIndex (m.(focusIndex) + 1) (Upd.setErr None m)),
     nilCmd).
Proof.
  intros Hrange. unfold handleNavigation.
  destruct (Z.eqb_spec (Go.len m.(fields)) 0) as [Hnone | _]; [ lia | ].
  cbn [fields focusIndex Upd.setErr Upd.setFocusIndex].
  change (1 >? 0) with true. cbv iota.
  rewrite Z.rem_small by lia. reflexivity.
Qed.

Lemma index_in_range (A : Type) (l : list A) (i : Z) (a : A) :
  Go.index l i = Some a -> 0 <= i < Go.len l.
Proof.
  unfold Go.index.
  destruct (Z.leb_spec 0 i), (Z.ltb_spec i (Go.len l)); simpl;
    try discriminate. lia.
Qed.

(** *** Moving forward *)

Lemma valueAt_in_range (m : model) (i : Z) :
  0 <= i < Go.len m.(fields) -> exists v, valueAt m i = Some v.
Proof.
  intros Hrange. unfold valueAt, Go.index.
  destruct (Z.leb_spec 0 i); [ | lia ].
  destruct (Z.ltb_spec i (Go.len m.(fields))); [ | lia ].
  simpl. destruct (nth_error m.(fields) (Z.to_nat i)) as [f | ] eqn:Hnth.
  - eexists. reflexivity.
  - apply nth_error_None in Hnth. unfold Go.len in Hrange. lia.
Qed.

(** What the e-mail block may change: the five e-mail settings. *)
Lemma saveEmailConfig_frame (m : model) :
  exists c,
    saveEmailConfig m = Some (Upd.setConfig c m)
    /\ c.(DashboardDomain) = m.(config).(DashboardDomain)
    /\ c.(BaseDomain) = m.(config).(BaseDomain)
    /\ c.(HybridMode) = m.(config).(HybridMode).
Proof.
  unfold saveEmailConfig.
  destruct (Z.geb_spec (Go.len m.(fields)) 5) as [Hfive | Hfew].
  - destruct (valueAt_in_range m 0) as [v0 ->]; [ lia | ].
    destruct (valueAt_in_range m 1) as [v1 ->]; [ lia | ].
    destruct (valueAt_in_range m 2) as [v2 ->]; [ lia | ].
    destruct (valueAt_in_range m 3) as [v3 ->]; [ lia | ].
    destruct (valueAt_in_range m 4) as [v4 ->]; [ lia | ].
    cbn [bind]. eexists. split; [ reflexivity | ]. repeat split.
  - exists m.(config). split; [ | repeat split ].
    destruct m; reflexivity.
Qed.

(** [nextScreen] never panics; it leaves the domain settings and the mode as
    they are; and when the screen graph answers with one of the two
    installation screens, the model it returns is on that screen and busy. *)
Lemma nextScreen_frame (m : model) :
  exists m' cmd,
    nextScreen m = Some (m', cmd)
    /\ m'.(config).(DashboardDomain) = m.(config).(DashboardDomain)
    /\ m'.(config).(BaseDomain) = m.(config).(BaseDomain)
    /\ m'.(config).(HybridMode) = m.(config).(HybridMode)
    /\ m'.(installLogs) = m.(installLogs)
    /\ (let next :=
          getNextScreen m.(currentScreen) m.(lastChoice) m.(config) in
        next = installScreen \/ next = crowdsecInstallScreen ->
        m'.(currentScreen) = next /\ m'.(installing) = true).
Proof.
  unfold nextScreen.
  set (next := getNextScreen m.(currentScreen) m.(lastChoice) m.(config)).
  assert (Hsaved : exists c,
            (if String.eqb m.(currentScreen) emailInputScreen
             then saveEmailConfig m else Some m) = Some (Upd.setConfig c m)
            /\ c.(DashboardDomain) = m.(config).(DashboardDomain)
            /\ c.(BaseDomain) = m.(config).(BaseDomain)
            /\ c.(HybridMode) = m.(config).(HybridMode)).
  { destruct (String.eqb m.(currentScreen) emailInputScreen).
    - apply saveEmailConfig_frame.
    - exists m.(config). split; [ destruct m; reflexivity | repeat split ]. }
  destruct Hsaved as (c & -> & Hdash & Hbase & Hmode). cbn [bind].
  cbn [currentScreen Upd.setCurrentScreen installing lastChoice config
       Upd.setConfig].
  destruct (String.eqb next installScreen) eqn:Hinstall.
  { apply String.eqb_eq in Hinstall. do 2 eexists.
    split; [ reflexivity | ]. simpl. repeat split; assumption. }
  destruct (String.eqb next crowdsecInstallScreen) eqn:Hcrowdsec.
  { apply String.eqb_eq in Hcrowdsec. do 2 eexists.
    split; [ reflexivity | ]. simpl. repeat split; assumption. }
  assert (Hother : next = installScreen \/ next = crowdsecInstallScreen ->
                   False).
  { intros [Hn | Hn]; rewrite Hn, String.eqb_refl in *; discriminate. }
  repeat match goal with
    | |- context [if ?b then _ else _] =>
        match b with
        | context [if _ then _ else _] => fail 1
        | _ => destruct b
        end
    end.
  all: try match goal with
         | |- context [initScreen ?x] =>
             destruct (initScreen_frame x) as (fs & i & ->)
         end.
  all: do 2 eexists; split; [ reflexivity | ]; simpl.
  all: repeat split; try assumption; intros; exfalso; tauto.
Qed.

(** *** Answering a question and going back

    X13.  On the question screens whose answer the screen graph branches on, the
    button records the answer in the configuration before asking for the
    next screen, so the predecessor of the screen reached is the screen the
    answer was given on. *)
Lemma answer_then_back (m m' : model) (cmd : Cmd) :
  In m.(currentScreen)
    [hybridModeScreen; emailConfigScreen; advancedConfigScreen;
     containerScreen] ->
  (m.(currentScreen) = emailConfigScreen ->
   m.(config).(HybridMode) = false) ->
  handleButtonPress m = Some (m', cmd) ->
  m'.(currentScreen)
  = getNextScreen m.(currentScreen) m'.(lastChoice) m'.(config)
  /\ getPrevScreen m'.(currentScreen) m'.(config) = m.(currentScreen).
Proof.
  intros Hscreen Hstandard. unfold handleButtonPress, nextScreen.
  cbn [currentScreen config focusIndex lastChoice installing
       Upd.setLastChoice Upd.setConfig Upd.setCurrentScreen].
  simpl in Hscreen.
  destruct Hscreen as [Hs | [Hs | [Hs | [Hs | []]]]]; rewrite <- Hs in *.
  all: try specialize (Hstandard eq_refl).
  all: unfold getNextScreen; unfold_screens; simpl String.eqb; cbv iota.
  all: destruct (m.(focusIndex) =? 0) eqn:Hyes; simpl String.eqb; cbv iota.
  all: cbn [bind andb].
  all: match goal with
       | |- context [initScreen ?x] =>
           destruct (initScreen_frame x) as (fs & i & ->)
       end.
  all: intros [= <- _].
  all: cbn [currentScreen config lastChoice Upd.setFields Upd.setFocusIndex
            Upd.setErr Upd.setCurrentScreen Upd.setConfig Upd.setLastChoice].
  all: rewrite ?Hyes.
  all: unfold getPrevScreen; simpl String.eqb; cbv iota.
  all: destruct m.(config); simpl in *; subst; split; reflexivity.
Qed.

(** C5 (amended).  When no required field is empty, submitting the domain
    screen succeeds and derives the dashboard domain: in standard mode it is
    the subdomain typed in, or [pangolin] when none was, then a dot, then
    the base domain, which is stored as typed; in hybrid mode it is the
    address as typed and the base domain is left as it was: one that was
    unset remains unset, and one that was set stays set. *)
Theorem dashboard_domain_derived (m : model) :
  missingRequired m.(fields) = None ->
  (m.(config).(HybridMode) = false ->
   forall base sub email,
     valueAt m 0 = Some base -> valueAt m 1 = Some sub ->
     valueAt m 2 = Some email ->
     exists m' cmd,
       validateAndSaveDomainConfig m = Some (m', cmd)
       /\ m'.(config).(DashboardDomain)
          = ((if String.eqb sub "" then "pangolin" else sub) ++ "." ++ base)%string
       /\ m'.(config).(BaseDomain) = base)
  /\ (m.(config).(HybridMode) = true ->
      forall raw,
        valueAt m 0 = Some raw ->
        exists m' cmd,
          validateAndSaveDomainConfig m = Some (m', cmd)
          /\ m'.(config).(DashboardDomain) = raw
          /\ m'.(config).(BaseDomain) = m.(config).(BaseDomain)).
Proof.
  intros Hvalid. unfold validateAndSaveDomainConfig. rewrite Hvalid.
  split.
  - intros Hstandard base sub email -> -> ->. rewrite Hstandard. cbn [bind].
    match goal with
    | |- context [nextScreen ?x] =>
        destruct (nextScreen_frame x) as (m' & cmd & -> & Hdash & Hbase & _)
    end.
    exists m', cmd. split; [ reflexivity | ].
    rewrite Hdash, Hbase. split; reflexivity.
  - intros Hhybrid raw ->. rewrite Hhybrid. cbn [bind].
    match goal with
    | |- context [nextScreen ?x] =>
        destruct (nextScreen_frame x) as (m' & cmd & -> & Hdash & Hbase & _)
    end.
    exists m', cmd. split; [ reflexivity | ].
    rewrite Hdash, Hbase. split; reflexivity.
Qed.

(** *** Validation *)

Lemma focusEach_required (fs : list field) :
  forall i focus, map required (focusEach i focus fs) = map required fs.
Proof.
  induction fs as [ | f rest IH ]; intros i focus; simpl;
    [ reflexivity | ].
  rewrite IH. f_equal.
  destruct (isInput f.(ftype)); [ destruct (i =? focus) | ]; reflexivity.
Qed.

(** Only the domain screen is built with required fields. *)
Lemma required_only_on_domain (m : model) :
  In true (map required (initScreen m).(fields)) ->
  m.(currentScreen) = domainConfigScreen.
Proof.
  destruct (String.eqb m.(currentScreen) domainConfigScreen) eqn:Hdomain;
    [ intros _; now apply String.eqb_eq | ].
  unfold initScreen, updateFocus.
  cbn [currentScreen config fields Upd.setErr Upd.setFocusIndex
       Upd.setFields].
  rewrite Hdomain.
  repeat match goal with
    | |- context [if String.eqb (currentScreen m) ?s then _ else _] =>
        destruct (String.eqb (currentScreen m) s)
    end.
  all: cbn [fields Upd.setFields Upd.setFocusIndex Upd.setErr focusIndex].
  all: rewrite focusEach_required; simpl; intuition discriminate.
Qed.

Lemma handleButtonPress_domain (m : model) :
  m.(currentScreen) = domainConfigScreen ->
  handleButtonPress m
  = validateAndSaveDomainConfig (Upd.setLastChoice m.(focusIndex) m).
Proof.
  intros Hscreen. unfold handleButtonPress.
  cbn [currentScreen Upd.setLastChoice]. rewrite Hscreen. reflexivity.
Qed.

Lemma handleSubmit_domain (m : model) :
  m.(currentScreen) = domainConfigScreen ->
  handleSubmit m = validateAndSaveDomainConfig m.
Proof. intros Hscreen. unfold handleSubmit. now rewrite Hscreen. Qed.

Lemma required_message_not_empty (name : string) :
  (name ++ " is required")%string <> "".
Proof. destruct name; discriminate. Qed.

(** C7.  On a screen whose fields are the ones [initScreen] builds for it,
    whatever was typed into them: when a required field is empty, submitting
    the screen, by [handleSubmit] or by its button, returns no command and
    the same model with its error set to the label of the first such field
    followed by [is required]; the screen and the configuration are the ones
    before. *)
Theorem required_field_blocks_submit (m : model) :
  map (fun f => (f.(ftype), f.(label), f.(required))) m.(fields)
  = map (fun f => (f.(ftype), f.(label), f.(required)))
      (initScreen m).(fields) ->
  (exists f,
     In f m.(fields) /\ f.(required) = true
     /\ textinput.Value f.(input) = "") ->
  exists f ms mb,
    In f m.(fields) /\ f.(required) = true
    /\ textinput.Value f.(input) = ""
    /\ handleSubmit m = Some (ms, nilCmd)
    /\ handleButtonPress m = Some (mb, nilCmd)
    /\ ms.(err) = Some (f.(label) ++ " is required")%string
    /\ mb.(err) = ms.(err)
    /\ (f.(label) ++ " is required")%string <> ""
    /\ ms.(currentScreen) = m.(currentScreen)
    /\ mb.(currentScreen) = m.(currentScreen)
    /\ ms.(config) = m.(config)
    /\ mb.(config) = m.(config).
Proof.
  intros Hshape (f & Hin & Hreq & Hempty).
  assert (Hscreen : m.(currentScreen) = domainConfigScreen).
  { apply required_only_on_domain.
    assert (Hsame : map required m.(fields)
                    = map required (initScreen m).(fields)).
    { apply (f_equal (map snd)) in Hshape. rewrite !map_map in Hshape.
      exact Hshape. }
    rewrite <- Hsame, <- Hreq. now apply in_map. }
  destruct (missingRequired m.(fields)) as [g | ] eqn:Hfind.
  - apply find_some in Hfind as Hg. destruct Hg as [Hgin Hg].
    apply andb_true_iff in Hg. destruct Hg as [Hgreq Hgempty].
    apply String.eqb_eq in Hgempty.
    exists g. do 2 eexists.
    rewrite (handleSubmit_domain m Hscreen),
      (handleButtonPress_domain m Hscreen).
    unfold validateAndSaveDomainConfig.
    cbn [fields Upd.setLastChoice]. rewrite Hfind.
    repeat (split; [ first [ assumption | reflexivity ] | ]).
    split; [ apply required_message_not_empty | ].
    repeat split.
  - exfalso. unfold missingRequired in Hfind.
    pose proof (find_none _ _ Hfind f Hin) as Hf.
    simpl in Hf. rewrite Hreq, Hempty in Hf. discriminate.
Qed.

(** *** Keys on the install screen *)

Lemma focusedInput_total (m : model) :
  0 <= m.(focusIndex) -> exists r, focusedInput m = Some r.
Proof.
  intros Hpos. unfold focusedInput.
  destruct (Z.ltb_spec m.(focusIndex) (Go.len m.(fields))) as [Hin | Hout];
    [ | now eexists ].
  unfold Go.index.
  destruct (Z.leb_spec 0 m.(focusIndex)); [ | lia ].
  destruct (Z.ltb_spec m.(focusIndex) (Go.len m.(fields))); [ | lia ].
  simpl.
  destruct (nth_error m.(fields) (Z.to_nat m.(focusIndex))) as [f | ] eqn:Hnth.
  - now eexists.
  - apply nth_error_None in Hnth. unfold Go.len in Hin. lia.
Qed.

(** The tail of [Update] touches the fields and the viewport only. *)
Lemma updateWidgets_frame (m : model) (msg : Msg) (cmds : list Cmd) :
  forall r, focusedInput m = Some r ->
  exists m' cmd,
    updateWidgets m msg cmds = Some (m', cmd)
    /\ m'.(currentScreen) = m.(currentScreen)
    /\ m'.(focusIndex) = m.(focusIndex)
    /\ m'.(config) = m.(config)
    /\ m'.(installing) = m.(installing)
    /\ m'.(err) = m.(err).
Proof.
  intros r Hr. unfold updateWidgets. rewrite Hr. cbn [bind].
  destruct r as [f | ];
    cbn [currentScreen Upd.setFields];
    destruct (String.eqb m.(currentScreen) installScreen);
    do 2 eexists; (split; [ reflexivity | ]); repeat split.
Qed.

(** C4 (amended).  When the screen graph answers with the install screen or
    the CrowdSec install screen, [nextScreen] returns a model on that screen
    with the busy flag set.  On the install screen no key changes the
    screen, the focus, the configuration or the busy flag, whether the flag
    is set or not: the gate is the screen, before a completion or error
    event as well as after it.  Those events clear the busy flag, the error
    event recording its error, and do nothing else. *)
Theorem install_screen_is_one_way (m : model) (k : string) :
  (getNextScreen m.(currentScreen) m.(lastChoice) m.(config) = installScreen
   \/ getNextScreen m.(currentScreen) m.(lastChoice) m.(config)
      = crowdsecInstallScreen ->
   exists m' cmd,
     nextScreen m = Some (m', cmd)
     /\ m'.(currentScreen)
        = getNextScreen m.(currentScreen) m.(lastChoice) m.(config)
     /\ m'.(installing) = true)
  /\ (m.(currentScreen) = installScreen -> 0 <= m.(focusIndex) ->
      exists m' cmd,
        Update m (KeyMsg k) = Some (m', cmd)
        /\ m'.(currentScreen) = installScreen
        /\ m'.(focusIndex) = m.(focusIndex)
        /\ m'.(config) = m.(config)
        /\ m'.(installing) = m.(installing))
  /\ Update m installCompleteMsg = Some (Upd.setInstalling false m, nilCmd)
  /\ (forall e,
        Update m (installErrorMsg e)
        = Some (Upd.setErr e (Upd.setInstalling false m), nilCmd)).
Proof.
  split; [ | split; [ | split; [ reflexivity | intros e; reflexivity ] ] ].
  - intros Hnext.
    destruct (nextScreen_frame m) as (m' & cmd & Hrun & _ & _ & _ & _ & Hbusy).
    exists m', cmd. split; [ exact Hrun | ]. exact (Hbusy Hnext).
  - intros Hscreen Hpos.
    destruct (focusedInput_total m Hpos) as [r Hr].
    assert (Hquiet : forall cmds,
              exists m' cmd,
                updateWidgets m (KeyMsg k) cmds = Some (m', cmd)
                /\ m'.(currentScreen) = installScreen
                /\ m'.(focusIndex) = m.(focusIndex)
                /\ m'.(config) = m.(config)
                /\ m'.(installing) = m.(installing)).
    { intros cmds.
      destruct (updateWidgets_frame m (KeyMsg k) cmds r Hr)
        as (m' & cmd & Hrun & Hs & Hf & Hc & Hi & _).
      exists m', cmd. rewrite Hs. repeat split; assumption. }
    unfold Update. rewrite Hr. cbn [bind]. rewrite Hscreen.
    rewrite String.eqb_refl. cbn [negb andb].
    repeat match goal with
      | |- context [if Matches k ?b then _ else _] => destruct (Matches k b)
      end;
      try apply Hquiet.
    + do 2 eexists. split; [ reflexivity | ]. repeat split; assumption.
    + destruct (negb _); [ | apply Hquiet ].
      do 2 eexists. split; [ reflexivity | ]. repeat split; assumption.
Qed.

(** *** The sink under every other event *)

Lemma nextScreen_logs (m : model) (r : model * Cmd) :
  nextScreen m = Some r -> (fst r).(installLogs) = m.(installLogs).
Proof.
  destruct (nextScreen_frame m) as (m' & cmd & -> & _ & _ & _ & Hlogs & _).
  intros [= <-]. exact Hlogs.
Qed.

Lemma saveEmailConfig_logs (m m' : model) :
  saveEmailConfig m = Some m' -> m'.(installLogs) = m.(installLogs).
Proof.
  destruct (saveEmailConfig_frame m) as (c & -> & _). now intros [= <-].
Qed.

Lemma validateAndSaveDomainConfig_logs (m : model) (r : model * Cmd) :
  validateAndSaveDomainConfig m = Some r ->
  (fst r).(installLogs) = m.(installLogs).
Proof.
  unfold validateAndSaveDomainConfig.
  destruct (missingRequired m.(fields)); [ now intros [= <-] | ].
  destruct (m.(config).(HybridMode)).
  - destruct (valueAt m 0); [ | discriminate ]. cbn [bind].
    intros Hrun. now apply nextScreen_logs in Hrun.
  - destruct (valueAt m 0); [ | discriminate ].
    destruct (valueAt m 1); [ | discriminate ].
    destruct (valueAt m 2); [ | discriminate ]. cbn [bind].
    intros Hrun. now apply nextScreen_logs in Hrun.
Qed.

Lemma handleSubmit_logs (m : model) (r : model * Cmd) :
  handleSubmit m = Some r -> (fst r).(installLogs) = m.(installLogs).
Proof.
  unfold handleSubmit.
  destruct (String.eqb m.(currentScreen) domainConfigScreen);
    [ apply validateAndSaveDomainConfig_logs | ].
  destruct (String.eqb m.(currentScreen) emailInputScreen);
    [ | apply nextScreen_logs ].
  destruct (saveEmailConfig m) as [m1 | ] eqn:Hsave; [ | discriminate ].
  cbn [bind]. intros Hrun. apply nextScreen_logs in Hrun.
  rewrite Hrun. now apply saveEmailConfig_logs.
Qed.

Lemma handleButtonPress_logs (m : model) (r : model * Cmd) :
  handleButtonPress m = Some r -> (fst r).(installLogs) = m.(installLogs).
Proof.
  unfold handleButtonPress.
  cbn [currentScreen config focusIndex Upd.setLastChoice].
  repeat match goal with
    | |- context [if String.eqb (currentScreen m) ?s then _ else _] =>
        destruct (String.eqb (currentScreen m) s)
    end.
  all: try (intros [= <-]; reflexivity).
  all: intros Hrun;
    first [ apply nextScreen_logs in Hrun
          | apply validateAndSaveDomainConfig_logs in Hrun
          | apply handleSubmit_logs in Hrun ];
    exact Hrun.
Qed.

Lemma handleNavigation_logs (m : model) (direction : Z) :
  (fst (handleNavigation (World := World) m direction)).(installLogs)
  = m.(installLogs).
Proof.
  unfold handleNavigation.
  destruct (Go.len m.(fields) =? 0); [ reflexivity | ].
  destruct (direction >? 0); reflexivity.
Qed.

Lemma handleBack_logs (m : model) :
  (fst (handleBack m)).(installLogs) = m.(installLogs).
Proof.
  unfold handleBack.
  destruct (String.eqb m.(currentScreen) welcomeScreen); [ reflexivity | ].
  destruct (String.eqb _ m.(currentScreen)); [ reflexivity | ].
  match goal with
  | |- context [initScreen ?x] =>
      destruct (initScreen_frame x) as (fs & i & ->)
  end.
  reflexivity.
Qed.

Lemma handleEnter_logs (m : model) (r : model * Cmd) :
  handleEnter m = Some r -> (fst r).(installLogs) = m.(installLogs).
Proof.
  unfold handleEnter.
  destruct (Go.len m.(fields) =? 0); [ apply nextScreen_logs | ].
  destruct (Go.index m.(fields) m.(focusIndex)) as [f | ];
    [ | discriminate ].
  cbn [bind]. destruct f.(ftype); [ apply handleButtonPress_logs | ].
  destruct (m.(focusIndex) <? Go.len m.(fields) - 1).
  - intros [= <-]. apply handleNavigation_logs.
  - destruct (existsb _ _); [ | apply handleSubmit_logs ].
    intros [= <-]. apply handleNavigation_logs.
Qed.

Lemma updateWidgets_logs (m : model) (msg : Msg) (cmds : list Cmd)
    (r : model * Cmd) :
  updateWidgets m msg cmds = Some r ->
  (fst r).(installLogs) = m.(installLogs).
Proof.
  unfold updateWidgets.
  destruct (focusedInput m) as [[f | ] | ]; [ | | discriminate ];
    cbn [bind currentScreen Upd.setFields];
    destruct (String.eqb m.(currentScreen) installScreen);
    intros [= <-]; reflexivity.
Qed.

(** Whatever the event, [Update] leaves a sink that was within the bound
    within the bound. *)
Lemma Update_keeps_bound (m : model) (msg : Msg) (r : model * Cmd) :
  Update m msg = Some r ->
  (length m.(installLogs) <= 200)%nat ->
  (length (fst r).(installLogs) <= 200)%nat.
Proof.
  intros Hrun Hbound.
  assert (Hsame : (fst r).(installLogs) = m.(installLogs) ->
                  (length (fst r).(installLogs) <= 200)%nat)
    by (intros ->; exact Hbound).
  destruct msg as [ w h | k | step | log | logs | | e | | tag ].
  - apply Hsame. now apply updateWidgets_logs in Hrun.
  - apply Hsame. unfold Update in Hrun.
    destruct (focusedInput m) as [focused | ]; [ | discriminate ].
    cbn [bind] in Hrun.
    repeat match type of Hrun with
      | context [if Matches k ?b then _ else _] => destruct (Matches k b)
      end;
      repeat match type of Hrun with
        | (if ?b then _ else _) = _ => destruct b
        end;
      first [ now apply updateWidgets_logs in Hrun
            | now apply handleEnter_logs in Hrun
            | injection Hrun as <-;
              first [ reflexivity | apply handleBack_logs
                    | apply handleNavigation_logs ] ].
  - apply Hsame. injection Hrun as <-. reflexivity.
  - clear Hsame. rewrite Update_installLogMsg in Hrun.
    match type of Hrun with
    | Some (?x, _) = _ =>
        replace (fst r) with x by (now injection Hrun as <-)
    end.
    cbn [installLogs showLogs Upd.setLogsViewport Upd.setInstallLogs].
    rewrite (@keep_one _ _ log Hbound). apply kept_length.
  - clear Hsame. rewrite Update_installBatchLogsMsg in Hrun.
    match type of Hrun with
    | Some (?x, _) = _ =>
        replace (fst r) with x by (now injection Hrun as <-)
    end.
    cbn [installLogs showLogs Upd.setLogsViewport Upd.setInstallLogs].
    apply kept_length.
  - apply Hsame. injection Hrun as <-. reflexivity.
  - apply Hsame. injection Hrun as <-. reflexivity.
  - apply Hsame. unfold Update in Hrun.
    destruct m.(installing); now apply updateWidgets_logs in Hrun.
  - apply Hsame. now apply updateWidgets_logs in Hrun.
Qed.

Lemma deliverAll_keeps_bound (msgs : list Msg) :
  forall m m',
    deliverAll m msgs = Some m' ->
    (length m.(installLogs) <= 200)%nat ->
    (length m'.(installLogs) <= 200)%nat.
Proof.
  induction msgs as [ | msg rest IH ]; intros m m' Hrun Hbound.
  - injection Hrun as <-. exact Hbound.
  - cbn [deliverAll] in Hrun.
    destruct (deliver m msg) as [m1 | ] eqn:Hone; [ | discriminate ].
    cbn [bind] in Hrun. apply (IH m1 m' Hrun).
    unfold deliver in Hone.
    destruct (Update m msg) as [r | ] eqn:Hfirst; [ | discriminate ].
    cbn [bind] in Hone.
    pose proof (Update_keeps_bound m msg r Hfirst Hbound) as Hr.
    destruct (snd r) as [ | | | | msg' | | ];
      try (injection Hone as <-; exact Hr).
    destruct (Update (fst r) msg') as [r' | ] eqn:Hsecond; [ | discriminate ].
    cbn [bind] in Hone. injection Hone as <-.
    exact (Update_keeps_bound (fst r) msg' r' Hsecond Hr).
Qed.

(** C6.  From a sink within its bound (the initial sink is empty), no
    sequence of events leaves more than 200 lines.  Any number of lines
    arriving one at a time leave the same lines a single batch event leaves:
    the last 200 of what was there followed by what arrived; and when more
    than 200 lines arrived, exactly the last 200 of them, in the order they
    came. *)
Theorem log_sink_bounded (m : model) (lines : list string) :
  (length m.(installLogs) <= 200)%nat ->
  (forall msgs m',
     deliverAll m msgs = Some m' -> (length m'.(installLogs) <= 200)%nat)
  /\ exists m1 m2,
       deliverAll m (map installLogMsg lines) = Some m1
       /\ Update m (installBatchLogsMsg lines) = Some (m2, scanLogs lines)
       /\ m2.(installLogs) = m1.(installLogs)
       /\ (length m1.(installLogs) <= 200)%nat
       /\ m1.(installLogs)
          = skipn (length (m.(installLogs) ++ lines) - 200)
              (m.(installLogs) ++ lines)
       /\ ((200 < length lines)%nat ->
           m1.(installLogs) = skipn (length lines - 200) lines).
Proof.
  intros Hbound. split.
  { intros msgs m' Hrun. exact (deliverAll_keeps_bound msgs m m' Hrun Hbound). }
  destruct (deliverAll_logs_kept lines m Hbound) as (m1 & Hrun & Hkept).
  exists m1. eexists. split; [ exact Hrun | ].
  split; [ apply Update_installBatchLogsMsg | ].
  split; [ rewrite Hkept; reflexivity | ].
  split; [ rewrite Hkept; apply kept_length | ].
  split; [ exact Hkept | ].
  intros Hmany. rewrite Hkept, skipn_app, length_app.
  rewrite skipn_all2 by lia. simpl. f_equal. lia.
Qed.

End ControllerProperties.

(** ** The properties on concrete runs *)

Example standard_domain_scenario :
  let m :=
    typeInto 2 "admin@example.com"
      (typeInto 0 "example.com" (labModel domainConfigScreen emptyConfig)) in
  exists m' cmd,
    handleButtonPress (ext := labCollaborators None) m = Some (m', cmd)
    /\ m'.(config).(DashboardDomain) = "pangolin.example.com"
    /\ m'.(config).(BaseDomain) = "example.com"
    /\ m'.(currentScreen) = emailConfigScreen.
Proof. vm_compute. do 2 eexists. repeat split. Qed.

Example hybrid_domain_scenario :
  let m :=
    typeInto 0 "203.0.113.1"
      (labModel domainConfigScreen (Cfg.setHybridMode true emptyConfig)) in
  exists m' cmd,
    handleButtonPress (ext := labCollaborators None) m = Some (m', cmd)
    /\ m'.(config).(DashboardDomain) = "203.0.113.1"
    /\ m'.(config).(BaseDomain) = ""
    /\ m'.(currentScreen) = advancedConfigScreen.
Proof. vm_compute. do 2 eexists. repeat split. Qed.

(** C4 (as stated, refuted).  On the CrowdSec install screen, with the busy
    flag set, [Esc] takes the wizard to the welcome screen.  On the install
    screen, after the completion event has cleared the busy flag, [Esc] still
    leaves the wizard where it is.  (Each run lists: the screen and the busy
    flag on entering, then what the events that follow leave.) *)
Lemma busy_flag_is_not_the_gate :
  (entered <- handleButtonPress (ext := labCollaborators None)
                (labModel crowdsecManageScreen emptyConfig) ;;
   escaped <- Update (ext := labCollaborators None) (fst entered)
                (KeyMsg "esc") ;;
   Some ((fst entered).(currentScreen), (fst entered).(installing),
         (fst escaped).(currentScreen)))
  = Some (crowdsecInstallScreen, true, welcomeScreen)
  /\ (entered <- nextScreen (ext := labCollaborators None)
                   (labModel installContainersScreen emptyConfig) ;;
      completed <- Update (ext := labCollaborators None) (fst entered)
                     installCompleteMsg ;;
      escaped <- Update (ext := labCollaborators None) (fst completed)
                   (KeyMsg "esc") ;;
      Some ((fst entered).(currentScreen), (fst entered).(installing),
            (fst completed).(installing), (fst escaped).(currentScreen),
            (fst escaped).(focusIndex) =? (fst completed).(focusIndex)))
     = Some (installScreen, true, false, installScreen, true).
Proof. split; vm_compute; reflexivity. Qed.

Lemma install_screen_is_one_way_witness :
  let waiting :=
    Upd.setLastChoice 0
      (labModel crowdsecManageScreen
         (Cfg.setDoCrowdsecInstall true emptyConfig)) in
  let installing' :=
    Upd.setInstalling true (labModel installScreen emptyConfig) in
  (exists m' cmd,
     nextScreen (ext := labCollaborators None) waiting = Some (m', cmd)
     /\ m'.(currentScreen) = crowdsecInstallScreen
     /\ m'.(installing) = true)
  /\ (exists m' cmd,
        Update (ext := labCollaborators None) installing' (KeyMsg "esc")
        = Some (m', cmd)
        /\ m'.(currentScreen) = installScreen
        /\ m'.(focusIndex) = installing'.(focusIndex)
        /\ m'.(config) = installing'.(config)
        /\ m'.(installing) = installing'.(installing)).
Proof.
  intros waiting installing'.
  destruct (install_screen_is_one_way (ext := labCollaborators None)
              waiting "esc") as (Henter & _).
  destruct (install_screen_is_one_way (ext := labCollaborators None)
              installing' "esc") as (_ & Hkeys & _).
  split.
  - apply Henter. right. vm_compute. reflexivity.
  - apply Hkeys; [ vm_compute; reflexivity | vm_compute; discriminate ].
Defined.

Lemma dashboard_domain_derived_witness :
  let m :=
    typeInto 2 "admin@example.com"
      (typeInto 0 "example.com" (labModel domainConfigScreen emptyConfig)) in
  missingRequired m.(fields) = None
  /\ exists m' cmd,
       validateAndSaveDomainConfig (ext := labCollaborators None) m
       = Some (m', cmd)
       /\ m'.(config).(DashboardDomain) = "pangolin.example.com"
       /\ m'.(config).(BaseDomain) = "example.com".
Proof.
  intros m.
  assert (Hvalid : missingRequired m.(fields) = None)
    by (vm_compute; reflexivity).
  split; [ exact Hvalid | ].
  destruct (dashboard_domain_derived (ext := labCollaborators None) m
              Hvalid) as [Hstandard _].
  apply (Hstandard eq_refl "example.com" "" "admin@example.com");
    vm_compute; reflexivity.
Defined.

Lemma log_sink_bounded_witness :
  let m := initialModel None [] in
  let lines := repeat "line" 201 in
  (length m.(installLogs) <= 200)%nat
  /\ exists m1,
       deliverAll (ext := labCollaborators None) m (map installLogMsg lines)
       = Some m1
       /\ (length m1.(installLogs) <= 200)%nat
       /\ m1.(installLogs) = skipn (length lines - 200) lines.
Proof.
  intros m lines.
  assert (Hbound : (length m.(installLogs) <= 200)%nat) by (simpl; lia).
  split; [ exact Hbound | ].
  destruct (log_sink_bounded (ext := labCollaborators None) m lines Hbound)
    as (_ & m1 & _ & Hrun & _ & _ & Hlen & _ & Hlast).
  exists m1. split; [ exact Hrun | ]. split; [ exact Hlen | ].
  apply Hlast. vm_compute. reflexivity.
Defined.

Lemma required_field_blocks_submit_witness :
  let m := labModel domainConfigScreen emptyConfig in
  exists f ms mb,
    In f m.(fields) /\ f.(required) = true
    /\ textinput.Value f.(input) = ""
    /\ handleSubmit (ext := labCollaborators None) m = Some (ms, nilCmd)
    /\ handleButtonPress (ext := labCollaborators None) m
       = Some (mb, nilCmd)
    /\ ms.(err) = Some (f.(label) ++ " is required")%string
    /\ mb.(err) = ms.(err)
    /\ (f.(label) ++ " is required")%string <> ""
    /\ ms.(currentScreen) = m.(currentScreen)
    /\ mb.(currentScreen) = m.(currentScreen)
    /\ ms.(config) = m.(config)
    /\ mb.(config) = m.(config).
Proof.
  intros m.
  apply (required_field_blocks_submit (ext := labCollaborators None) m).
  - vm_compute. reflexivity.
  - vm_compute. eexists. split; [ left; reflexivity | ]. split; reflexivity.
Defined.

(** * Further properties of the controller *)

Section MoreProperties.

Context {World : Type} {ext : Collaborators World}.

Local Open Scope list_scope.

(** ** Moving the focus *)

Lemma focusEach_content (fs : list field) :
  forall i focus,
    map fieldContent (focusEach i focus fs) = map fieldContent fs.
Proof.
  induction fs as [ | f rest IH ]; intros i focus; simpl;
    [ reflexivity | ].
  rewrite IH. f_equal.
  destruct (isInput f.(ftype)); [ destruct (i =? focus) | ]; reflexivity.
Qed.

Lemma focusEach_focused (fs : list field) :
  forall (start focus : Z) (k : nat) (f : field),
    nth_error (focusEach start focus fs) k = Some f ->
    f.(ftype) = fieldInput ->
    textinput.Focused f.(input) = (start + Z.of_nat k =? focus).
Proof.
  induction fs as [ | g rest IH ]; intros start focus k f Hk Hinput.
  - destruct k; discriminate.
  - destruct k as [ | k ]; simpl in Hk.
    + injection Hk as <-. rewrite Z.add_0_r.
      destruct (isInput g.(ftype)) eqn:Hg.
      * destruct (start =? focus); reflexivity.
      * rewrite Hinput in Hg. discriminate.
    + rewrite (IH (start + 1) focus k f Hk Hinput). f_equal. lia.
Qed.

Lemma updateFocus_follows (m : model) : focusFollowsIndex (updateFocus m).
Proof.
  intros i f Hi Hinput. unfold updateFocus in *.
  cbn [fields focusIndex Upd.setFields] in *.
  now rewrite (focusEach_focused _ _ _ _ _ Hi Hinput).
Qed.

Lemma handleNavigation_step (m : model) (direction : Z) :
  m.(fields) <> [] ->
  handleNavigation (World := World) m direction
  = (updateFocus
       (Upd.setFocusIndex
          (if direction >? 0
           then Z.rem (m.(focusIndex) + 1) (Go.len m.(fields))
           else Z.rem (m.(focusIndex) - 1 + Go.len m.(fields))
                  (Go.len m.(fields)))
          (Upd.setErr None m)),
     nilCmd).
Proof.
  intros Hsome. unfold handleNavigation.
  destruct (Z.eqb_spec (Go.len m.(fields)) 0) as [Hnone | _].
  - exfalso. apply Hsome. unfold Go.len in Hnone.
    destruct m.(fields); [ reflexivity | simpl in Hnone; lia ].
  - cbn [fields focusIndex Upd.setErr].
    destruct (direction >? 0); reflexivity.
Qed.

Lemma rem_forward (i n : Z) :
  0 <= i < n -> Z.rem (i + 1) n = (if i =? n - 1 then 0 else i + 1).
Proof.
  intros Hrange. destruct (Z.eqb_spec i (n - 1)) as [-> | Hne].
  - replace (n - 1 + 1) with n by lia. apply Z.rem_same. lia.
  - apply Z.rem_small. lia.
Qed.

Lemma rem_backward (i n : Z) :
  0 <= i < n -> Z.rem (i - 1 + n) n = (if i =? 0 then n - 1 else i - 1).
Proof.
  intros Hrange. rewrite Z.rem_mod_nonneg by lia.
  destruct (Z.eqb_spec i 0) as [-> | Hne].
  - replace (0 - 1 + n) with (n - 1) by lia. apply Z.mod_small. lia.
  - symmetry. apply Z.mod_unique with (q := 1); lia.
Qed.

Lemma nonempty_len (A : Type) (l : list A) : l <> [] <-> 0 < Go.len l.
Proof.
  unfold Go.len. destruct l; simpl; split; intros; try lia; try congruence.
Qed.

(** X1.  With no fields [handleNavigation] does nothing.  With fields and the
    focus on one of them, forward moves the focus to the next field and from
    the last to the first, backward to the one before and from the first to
    the last; the error is cleared; one step forward and one back, or one
    back and one forward, return the focus to where it was; and the inputs
    follow the focus. *)
Theorem navigation_cycles (m : model) :
  (m.(fields) = [] ->
   forall direction,
     handleNavigation (World := World) m direction = (m, nilCmd))
  /\ (0 <= m.(focusIndex) < Go.len m.(fields) ->
      let n := Go.len m.(fields) in
      let forward := fst (handleNavigation (World := World) m 1) in
      let backward := fst (handleNavigation (World := World) m (-1)) in
      forward.(focusIndex)
      = (if m.(focusIndex) =? n - 1 then 0 else m.(focusIndex) + 1)
      /\ backward.(focusIndex)
         = (if m.(focusIndex) =? 0 then n - 1 else m.(focusIndex) - 1)
      /\ (fst (handleNavigation (World := World) forward (-1))).(focusIndex)
         = m.(focusIndex)
      /\ (fst (handleNavigation (World := World) backward 1)).(focusIndex)
         = m.(focusIndex)
      /\ forward.(err) = None /\ backward.(err) = None
      /\ map fieldContent forward.(fields) = map fieldContent m.(fields)
      /\ map fieldContent backward.(fields) = map fieldContent m.(fields)
      /\ focusFollowsIndex forward /\ focusFollowsIndex backward).
Proof.
  split.
  - intros Hnone direction. unfold handleNavigation. now rewrite Hnone.
  - intros Hrange n forward backward.
    assert (Hsome : m.(fields) <> []) by (apply nonempty_len; lia).
    assert (Hforward : forward
              = updateFocus
                  (Upd.setFocusIndex
                     (if m.(focusIndex) =? n - 1 then 0
                      else m.(focusIndex) + 1) (Upd.setErr None m))).
    { subst forward. rewrite (handleNavigation_step m 1 Hsome).
      change (1 >? 0) with true. cbv iota. cbn [fst].
      now rewrite rem_forward. }
    assert (Hbackward : backward
              = updateFocus
                  (Upd.setFocusIndex
                     (if m.(focusIndex) =? 0 then n - 1
                      else m.(focusIndex) - 1) (Upd.setErr None m))).
    { subst backward. rewrite (handleNavigation_step m (-1) Hsome).
      change (-1 >? 0) with false. cbv iota. cbn [fst].
      now rewrite rem_backward. }
    assert (Hlen : forall i e,
              Go.len (updateFocus (Upd.setFocusIndex i (Upd.setErr e m))).(fields)
              = n).
    { intros i e. unfold updateFocus, Go.len.
      cbn [fields focusIndex Upd.setFields Upd.setFocusIndex Upd.setErr].
      now rewrite focusEach_length. }
    split; [ now rewrite Hforward | ].
    split; [ now rewrite Hbackward | ].
    split.
    { rewrite handleNavigation_step;
        [ | rewrite Hforward; apply nonempty_len; rewrite Hlen; lia ].
      change (-1 >? 0) with false. cbv iota. cbn [fst].
      rewrite Hforward at 1 2 3. rewrite !Hlen.
      cbn [focusIndex updateFocus Upd.setFields Upd.setFocusIndex
           Upd.setErr].
      rewrite rem_backward;
        destruct (Z.eqb_spec m.(focusIndex) (n - 1));
        try destruct (Z.eqb_spec 0 0);
        try destruct (Z.eqb_spec (m.(focusIndex) + 1) 0); lia. }
    split.
    { rewrite handleNavigation_step;
        [ | rewrite Hbackward; apply nonempty_len; rewrite Hlen; lia ].
      change (1 >? 0) with true. cbv iota. cbn [fst].
      rewrite Hbackward at 1 2. rewrite !Hlen.
      cbn [focusIndex updateFocus Upd.setFields Upd.setFocusIndex
           Upd.setErr].
      rewrite rem_forward;
        destruct (Z.eqb_spec m.(focusIndex) 0);
        try destruct (Z.eqb_spec (n - 1) (n - 1));
        try destruct (Z.eqb_spec (m.(focusIndex) - 1) (n - 1)); lia. }
    rewrite Hforward, Hbackward. unfold updateFocus at 1 2 3 4.
    cbn [err fields focusIndex Upd.setFields Upd.setFocusIndex Upd.setErr].
    rewrite !focusEach_content.
    repeat split; apply updateFocus_follows.
Qed.

(** X2.  [updateFocus] changes nothing of a field but the focus flag of its
    input, and after it, as after [initScreen], the input under the focus
    index is focused and every other input is not; so no two inputs are
    focused at once. *)
Theorem inputs_follow_focus (m : model) :
  map fieldContent (updateFocus m).(fields) = map fieldContent m.(fields)
  /\ focusFollowsIndex (updateFocus m)
  /\ focusFollowsIndex (initScreen m)
  /\ (forall m',
        m' = updateFocus m \/ m' = initScreen m ->
        forall i j f g,
          nth_error m'.(fields) i = Some f ->
          nth_error m'.(fields) j = Some g ->
          f.(ftype) = fieldInput -> g.(ftype) = fieldInput ->
          textinput.Focused f.(input) = true ->
          textinput.Focused g.(input) = true ->
          i = j).
Proof.
  assert (Hinit : focusFollowsIndex (initScreen m))
    by (unfold initScreen; apply updateFocus_follows).
  split; [ apply focusEach_content | ].
  split; [ apply updateFocus_follows | ].
  split; [ exact Hinit | ].
  intros m' Hm' i j f g Hi Hj Hf Hg Hfocused Hgfocused.
  assert (Hfollows : focusFollowsIndex m')
    by (destruct Hm' as [-> | ->];
        [ apply updateFocus_follows | exact Hinit ]).
  rewrite (Hfollows i f Hi Hf) in Hfocused.
  rewrite (Hfollows j g Hj Hg) in Hgfocused.
  apply Z.eqb_eq in Hfocused, Hgfocused. lia.
Qed.

(** ** What [nextScreen] comes to *)

Lemma setConfig_same (m : model) : Upd.setConfig m.(config) m = m.
Proof. destruct m; reflexivity. Qed.

(** [nextScreen] without the branch it never takes.  After the e-mail
    settings are saved on leaving the e-mail input screen, the model moves
    to the screen the graph answers with; the two installation screens start
    their sequence, the exit screen quits, every other screen gets its
    fields. *)
Lemma nextScreen_cases (m : model) :
  exists c,
    (if String.eqb m.(currentScreen) emailInputScreen
     then saveEmailConfig m else Some m) = Some (Upd.setConfig c m)
    /\ (m.(currentScreen) <> emailInputScreen -> c = m.(config))
    /\ c.(HybridMode) = m.(config).(HybridMode)
    /\ let next :=
         getNextScreen m.(currentScreen) m.(lastChoice) m.(config) in
       let m1 := Upd.setCurrentScreen next (Upd.setConfig c m) in
       nextScreen m
       = Some
           (if String.eqb next installScreen then startInstallation m1
            else if String.eqb next crowdsecInstallScreen
                 then startCrowdsecInstallation m1
            else if String.eqb next completeScreen then (m1, tea_Quit)
            else (initScreen m1, nilCmd)).
Proof.
  assert (Hsaved : exists c,
            (if String.eqb m.(currentScreen) emailInputScreen
             then saveEmailConfig m else Some m) = Some (Upd.setConfig c m)
            /\ (m.(currentScreen) <> emailInputScreen -> c = m.(config))
            /\ c.(HybridMode) = m.(config).(HybridMode)).
  { destruct (String.eqb m.(currentScreen) emailInputScreen) eqn:Hmail.
    - apply String.eqb_eq in Hmail.
      destruct (saveEmailConfig_frame m) as (c & Hrun & _ & _ & Hmode).
      exists c. split; [ exact Hrun | ]. split; [ | exact Hmode ].
      intros Hne. contradiction.
    - exists m.(config). rewrite setConfig_same. repeat split. }
  destruct Hsaved as (c & Hrun & Hsame & Hmode).
  exists c. split; [ exact Hrun | ]. split; [ exact Hsame | ].
  split; [ exact Hmode | ].
  intros next m1. unfold nextScreen. fold next. rewrite Hrun. cbn [bind].
  fold m1.
  destruct (String.eqb next installScreen); [ reflexivity | ].
  destruct (String.eqb next crowdsecInstallScreen); [ reflexivity | ].
  replace (currentScreen m1) with next by reflexivity.
  destruct (String.eqb next completeScreen); [ reflexivity | ].
  cbn [andb].
  destruct (String.eqb next installContainersScreen); reflexivity.
Qed.

(** X5.  The model [nextScreen] returns is on the screen the graph answers
    with, whatever the last choice and the busy flag: the routing by the
    answer of the install-containers question is never taken.  The mode and
    the last choice are as before.  When the graph answers with the exit
    screen, [nextScreen] asks the runtime to quit and changes nothing but
    the current screen. *)
Theorem nextScreen_follows_graph (m m' : model) (cmd : Cmd) :
  nextScreen m = Some (m', cmd) ->
  let next := getNextScreen m.(currentScreen) m.(lastChoice) m.(config) in
  m'.(currentScreen) = next
  /\ m'.(config).(HybridMode) = m.(config).(HybridMode)
  /\ m'.(lastChoice) = m.(lastChoice)
  /\ (next = completeScreen ->
      cmd = tea_Quit /\ m' = Upd.setCurrentScreen completeScreen m).
Proof.
  intros Hrun next.
  destruct (nextScreen_cases m) as (c & _ & Hsame & Hmode & Hcases).
  cbv zeta in Hcases. fold next in Hcases. rewrite Hcases in Hrun.
  assert (Hexit : next = completeScreen ->
                  m.(currentScreen) <> emailInputScreen).
  { intros Hnext Hmail. subst next. rewrite Hmail in Hnext.
    discriminate Hnext. }
  assert (Hquit : forall flag,
            String.eqb next completeScreen = false ->
            next = completeScreen -> flag).
  { intros flag Hne Hnext. rewrite Hnext, String.eqb_refl in Hne.
    discriminate. }
  destruct (String.eqb next installScreen) eqn:Hinstall.
  { apply String.eqb_eq in Hinstall. injection Hrun as <- <-.
    split; [ reflexivity | ]. split; [ exact Hmode | ].
    split; [ reflexivity | ].
    apply Hquit. rewrite Hinstall. reflexivity. }
  destruct (String.eqb next crowdsecInstallScreen) eqn:Hcrowdsec.
  { apply String.eqb_eq in Hcrowdsec. injection Hrun as <- <-.
    split; [ reflexivity | ]. split; [ exact Hmode | ].
    split; [ reflexivity | ].
    apply Hquit. rewrite Hcrowdsec. reflexivity. }
  destruct (String.eqb next completeScreen) eqn:Hcomplete.
  { apply String.eqb_eq in Hcomplete. injection Hrun as <- <-.
    split; [ reflexivity | ]. split; [ exact Hmode | ].
    split; [ reflexivity | ].
    intros _. split; [ reflexivity | ].
    rewrite (Hsame (Hexit Hcomplete)), setConfig_same, Hcomplete.
    reflexivity. }
  destruct (initScreen_frame
              (Upd.setCurrentScreen next (Upd.setConfig c m)))
    as (fs & i & Hinit).
  rewrite Hinit in Hrun. injection Hrun as <- <-.
  split; [ reflexivity | ]. split; [ exact Hmode | ].
  split; [ reflexivity | ].
  apply Hquit. reflexivity.
Qed.

(** ** Keys *)

Lemma Matches_one (k key : string) :
  k <> key -> Matches k [key] = false.
Proof.
  intros Hne. unfold Matches. simpl.
  destruct (String.eqb_spec k key); [ contradiction | reflexivity ].
Qed.

(** X6.  With the default key bindings and a focus the model can evaluate:
    [ctrl+c] returns the model as it is and asks the runtime to quit, on
    every screen and whether the wizard is busy or not; and while the field
    under the focus is a focused text input, every key other than [ctrl+c],
    [enter], [tab] and [shift+tab] goes to that input and nowhere else, so
    that [esc] does not go back, [?] does not open the help and the letters
    [h], [j], [k], [l] are typed, not used to move. *)
Theorem keys_while_typing (m : model) (focused : option field) :
  m.(mkeys) = keys ->
  focusedInput m = Some focused ->
  Update m (KeyMsg "ctrl+c") = Some (m, tea_Quit)
  /\ (forall f k,
        focused = Some f ->
        textinput.Focused f.(input) = true ->
        ~ In k ["ctrl+c"; "enter"; "tab"; "shift+tab"] ->
        Update m (KeyMsg k) = updateWidgets m (KeyMsg k) []
        /\ exists m' cmd,
             Update m (KeyMsg k) = Some (m', cmd)
             /\ m'.(currentScreen) = m.(currentScreen)
             /\ m'.(focusIndex) = m.(focusIndex)
             /\ m'.(config) = m.(config)
             /\ m'.(showHelp) = m.(showHelp)
             /\ m'.(err) = m.(err)
             /\ nth_error m'.(fields) (Z.to_nat m.(focusIndex))
                = Some (setInput (textinput_Update f.(input) (KeyMsg k)) f)).
Proof.
  intros Hkeys Hfocus. split.
  - unfold Update. rewrite Hfocus, Hkeys. reflexivity.
  - intros f k -> Hfocused Hother.
    assert (Hrouted : Update m (KeyMsg k) = updateWidgets m (KeyMsg k) []).
    { unfold Update. rewrite Hfocus, Hkeys. cbn [bind]. rewrite Hfocused.
      cbn [keys Quit Help Back Enter Tab ShiftTab Up Down Left Right negb
           andb].
      rewrite (Matches_one k "ctrl+c"), (Matches_one k "enter"),
        (Matches_one k "tab"), (Matches_one k "shift+tab");
        try (intros ->; apply Hother; simpl; tauto).
      rewrite !andb_false_r.
      repeat match goal with
        | |- context [if Matches k ?b then _ else _] =>
            destruct (Matches k b)
        end; reflexivity. }
    split; [ exact Hrouted | ]. rewrite Hrouted.
    unfold updateWidgets. rewrite Hfocus. cbn [bind].
    assert (Hat : nth_error m.(fields) (Z.to_nat m.(focusIndex)) = Some f).
    { unfold focusedInput in Hfocus.
      destruct (m.(focusIndex) <? Go.len m.(fields)); [ | discriminate ].
      unfold Go.index in Hfocus.
      destruct ((0 <=? m.(focusIndex))
                && (m.(focusIndex) <? Go.len m.(fields)));
        [ | discriminate ].
      destruct (nth_error m.(fields) (Z.to_nat m.(focusIndex))) as [g | ];
        [ | discriminate ].
      cbn [bind] in Hfocus. destruct (isInput g.(ftype)); congruence. }
    assert (Hstored : forall (l : list field) (i : nat) (g g' : field),
              nth_error l i = Some g ->
              nth_error (Go.store l i g') i = Some g').
    { induction l as [ | h t IH ]; intros [ | i ] g g' Hg; simpl in *;
        try discriminate; [ reflexivity | now apply (IH i g) ]. }
    cbn [currentScreen Upd.setFields].
    destruct (String.eqb m.(currentScreen) installScreen);
      do 2 eexists; (split; [ reflexivity | ]);
      cbn [currentScreen focusIndex config showHelp err fields Upd.setFields
           Upd.setLogsViewport];
      repeat (split; [ reflexivity | ]); now apply (Hstored _ _ f).
Qed.

(** ** Markers in a batch of lines *)

Lemma scanLogs_quiet (logs : list string) :
  Forall (fun log =>
            Go.Contains log successMarker = false
            /\ Go.Contains log failureMarker = false) logs ->
  scanLogs (World := World) logs = nilCmd.
Proof.
  induction 1 as [ | log rest [Hs Hf] _ IH ]; simpl;
    [ reflexivity | now rewrite Hs, Hf ].
Qed.

Lemma scanLogs_skips (quiet rest : list string) :
  Forall (fun log =>
            Go.Contains log successMarker = false
            /\ Go.Contains log failureMarker = false) quiet ->
  scanLogs (World := World) (quiet ++ rest) = scanLogs rest.
Proof.
  induction 1 as [ | log more [Hs Hf] _ IH ]; simpl;
    [ reflexivity | now rewrite Hs, Hf ].
Qed.

(** X7.  In a batch event the first line that holds a marker decides, the
    success marker before the failure marker within that line: when it holds
    the success marker the controller ends idle with its error as it was,
    when it holds the failure marker only, idle with the error
    [installation failed]; lines after it are not looked at.  A batch with no
    marker changes neither the busy flag nor the error. *)
Theorem batch_first_marker_decides (m : model) (quiet rest : list string)
    (line : string) :
  Forall (fun log =>
            Go.Contains log successMarker = false
            /\ Go.Contains log failureMarker = false) quiet ->
  (exists m',
     deliver m (installBatchLogsMsg quiet) = Some m'
     /\ m'.(installing) = m.(installing) /\ m'.(err) = m.(err))
  /\ (Go.Contains line successMarker = true ->
      exists m',
        deliver m (installBatchLogsMsg (quiet ++ line :: rest)) = Some m'
        /\ m'.(installing) = false /\ m'.(err) = m.(err))
  /\ (Go.Contains line successMarker = false ->
      Go.Contains line failureMarker = true ->
      exists m',
        deliver m (installBatchLogsMsg (quiet ++ line :: rest)) = Some m'
        /\ m'.(installing) = false
        /\ m'.(err) = Some "installation failed"%string).
Proof.
  intros Hquiet. unfold deliver.
  split; [ | split ].
  - rewrite Update_installBatchLogsMsg. cbn [bind snd fst].
    rewrite (scanLogs_quiet quiet Hquiet).
    eexists. split; [ reflexivity | ]. split; reflexivity.
  - intros Hsuccess. rewrite Update_installBatchLogsMsg. cbn [bind snd fst].
    rewrite (scanLogs_skips quiet (line :: rest) Hquiet).
    cbn [scanLogs]. rewrite Hsuccess.
    eexists. split; [ reflexivity | ]. split; reflexivity.
  - intros Hsuccess Hfailure. rewrite Update_installBatchLogsMsg.
    cbn [bind snd fst].
    rewrite (scanLogs_skips quiet (line :: rest) Hquiet).
    cbn [scanLogs]. rewrite Hsuccess, Hfailure.
    eexists. split; [ reflexivity | ]. split; reflexivity.
Qed.

(** ** No event makes the controller panic *)

Lemma store_length (A : Type) (l : list A) :
  forall (i : nat) (x : A), length (Go.store l i x) = length l.
Proof.
  induction l as [ | h t IH ]; intros [ | i ] x; simpl;
    try reflexivity. now rewrite IH.
Qed.

Lemma focusInRange_same (m m' : model) :
  m'.(focusIndex) = m.(focusIndex) ->
  length m'.(fields) = length m.(fields) ->
  focusInRange m -> focusInRange m'.
Proof.
  unfold focusInRange, Go.len. intros -> Hlen [Hpos Hin].
  split; [ exact Hpos | ]. rewrite Hlen.
  destruct Hin as [Hnone | Hlt]; [ left | now right ].
  rewrite Hnone in Hlen. now destruct m'.(fields).
Qed.

Lemma wellFormed_same (m m' : model) :
  m'.(focusIndex) = m.(focusIndex) ->
  length m'.(fields) = length m.(fields) ->
  m'.(currentScreen) = m.(currentScreen) ->
  m'.(config).(HybridMode) = m.(config).(HybridMode) ->
  wellFormed m -> wellFormed m'.
Proof.
  intros Hfocus Hlen Hscreen Hmode [Hrange Hdomain].
  split; [ now apply (focusInRange_same m) | ].
  unfold domainFieldsPresent, Go.len in *.
  rewrite Hscreen, Hmode, Hlen. exact Hdomain.
Qed.

Lemma wellFormed_off_domain (m : model) :
  focusInRange m -> m.(currentScreen) <> domainConfigScreen -> wellFormed m.
Proof. intros Hrange Hoff. split; [ exact Hrange | ]. now intros Hon. Qed.

Lemma initScreen_wellFormed (m : model) : wellFormed (initScreen m).
Proof.
  unfold wellFormed, focusInRange, domainFieldsPresent, Go.len, initScreen,
    updateFocus.
  cbn [currentScreen config fields focusIndex Upd.setErr Upd.setFocusIndex
       Upd.setFields].
  destruct (String.eqb m.(currentScreen) domainConfigScreen) eqn:Hdomain.
  - apply String.eqb_eq in Hdomain. rewrite Hdomain.
    cbn -[hybridDomainFields standardDomainFields focusEach Z.of_nat].
    destruct (m.(config).(HybridMode)) eqn:Hmode;
      cbn [currentScreen config fields focusIndex Upd.setErr
           Upd.setFocusIndex Upd.setFields];
      rewrite ?Hmode, focusEach_length; simpl length;
      (split; [ split; [ lia | right; lia ] | intros _; lia ]).
  - assert (Hoff : m.(currentScreen) <> domainConfigScreen)
      by (intros Hon; rewrite Hon in Hdomain; discriminate).
    repeat match goal with
      | |- context [if String.eqb (currentScreen m) ?s then _ else _] =>
          destruct (String.eqb (currentScreen m) s)
      end;
      try discriminate;
      cbn [currentScreen config fields focusIndex Upd.setErr
           Upd.setFocusIndex Upd.setFields];
      rewrite ?focusEach_length; simpl length;
      (split; [ | intros Hon; contradiction ]);
      repeat match goal with
        | |- context [if ?b then _ else _] => destruct b
        end;
      (split; [ lia | first [ left; reflexivity | right; lia ] ]).
Qed.

Lemma nextScreen_wellFormed (m : model) :
  focusInRange m ->
  exists m' cmd, nextScreen m = Some (m', cmd) /\ wellFormed m'.
Proof.
  intros Hrange.
  destruct (nextScreen_cases m) as (c & _ & _ & _ & Hcases).
  cbv zeta in Hcases. rewrite Hcases.
  set (next := getNextScreen m.(currentScreen) m.(lastChoice) m.(config)).
  destruct (String.eqb next installScreen) eqn:Hinstall.
  { apply String.eqb_eq in Hinstall. do 2 eexists.
    split; [ reflexivity | ]. apply wellFormed_off_domain.
    - exact Hrange.
    - cbn. rewrite Hinstall. discriminate. }
  destruct (String.eqb next crowdsecInstallScreen) eqn:Hcrowdsec.
  { apply String.eqb_eq in Hcrowdsec. do 2 eexists.
    split; [ reflexivity | ]. apply wellFormed_off_domain.
    - exact Hrange.
    - cbn. rewrite Hcrowdsec. discriminate. }
  destruct (String.eqb next completeScreen) eqn:Hcomplete.
  { apply String.eqb_eq in Hcomplete. do 2 eexists.
    split; [ reflexivity | ]. apply wellFormed_off_domain.
    - exact Hrange.
    - cbn. rewrite Hcomplete. discriminate. }
  do 2 eexists. split; [ reflexivity | ]. apply initScreen_wellFormed.
Qed.

Lemma validateAndSaveDomainConfig_wellFormed (m : model) :
  wellFormed m ->
  m.(currentScreen) = domainConfigScreen ->
  exists m' cmd,
    validateAndSaveDomainConfig m = Some (m', cmd) /\ wellFormed m'.
Proof.
  intros [Hrange Hdomain] Hscreen. specialize (Hdomain Hscreen).
  unfold validateAndSaveDomainConfig.
  destruct (missingRequired m.(fields)).
  { do 2 eexists. split; [ reflexivity | ].
    apply (wellFormed_same m); try reflexivity.
    split; [ exact Hrange | now intros _ ]. }
  destruct (m.(config).(HybridMode)).
  - destruct (valueAt_in_range m 0) as [v0 ->]; [ lia | ]. cbn [bind].
    apply nextScreen_wellFormed. exact Hrange.
  - destruct (valueAt_in_range m 0) as [v0 ->]; [ lia | ].
    destruct (valueAt_in_range m 1) as [v1 ->]; [ lia | ].
    destruct (valueAt_in_range m 2) as [v2 ->]; [ lia | ]. cbn [bind].
    apply nextScreen_wellFormed. exact Hrange.
Qed.

Lemma handleSubmit_wellFormed (m : model) :
  wellFormed m ->
  exists m' cmd, handleSubmit m = Some (m', cmd) /\ wellFormed m'.
Proof.
  intros Hwf. unfold handleSubmit.
  destruct (String.eqb m.(currentScreen) domainConfigScreen) eqn:Hdomain.
  { apply String.eqb_eq in Hdomain.
    now apply validateAndSaveDomainConfig_wellFormed. }
  destruct Hwf as [Hrange _].
  destruct (String.eqb m.(currentScreen) emailInputScreen);
    [ | now apply nextScreen_wellFormed ].
  destruct (saveEmailConfig_frame m) as (c & -> & _). cbn [bind].
  apply nextScreen_wellFormed. exact Hrange.
Qed.

Lemma handleButtonPress_wellFormed (m : model) :
  wellFormed m ->
  exists m' cmd, handleButtonPress m = Some (m', cmd) /\ wellFormed m'.
Proof.
  intros Hwf. pose proof Hwf as [Hrange Hdomain]. unfold handleButtonPress.
  cbn [currentScreen config focusIndex Upd.setLastChoice].
  assert (Hpressed : wellFormed (Upd.setLastChoice m.(focusIndex) m))
    by (apply (wellFormed_same m); try reflexivity; exact Hwf).
  destruct (String.eqb m.(currentScreen) domainConfigScreen) eqn:Hd.
  { apply String.eqb_eq in Hd. rewrite Hd. cbn.
    apply validateAndSaveDomainConfig_wellFormed;
      [ exact Hpressed | exact Hd ]. }
  repeat match goal with
    | |- context [if String.eqb (currentScreen m) ?s then _ else _] =>
        destruct (String.eqb (currentScreen m) s)
    end;
    try discriminate;
    first [ apply nextScreen_wellFormed; exact Hrange
          | now apply handleSubmit_wellFormed
          | do 2 eexists; (split; [ reflexivity | ]);
            apply (wellFormed_same m); try reflexivity; exact Hwf ].
Qed.

Lemma wellFormed_refocus (m : model) (i : Z) (e : Go.error) :
  wellFormed m ->
  0 <= i < Go.len m.(fields) ->
  wellFormed (updateFocus (Upd.setFocusIndex i (Upd.setErr e m))).
Proof.
  intros [_ Hdomain] Hrange.
  assert (Hlen : length (updateFocus
                   (Upd.setFocusIndex i (Upd.setErr e m))).(fields)
                 = length m.(fields)).
  { unfold updateFocus.
    cbn [fields focusIndex Upd.setFields Upd.setFocusIndex Upd.setErr].
    apply focusEach_length. }
  split.
  - unfold focusInRange, Go.len. rewrite Hlen. unfold Go.len in Hrange.
    cbn [focusIndex updateFocus Upd.setFields Upd.setFocusIndex].
    split; [ lia | right; lia ].
  - unfold domainFieldsPresent, Go.len in *. rewrite Hlen. exact Hdomain.
Qed.

Lemma handleNavigation_wellFormed (m : model) (direction : Z) :
  wellFormed m ->
  wellFormed (fst (handleNavigation (World := World) m direction)).
Proof.
  intros Hwf. pose proof Hwf as [[Hpos Hin] _].
  destruct (Z.eqb_spec (Go.len m.(fields)) 0) as [Hnone | Hsome].
  - unfold handleNavigation. rewrite Hnone. exact Hwf.
  - assert (Hfields : m.(fields) <> [])
      by (apply nonempty_len; unfold Go.len in *; lia).
    destruct Hin as [Hempty | Hlt]; [ contradiction | ].
    rewrite (handleNavigation_step m direction Hfields). cbn [fst].
    apply wellFormed_refocus; [ exact Hwf | ].
    destruct (direction >? 0);
      [ rewrite rem_forward by lia | rewrite rem_backward by lia ];
      match goal with
      | |- context [if ?a =? ?b then _ else _] => destruct (Z.eqb_spec a b)
      end; lia.
Qed.

Lemma handleBack_wellFormed (m : model) :
  wellFormed m -> wellFormed (fst (handleBack m)).
Proof.
  intros Hwf. unfold handleBack.
  destruct (String.eqb m.(currentScreen) welcomeScreen); [ exact Hwf | ].
  destruct (String.eqb _ m.(currentScreen)); [ exact Hwf | ].
  apply initScreen_wellFormed.
Qed.

Lemma focusInRange_index (m : model) :
  focusInRange m -> m.(fields) <> [] ->
  exists f, Go.index m.(fields) m.(focusIndex) = Some f.
Proof.
  intros [Hpos [Hnone | Hlt]] Hsome; [ contradiction | ].
  unfold Go.index.
  destruct (Z.leb_spec 0 m.(focusIndex)); [ | lia ].
  destruct (Z.ltb_spec m.(focusIndex) (Go.len m.(fields))); [ | lia ].
  simpl.
  destruct (nth_error m.(fields) (Z.to_nat m.(focusIndex))) as [f | ] eqn:Hnth;
    [ now exists f | ].
  apply nth_error_None in Hnth. unfold Go.len in Hlt. lia.
Qed.

Lemma handleEnter_wellFormed (m : model) :
  wellFormed m ->
  exists m' cmd, handleEnter m = Some (m', cmd) /\ wellFormed m'.
Proof.
  intros Hwf. pose proof Hwf as [Hrange _]. unfold handleEnter.
  destruct (Z.eqb_spec (Go.len m.(fields)) 0) as [Hnone | Hsome].
  { now apply nextScreen_wellFormed. }
  destruct (focusInRange_index m Hrange) as [f ->].
  { apply nonempty_len. unfold Go.len in *. lia. }
  cbn [bind]. destruct f.(ftype).
  { now apply handleButtonPress_wellFormed. }
  assert (Hmoved : exists m' cmd,
            Some (handleNavigation (World := World) m 1) = Some (m', cmd)
            /\ wellFormed m').
  { destruct (handleNavigation (World := World) m 1) as [m' cmd] eqn:Hnav.
    exists m', cmd. split; [ reflexivity | ].
    change m' with (fst (m', cmd)). rewrite <- Hnav.
    now apply handleNavigation_wellFormed. }
  destruct (m.(focusIndex) <? Go.len m.(fields) - 1); [ exact Hmoved | ].
  destruct (existsb _ _); [ exact Hmoved | ].
  now apply handleSubmit_wellFormed.
Qed.

Lemma updateWidgets_wellFormed (m : model) (msg : Msg) (cmds : list Cmd) :
  wellFormed m ->
  exists m' cmd, updateWidgets m msg cmds = Some (m', cmd) /\ wellFormed m'.
Proof.
  intros Hwf. pose proof Hwf as [[Hpos _] _].
  destruct (focusedInput_total m Hpos) as [r Hr].
  unfold updateWidgets. rewrite Hr. cbn [bind].
  destruct r as [f | ]; cbn [currentScreen Upd.setFields];
    destruct (String.eqb m.(currentScreen) installScreen);
    do 2 eexists; (split; [ reflexivity | ]);
    apply (wellFormed_same m); try reflexivity; try exact Hwf;
    cbn [fields Upd.setFields Upd.setLogsViewport];
    apply store_length.
Qed.

Lemma Update_wellFormed (m : model) (msg : Msg) :
  wellFormed m ->
  exists m' cmd, Update m msg = Some (m', cmd) /\ wellFormed m'.
Proof.
  intros Hwf. pose proof Hwf as [[Hpos _] _].
  assert (Hquiet : forall m1,
            m1.(focusIndex) = m.(focusIndex) ->
            length m1.(fields) = length m.(fields) ->
            m1.(currentScreen) = m.(currentScreen) ->
            m1.(config).(HybridMode) = m.(config).(HybridMode) ->
            forall cmd : @Cmd World,
            exists m' cmd', Some (m1, cmd) = Some (m', cmd') /\ wellFormed m').
  { intros m1 H1 H2 H3 H4 cmd. exists m1, cmd.
    split; [ reflexivity | now apply (wellFormed_same m) ]. }
  assert (Hpair : forall r : model * @Cmd World,
            wellFormed (fst r) ->
            exists m' cmd', Some r = Some (m', cmd') /\ wellFormed m').
  { intros [m1 cmd] Hr. now exists m1, cmd. }
  destruct msg as [ w h | k | step | log | logs | | e | | tag ].
  - apply updateWidgets_wellFormed.
    apply (wellFormed_same m); try reflexivity. exact Hwf.
  - unfold Update.
    destruct (focusedInput_total m Hpos) as [r ->]. cbn [bind].
    repeat match goal with
      | |- context [if Matches k ?b then _ else _] => destruct (Matches k b)
      end;
      repeat match goal with
        | |- exists _ _, (if ?b then _ else _) = _ /\ _ => destruct b
        end;
      first [ now apply updateWidgets_wellFormed
            | now apply handleEnter_wellFormed
            | apply Hpair;
              first [ now apply handleBack_wellFormed
                    | now apply handleNavigation_wellFormed ]
            | apply Hquiet; reflexivity ].
  - apply Hquiet; reflexivity.
  - rewrite Update_installLogMsg. apply Hquiet; reflexivity.
  - rewrite Update_installBatchLogsMsg. apply Hquiet; reflexivity.
  - apply Hquiet; reflexivity.
  - apply Hquiet; reflexivity.
  - unfold Update. destruct m.(installing).
    + apply updateWidgets_wellFormed.
      apply (wellFormed_same m); try reflexivity. exact Hwf.
    + now apply updateWidgets_wellFormed.
  - now apply updateWidgets_wellFormed.
Qed.

Lemma deliverAll_wellFormed (msgs : list Msg) :
  forall m,
    wellFormed m ->
    exists m', deliverAll m msgs = Some m' /\ wellFormed m'.
Proof.
  induction msgs as [ | msg rest IH ]; intros m Hwf.
  - now exists m.
  - cbn [deliverAll].
    assert (Hone : exists m1, deliver m msg = Some m1 /\ wellFormed m1).
    { unfold deliver.
      destruct (Update_wellFormed m msg Hwf) as (m1 & cmd & -> & Hwf1).
      cbn [bind snd fst].
      destruct cmd as [ | | | | msg' | | ]; try now exists m1.
      destruct (Update_wellFormed m1 msg' Hwf1) as (m2 & cmd2 & -> & Hwf2).
      cbn [bind fst]. now exists m2. }
    destruct Hone as (m1 & -> & Hwf1). cbn [bind]. now apply IH.
Qed.

Lemma initialModel_wellFormed (existing : option Config)
    (warnings : list string) :
  wellFormed (initialModel existing warnings).
Proof.
  split.
  - split; [ simpl; lia | now left ].
  - intros Hon. discriminate Hon.
Qed.

(** X3.  From the initial model, whatever configuration was found on disk,
    no sequence of events makes [Update] panic: every message is handled,
    and the state reached has its focus on one of its fields, or no fields,
    and on the domain screen the fields its mode reads. *)
Theorem wizard_never_panics (existing : option Config)
    (warnings : list string) (msgs : list Msg) :
  exists m,
    deliverAll (initialModel existing warnings) msgs = Some m
    /\ wellFormed m
    /\ forall msg, exists m' cmd, Update m msg = Some (m', cmd).
Proof.
  destruct (deliverAll_wellFormed msgs (initialModel existing warnings)
              (initialModel_wellFormed existing warnings))
    as (m & Hrun & Hwf).
  exists m. split; [ exact Hrun | ]. split; [ exact Hwf | ].
  intros msg. destruct (Update_wellFormed m msg Hwf) as (m' & cmd & Hm & _).
  now exists m', cmd.
Qed.

(** ** How far the wizard gets *)

Lemma questionScreens_next (s : screenID) (choice : Z) (c : Config) :
  In s questionScreens -> s <> installContainersScreen ->
  In (getNextScreen s choice c) questionScreens
  /\ String.eqb (getNextScreen s choice c) installScreen = false
  /\ String.eqb (getNextScreen s choice c) crowdsecInstallScreen = false
  /\ String.eqb (getNextScreen s choice c) completeScreen = false.
Proof.
  intros Hs Hne. simpl in Hs.
  repeat (destruct Hs as [<- | Hs]; [ | ]); try contradiction;
    try (exfalso; apply Hne; reflexivity);
    unfold getNextScreen; simpl String.eqb; cbv iota;
    repeat match goal with
      | |- context [if ?b then _ else _] => destruct b
      end;
    (split; [ simpl; tauto | repeat split ]).
Qed.

Lemma questionScreens_prev (s : screenID) (c : Config) :
  In s questionScreens -> In (getPrevScreen s c) questionScreens.
Proof.
  intros Hs. simpl in Hs.
  repeat (destruct Hs as [<- | Hs]; [ | ]); try contradiction;
    unfold getPrevScreen; simpl String.eqb; cbv iota;
    repeat match goal with
      | |- context [if ?b then _ else _] => destruct b
      end;
    simpl; tauto.
Qed.

Lemma beforeInstall_same (m m' : model) :
  m'.(currentScreen) = m.(currentScreen) ->
  map ftype m'.(fields) = map ftype m.(fields) ->
  beforeInstall m -> beforeInstall m'.
Proof.
  intros Hscreen Htypes [Hin Hbuttons]. split; [ now rewrite Hscreen | ].
  rewrite Hscreen. intros Hon. destruct (Hbuttons Hon) as [Hsome Hall].
  split.
  - intros Hnone. apply Hsome. rewrite Hnone in Htypes.
    now destruct m.(fields).
  - apply Forall_forall. intros f Hf.
    assert (Hty : In f.(ftype) (map ftype m.(fields)))
      by (rewrite <- Htypes; now apply in_map).
    apply in_map_iff in Hty. destruct Hty as (g & Hg & Hgin).
    rewrite Forall_forall in Hall. rewrite <- Hg. now apply Hall.
Qed.

Lemma initScreen_beforeInstall (m : model) :
  In m.(currentScreen) questionScreens -> beforeInstall (initScreen m).
Proof.
  intros Hin.
  assert (Hscreen : (initScreen m).(currentScreen) = m.(currentScreen))
    by (destruct (initScreen_frame m) as (fs & i & ->); reflexivity).
  split; [ now rewrite Hscreen | ].
  rewrite Hscreen. intros Hon. unfold initScreen, updateFocus.
  cbn [currentScreen config fields focusIndex Upd.setErr Upd.setFocusIndex
       Upd.setFields].
  rewrite Hon. simpl.
  split; [ discriminate | repeat constructor ].
Qed.

Lemma nextScreen_beforeInstall (m : model) (r : model * Cmd) :
  In m.(currentScreen) questionScreens ->
  m.(currentScreen) <> installContainersScreen ->
  nextScreen m = Some r -> beforeInstall (fst r).
Proof.
  intros Hin Hne Hrun.
  destruct (nextScreen_cases m) as (c & _ & _ & _ & Hcases).
  cbv zeta in Hcases. rewrite Hcases in Hrun.
  destruct (questionScreens_next m.(currentScreen) m.(lastChoice) m.(config)
              Hin Hne) as (Hnext & H1 & H2 & H3).
  rewrite H1, H2, H3 in Hrun.
  injection Hrun as <-. cbn [fst]. now apply initScreen_beforeInstall.
Qed.

Lemma validateAndSaveDomainConfig_beforeInstall (m : model)
    (r : model * Cmd) :
  beforeInstall m -> m.(currentScreen) = domainConfigScreen ->
  validateAndSaveDomainConfig m = Some r -> beforeInstall (fst r).
Proof.
  intros Hbi Hscreen. pose proof Hbi as [Hin _].
  assert (Hne : m.(currentScreen) <> installContainersScreen)
    by (rewrite Hscreen; discriminate).
  unfold validateAndSaveDomainConfig.
  destruct (missingRequired m.(fields)).
  { intros [= <-]. now apply (beforeInstall_same m). }
  destruct (m.(config).(HybridMode)).
  - destruct (valueAt m 0); [ | discriminate ]. cbn [bind].
    now apply nextScreen_beforeInstall.
  - destruct (valueAt m 0); [ | discriminate ].
    destruct (valueAt m 1); [ | discriminate ].
    destruct (valueAt m 2); [ | discriminate ]. cbn [bind].
    now apply nextScreen_beforeInstall.
Qed.

Lemma handleSubmit_beforeInstall (m : model) (r : model * Cmd) :
  beforeInstall m -> m.(currentScreen) <> installContainersScreen ->
  handleSubmit m = Some r -> beforeInstall (fst r).
Proof.
  intros Hbi Hne. pose proof Hbi as [Hin _]. unfold handleSubmit.
  destruct (String.eqb m.(currentScreen) domainConfigScreen) eqn:Hdomain.
  { apply String.eqb_eq in Hdomain.
    now apply validateAndSaveDomainConfig_beforeInstall. }
  destruct (String.eqb m.(currentScreen) emailInputScreen);
    [ | now apply nextScreen_beforeInstall ].
  destruct (saveEmailConfig_frame m) as (c & -> & _). cbn [bind].
  now apply nextScreen_beforeInstall.
Qed.

Lemma handleButtonPress_beforeInstall (m : model) (r : model * Cmd) :
  beforeInstall m ->
  handleButtonPress m = Some r -> beforeInstall (fst r).
Proof.
  intros Hbi. pose proof Hbi as [Hin _]. unfold handleButtonPress.
  cbn [currentScreen config focusIndex Upd.setLastChoice].
  assert (Hpressed : beforeInstall (Upd.setLastChoice m.(focusIndex) m))
    by now apply (beforeInstall_same m).
  assert (Hoff : forall s,
            String.eqb m.(currentScreen) s = true ->
            String.eqb s installContainersScreen = false ->
            m.(currentScreen) <> installContainersScreen).
  { intros s Hs Hsne Hon. apply String.eqb_eq in Hs. subst s.
    rewrite Hon in Hsne. discriminate. }
  repeat match goal with
    | |- context [if String.eqb (currentScreen m) ?s then _ else _] =>
        let Hs := fresh "Hs" in
        destruct (String.eqb (currentScreen m) s) eqn:Hs;
        [ try (pose proof (Hoff s Hs eq_refl)) | ]
    end.
  all: try (apply nextScreen_beforeInstall; assumption).
  - apply String.eqb_eq in Hs2.
    apply validateAndSaveDomainConfig_beforeInstall; assumption.
  - apply handleSubmit_beforeInstall; assumption.
  - intros [= <-]. now apply (beforeInstall_same m).
  - intros [= <-]. now apply (beforeInstall_same m).
Qed.

Lemma handleNavigation_beforeInstall (m : model) (direction : Z) :
  beforeInstall m ->
  beforeInstall (fst (handleNavigation (World := World) m direction)).
Proof.
  intros Hbi. unfold handleNavigation.
  destruct (Go.len m.(fields) =? 0); [ exact Hbi | ].
  apply (beforeInstall_same m); [ destruct (direction >? 0); reflexivity | | exact Hbi ].
  cbn [fst]. unfold updateFocus.
  destruct (direction >? 0);
    cbn [fields focusIndex Upd.setFields Upd.setFocusIndex Upd.setErr];
    match goal with
    | |- map ftype (focusEach ?i ?k ?fs) = _ =>
        pose proof (focusEach_content fs i k) as Hcontent
    end;
    apply (f_equal (map (fun c => fst (fst (fst c))))) in Hcontent;
    rewrite !map_map in Hcontent; exact Hcontent.
Qed.

Lemma handleBack_beforeInstall (m : model) :
  beforeInstall m -> beforeInstall (fst (handleBack m)).
Proof.
  intros Hbi. pose proof Hbi as [Hin _]. unfold handleBack.
  destruct (String.eqb m.(currentScreen) welcomeScreen); [ exact Hbi | ].
  destruct (String.eqb _ m.(currentScreen)); [ exact Hbi | ].
  apply initScreen_beforeInstall. now apply questionScreens_prev.
Qed.

Lemma index_In (A : Type) (l : list A) (i : Z) (a : A) :
  Go.index l i = Some a -> In a l.
Proof.
  unfold Go.index. destruct (_ && _); [ | discriminate ].
  apply nth_error_In.
Qed.

Lemma handleEnter_beforeInstall (m : model) (r : model * Cmd) :
  beforeInstall m -> handleEnter m = Some r -> beforeInstall (fst r).
Proof.
  intros Hbi. pose proof Hbi as [Hin Hbuttons]. unfold handleEnter.
  destruct (Z.eqb_spec (Go.len m.(fields)) 0) as [Hnone | Hsome].
  { apply nextScreen_beforeInstall; [ exact Hin | ].
    intros Hon. destruct (Hbuttons Hon) as [Hfields _].
    apply nonempty_len in Hfields. lia. }
  destruct (Go.index m.(fields) m.(focusIndex)) as [f | ] eqn:Hat;
    [ | discriminate ].
  cbn [bind]. destruct f.(ftype) eqn:Hf.
  { now apply handleButtonPress_beforeInstall. }
  assert (Hne : m.(currentScreen) <> installContainersScreen).
  { intros Hon. destruct (Hbuttons Hon) as [_ Hall].
    rewrite Forall_forall in Hall.
    rewrite (Hall f (index_In _ _ _ _ Hat)) in Hf. discriminate. }
  destruct (m.(focusIndex) <? Go.len m.(fields) - 1).
  { intros [= <-]. now apply handleNavigation_beforeInstall. }
  destruct (existsb _ _).
  { intros [= <-]. now apply handleNavigation_beforeInstall. }
  now apply handleSubmit_beforeInstall.
Qed.

Lemma store_types (l : list field) :
  forall (i : nat) (f : field) (t : TextInput),
    nth_error l i = Some f ->
    map ftype (Go.store l i (setInput t f)) = map ftype l.
Proof.
  induction l as [ | h rest IH ]; intros [ | i ] f t Hi; simpl in *;
    try discriminate.
  - now injection Hi as ->.
  - f_equal. now apply IH.
Qed.

Lemma focusedInput_at (m : model) (f : field) :
  focusedInput m = Some (Some f) ->
  nth_error m.(fields) (Z.to_nat m.(focusIndex)) = Some f.
Proof.
  unfold focusedInput, Go.index.
  destruct (m.(focusIndex) <? Go.len m.(fields)); [ | discriminate ].
  destruct (_ && _); [ | discriminate ].
  destruct (nth_error m.(fields) (Z.to_nat m.(focusIndex))) as [g | ];
    [ | discriminate ].
  cbn [bind]. destruct (isInput g.(ftype)); congruence.
Qed.

Lemma updateWidgets_beforeInstall (m : model) (msg : Msg) (cmds : list Cmd)
    (r : model * Cmd) :
  beforeInstall m ->
  updateWidgets m msg cmds = Some r -> beforeInstall (fst r).
Proof.
  intros Hbi. unfold updateWidgets.
  destruct (focusedInput m) as [[f | ] | ] eqn:Hfocus; [ | | discriminate ];
    cbn [bind currentScreen Upd.setFields];
    destruct (String.eqb m.(currentScreen) installScreen);
    intros [= <-]; apply (beforeInstall_same m); try reflexivity;
    try exact Hbi;
    cbn [fst fields Upd.setFields Upd.setLogsViewport];
    apply store_types; now apply focusedInput_at.
Qed.

Lemma Update_beforeInstall (m : model) (msg : Msg) (r : model * Cmd) :
  beforeInstall m -> Update m msg = Some r -> beforeInstall (fst r).
Proof.
  intros Hbi Hrun.
  assert (Hquiet : (fst r).(currentScreen) = m.(currentScreen) ->
                   (fst r).(fields) = m.(fields) -> beforeInstall (fst r)).
  { intros Hs Hf. apply (beforeInstall_same m); congruence. }
  destruct msg as [ w h | k | step | log | logs | | e | | tag ].
  - apply updateWidgets_beforeInstall in Hrun; [ exact Hrun | ].
    now apply (beforeInstall_same m).
  - unfold Update in Hrun.
    destruct (focusedInput m) as [focused | ]; [ | discriminate ].
    cbn [bind] in Hrun.
    repeat match type of Hrun with
      | context [if Matches k ?b then _ else _] => destruct (Matches k b)
      end;
      repeat match type of Hrun with
        | (if ?b then _ else _) = _ => destruct b
        end;
      first [ now apply updateWidgets_beforeInstall in Hrun
            | now apply handleEnter_beforeInstall in Hrun
            | injection Hrun as <-;
              first [ now apply handleBack_beforeInstall
                    | now apply handleNavigation_beforeInstall
                    | now apply (beforeInstall_same m) ] ].
  - injection Hrun as <-. now apply (beforeInstall_same m).
  - rewrite Update_installLogMsg in Hrun. injection Hrun as <-.
    now apply (beforeInstall_same m).
  - rewrite Update_installBatchLogsMsg in Hrun. injection Hrun as <-.
    now apply (beforeInstall_same m).
  - injection Hrun as <-. now apply (beforeInstall_same m).
  - injection Hrun as <-. now apply (beforeInstall_same m).
  - unfold Update in Hrun. destruct m.(installing);
      apply updateWidgets_beforeInstall in Hrun; try exact Hrun;
      now apply (beforeInstall_same m).
  - now apply updateWidgets_beforeInstall in Hrun.
Qed.

Lemma deliverAll_beforeInstall (msgs : list Msg) :
  forall m m',
    beforeInstall m -> deliverAll m msgs = Some m' -> beforeInstall m'.
Proof.
  induction msgs as [ | msg rest IH ]; intros m m' Hbi Hrun.
  - now injection Hrun as <-.
  - cbn [deliverAll] in Hrun.
    destruct (deliver m msg) as [m1 | ] eqn:Hone; [ | discriminate ].
    cbn [bind] in Hrun. apply (IH m1 m'); [ | exact Hrun ].
    unfold deliver in Hone.
    destruct (Update m msg) as [r | ] eqn:Hfirst; [ | discriminate ].
    cbn [bind] in Hone.
    pose proof (Update_beforeInstall m msg r Hbi Hfirst) as Hr.
    destruct (snd r) as [ | | | | msg' | | ];
      try (injection Hone as <-; exact Hr).
    destruct (Update (fst r) msg') as [r' | ] eqn:Hsecond; [ | discriminate ].
    cbn [bind] in Hone. injection Hone as <-.
    exact (Update_beforeInstall (fst r) msg' r' Hr Hsecond).
Qed.

(** X4.  From the initial model no sequence of events takes the wizard
    past the question whether to install the containers: the state reached
    is on one of the screens from the welcome screen to that question, never
    on the install screen, a CrowdSec screen, the setup-token screen or the
    exit screen.  On that last question either button starts the
    configuration-writing sequence and the wizard stays. *)
Theorem wizard_stops_before_install (existing : option Config)
    (warnings : list string) (msgs : list Msg) :
  exists m,
    deliverAll (initialModel existing warnings) msgs = Some m
    /\ In m.(currentScreen) questionScreens
    /\ ~ In m.(currentScreen)
           [ installScreen; crowdsecScreen; crowdsecManageScreen;
             crowdsecInstallScreen; setupTokenScreen; completeScreen ]
    /\ (m.(currentScreen) = installContainersScreen ->
        forall k,
          Matches k m.(mkeys).(Quit) = false ->
          Matches k m.(mkeys).(Help) = false ->
          Matches k m.(mkeys).(Back) = false ->
          Matches k m.(mkeys).(Enter) = true ->
          exists m',
            Update m (KeyMsg k)
            = Some (m', tea_Batch
                          [spinner_Tick;
                           performConfigCreationAndProceedAsync m'])
            /\ m'.(currentScreen) = installContainersScreen
            /\ m'.(installing) = true).
Proof.
  destruct (deliverAll_wellFormed msgs (initialModel existing warnings)
              (initialModel_wellFormed existing warnings))
    as (m & Hrun & Hwf).
  assert (Hbi : beforeInstall m).
  { apply (deliverAll_beforeInstall msgs (initialModel existing warnings));
      [ | exact Hrun ].
    split; [ simpl; tauto | intros Hon; discriminate Hon ]. }
  exists m. split; [ exact Hrun | ]. destruct Hbi as [Hin Hbuttons].
  split; [ exact Hin | ]. split.
  - intros Hlate. simpl in Hin, Hlate.
    repeat (destruct Hin as [Hin | Hin];
            [ rewrite <- Hin in Hlate; intuition discriminate | ]).
    exact Hin.
  - intros Hon k Hquit Hhelp Hback Henter.
    destruct (Hbuttons Hon) as [Hsome Hall].
    destruct Hwf as [Hrange _].
    destruct (focusInRange_index m Hrange Hsome) as [f Hat].
    assert (Hf : f.(ftype) = fieldButton).
    { rewrite Forall_forall in Hall. apply Hall.
      exact (index_In _ _ _ _ Hat). }
    unfold Update.
    assert (Hfocus : focusedInput m = Some None).
    { unfold focusedInput. destruct Hrange as [_ [Hnone | Hlt]];
        [ contradiction | ].
      destruct (Z.ltb_spec m.(focusIndex) (Go.len m.(fields))); [ | lia ].
      rewrite Hat. cbn [bind]. now rewrite Hf. }
    rewrite Hfocus. cbn [bind]. rewrite Hquit, Hhelp, Hback, Henter, Hon.
    cbn [String.eqb negb]. unfold handleEnter.
    destruct (Z.eqb_spec (Go.len m.(fields)) 0) as [Hnone | _].
    { apply nonempty_len in Hsome. lia. }
    rewrite Hat. cbn [bind]. rewrite Hf. unfold handleButtonPress.
    cbn [currentScreen Upd.setLastChoice]. rewrite Hon.
    eexists. split; [ reflexivity | ]. split; [ exact Hon | reflexivity ].
Qed.

(** ** The sequences that end with a completion event *)

Ltac open_step :=
  repeat (simpl;
          match goal with
          | |- context [match ?x with _ => _ end] => destruct x
          end).

Lemma log_steps_then_complete (steps : list (@Step World))
    (ctl : model) (st : model * World) :
  Forall (fun step : @Step World =>
            forall st, exists log, fst (step st) = installLogMsg log) steps ->
  exists ctl',
    deliverAll ctl (fst (runSteps (steps ++ [completeStep]) st)) = Some ctl'
    /\ ctl'.(installing) = false
    /\ ctl'.(err) = ctl.(err)
    /\ ctl'.(config) = ctl.(config)
    /\ ctl'.(currentScreen) = ctl.(currentScreen).
Proof.
  intros Hlogs. rewrite runSteps_app, deliverAll_app.
  destruct (deliverAll_logs_frame _ (runSteps_logs steps Hlogs st) ctl)
    as (ctl1 & -> & _ & Herr & Hscreen & Hconfig).
  cbn [bind runSteps completeStep fst deliverAll deliver Update snd].
  eexists. split; [ reflexivity | ].
  cbn [installing err config currentScreen Upd.setInstalling].
  repeat split; assumption.
Qed.

(** X8.  No step sequence changes the configuration or the screen of the
    controller: what the steps load and generate, the secret among it, stays
    in their own copy of the model.  The configuration-writing sequences and
    the CrowdSec sequence end with the completion event after log lines
    only, so they leave the controller idle with its error as it was,
    whatever their external actions returned. *)
Theorem sequences_leave_controller (ctl captured : model) (w : World) :
  Forall
    (fun cmd =>
       exists ctl',
         runSequence ctl cmd w = Some ctl'
         /\ ctl'.(installing) = false
         /\ ctl'.(err) = ctl.(err)
         /\ ctl'.(config) = ctl.(config)
         /\ ctl'.(currentScreen) = ctl.(currentScreen))
    [ performConfigCreationAsync captured;
      performConfigCreationAndProceedAsync captured;
      performCrowdsecInstallationAsync captured ]
  /\ exists ctl',
       runSequence ctl (performInstallationAsync captured) w = Some ctl'
       /\ ctl'.(config) = ctl.(config)
       /\ ctl'.(currentScreen) = ctl.(currentScreen).
Proof.
  split.
  - repeat (apply Forall_cons; [ | ]); try apply Forall_nil.
    all: unfold runSequence, performConfigCreationAsync,
           performConfigCreationAndProceedAsync,
           performCrowdsecInstallationAsync.
    all: match goal with
         | |- context [runSteps ?steps _] =>
             change steps with (removelast steps ++ [completeStep])
         end.
    all: apply log_steps_then_complete; cbn [removelast].
    all: repeat (apply Forall_cons; [ | ]); try apply Forall_nil.
    all: first [ apply loadConfigurationStep_logs
               | apply createConfigFilesStep_logs
               | intros st; apply logStep_logs
               | intros [m w0]; open_step; eexists; reflexivity ].
  - destruct (deliverAll_logs_frame _
                (performInstallationAsync_logs captured w _ eq_refl) ctl)
      as (ctl' & Hrun & _ & _ & Hscreen & Hconfig).
    exists ctl'. repeat split; assumption.
Qed.

(** ** Numbers and suffixes *)

Lemma digit_digitChar (d : Z) :
  0 <= d <= 9 -> Go.digit (Go.digitChar d) = Some d.
Proof.
  intros Hd.
  assert (Hcases : d = 0 \/ d = 1 \/ d = 2 \/ d = 3 \/ d = 4 \/ d = 5
                   \/ d = 6 \/ d = 7 \/ d = 8 \/ d = 9) by lia.
  repeat (destruct Hcases as [-> | Hcases]; [ reflexivity | ]).
  subst d. reflexivity.
Qed.

Lemma digits_decimal (fuel : nat) :
  forall (n : Z) (acc : string),
    0 <= n < Z.of_nat fuel ->
    Go.digits (Go.decimal fuel n acc) 0 = Go.digits acc n.
Proof.
  induction fuel as [ | fuel IH ]; intros n acc Hn; [ lia | ].
  cbn [Go.decimal].
  assert (Hrem : 0 <= Z.rem n 10 <= 9).
  { pose proof (Z.rem_bound_pos n 10). lia. }
  pose proof (Z.quot_rem' n 10) as Hsplit.
  destruct (Z.ltb_spec n 10) as [Hsmall | Hbig].
  - cbn [Go.digits]. rewrite (digit_digitChar _ Hrem).
    rewrite Z.rem_small by lia. reflexivity.
  - assert (Hquot : 0 <= Z.quot n 10 < Z.of_nat fuel).
    { pose proof (Z.quot_pos n 10). lia. }
    rewrite (IH _ _ Hquot). cbn [Go.digits].
    rewrite (digit_digitChar _ Hrem). f_equal. lia.
Qed.

Lemma decimal_head (fuel : nat) :
  forall (n : Z) (acc : string),
    0 <= n ->
    (fuel = O ->
     exists d rest, 0 <= d <= 9 /\ acc = String (Go.digitChar d) rest) ->
    exists d rest,
      0 <= d <= 9 /\ Go.decimal fuel n acc = String (Go.digitChar d) rest.
Proof.
  induction fuel as [ | fuel IH ]; intros n acc Hn Hacc;
    [ now apply Hacc | ].
  cbn [Go.decimal].
  assert (Hrem : 0 <= Z.rem n 10 <= 9).
  { pose proof (Z.rem_bound_pos n 10). lia. }
  destruct (n <? 10); [ now eexists _, _ | ].
  apply IH; [ pose proof (Z.quot_pos n 10); lia | ].
  intros _. now eexists _, _.
Qed.

(** [strconv.Atoi] reads back what [%d] printed, for every number that fits
    an [int]. *)
Lemma Atoi_Itoa (n : Z) : 0 <= n < 2 ^ 63 -> Go.Atoi (Go.Itoa n) = Some n.
Proof.
  intros Hn. unfold Go.Itoa.
  destruct (Z.ltb_spec n 0) as [Hneg | _]; [ lia | ].
  assert (Hparse : Go.digits (Go.decimal (S (Z.to_nat n)) n EmptyString) 0
                   = Some n).
  { rewrite digits_decimal by lia. reflexivity. }
  destruct (decimal_head (S (Z.to_nat n)) n EmptyString)
    as (d & rest & Hd & Hhead); [ lia | discriminate | ].
  rewrite Hhead in *.
  assert (Hcases : d = 0 \/ d = 1 \/ d = 2 \/ d = 3 \/ d = 4 \/ d = 5
                   \/ d = 6 \/ d = 7 \/ d = 8 \/ d = 9) by lia.
  assert (Hrange : (- 2 ^ 63 <=? n) && (n <? 2 ^ 63) = true).
  { apply andb_true_iff. split; [ apply Z.leb_le | apply Z.ltb_lt ]; lia. }
  assert (Hchar : forall c body,
            In c ["0"; "1"; "2"; "3"; "4"; "5"; "6"; "7"; "8"; "9"]%char ->
            Go.digits (String c body) 0 = Some n ->
            Go.Atoi (String c body) = Some n).
  { intros c body Hc Hbody. unfold Go.Atoi. simpl in Hc.
    repeat (destruct Hc as [<- | Hc];
            [ cbv beta iota; rewrite Hbody, Hrange; reflexivity | ]).
    contradiction. }
  apply Hchar; [ | exact Hparse ].
  repeat (destruct Hcases as [-> | Hcases]; [ simpl; tauto | ]).
  subst d. simpl. tauto.
Qed.

Lemma length_append (s t : string) :
  String.length (s ++ t) = (String.length s + String.length t)%nat.
Proof. induction s as [ | c s IH ]; simpl; [ reflexivity | now rewrite IH ]. Qed.

Lemma substring_all (t : string) : substring 0 (String.length t) t = t.
Proof. induction t as [ | c t IH ]; simpl; [ reflexivity | now rewrite IH ]. Qed.

Lemma substring_tail (s t : string) :
  substring (String.length s) (String.length t) (s ++ t) = t.
Proof.
  induction s as [ | c s IH ]; simpl; [ apply substring_all | exact IH ].
Qed.

Lemma substring_head (s t : string) :
  substring 0 (String.length s) (s ++ t) = s.
Proof.
  induction s as [ | c s IH ]; simpl.
  - destruct t; reflexivity.
  - now rewrite IH.
Qed.

(** [strings.TrimSuffix] removes a suffix that was appended. *)
Lemma TrimSuffix_append (s t : string) : Go.TrimSuffix (s ++ t) t = s.
Proof.
  unfold Go.TrimSuffix, Go.HasSuffix. rewrite length_append.
  replace (String.length s + String.length t - String.length t)%nat
    with (String.length s) by lia.
  rewrite substring_tail, String.eqb_refl, substring_head.
  destruct (Nat.leb_spec (String.length t)
              (String.length s + String.length t)); [ reflexivity | lia ].
Qed.

Lemma TrimSuffix_longer (s t : string) :
  (String.length s < String.length t)%nat -> Go.TrimSuffix s t = s.
Proof.
  intros Hshort. unfold Go.TrimSuffix, Go.HasSuffix.
  destruct (Nat.leb_spec (String.length t) (String.length s));
    [ lia | reflexivity ].
Qed.

Lemma append_longer (s t : string) : t <> EmptyString -> (s ++ t)%string <> s.
Proof.
  intros Ht Heq. apply (f_equal String.length) in Heq.
  rewrite length_append in Heq. destruct t; [ contradiction | ].
  simpl in Heq. lia.
Qed.

(** ** Coming back to a screen that was answered *)

Lemma valueAt_nth (m : model) (k : nat) :
  valueAt m (Z.of_nat k)
  = nth_error (map (fun f => textinput.Value f.(input)) m.(fields)) k.
Proof.
  unfold valueAt, Go.index, Go.len. rewrite nth_error_map, Nat2Z.id.
  destruct (Z.leb_spec 0 (Z.of_nat k)); [ | lia ].
  destruct (Z.ltb_spec (Z.of_nat k) (Z.of_nat (length m.(fields))));
    simpl.
  - destruct (nth_error m.(fields) k); reflexivity.
  - assert (Hout : nth_error m.(fields) k = None)
      by (apply nth_error_None; lia).
    now rewrite Hout.
Qed.

Lemma focusEach_values (fs : list field) (i focus : Z) :
  map (fun f => textinput.Value f.(input)) (focusEach i focus fs)
  = map (fun f => textinput.Value f.(input)) fs.
Proof.
  pose proof (focusEach_content fs i focus) as Hcontent.
  apply (f_equal (map (fun c => fst (fst (fst (fst (snd c))))))) in Hcontent.
  rewrite !map_map in Hcontent. exact Hcontent.
Qed.

Lemma seededInput_value (name : string) (req : bool)
    (placeholder prefill : string) :
  (forall i, textinput.Value (textinput_SetValue prefill i) = prefill) ->
  textinput.Value (seededInput name req placeholder prefill).(input)
  = prefill.
Proof.
  intros Hset. unfold seededInput. cbn [input setInput].
  destruct (String.eqb_spec prefill ""); [ now subst | apply Hset ].
Qed.

Lemma saveEmailConfig_values (m : model) (host port user pass noReply : string)
    (rest : list string) :
  map (fun f => textinput.Value f.(input)) m.(fields)
  = host :: port :: user :: pass :: noReply :: rest ->
  saveEmailConfig m
  = Some (Upd.setConfig
            (Cfg.setEmail host
               (match Go.Atoi port with Some p => p | None => 587 end)
               user pass noReply m.(config)) m).
Proof.
  intros Hvalues. unfold saveEmailConfig.
  assert (Hlen : 5 <= Go.len m.(fields)).
  { apply (f_equal (@length string)) in Hvalues.
    rewrite length_map in Hvalues. unfold Go.len. simpl in Hvalues. lia. }
  destruct (Z.geb_spec (Go.len m.(fields)) 5); [ | lia ].
  change 0 with (Z.of_nat 0). change 1 with (Z.of_nat 1).
  change 2 with (Z.of_nat 2). change 3 with (Z.of_nat 3).
  change 4 with (Z.of_nat 4).
  rewrite !valueAt_nth, Hvalues. reflexivity.
Qed.

(** X9.  When the text input stores the configured e-mail settings as they
    are, entering the e-mail input screen and submitting it without typing
    gives back the configuration that was there: host, user, password and
    no-reply address as they were, and the port as it was when it was
    positive, [587] when it was not.  The wizard is then on the
    advanced-configuration screen. *)
Theorem email_settings_survive_reentry (m : model) :
  let c := m.(config) in
  let portText :=
    if c.(EmailSMTPPort) >? 0 then Go.Itoa c.(EmailSMTPPort) else "587"%string in
  (forall s i,
     In s [c.(EmailSMTPHost); portText; c.(EmailSMTPUser);
           c.(EmailSMTPPass); c.(EmailNoReply)] ->
     textinput.Value (textinput_SetValue s i) = s) ->
  c.(EmailSMTPPort) < 2 ^ 63 ->
  let entered := initScreen (Upd.setCurrentScreen emailInputScreen m) in
  map (fun f => textinput.Value f.(input)) entered.(fields)
  = [c.(EmailSMTPHost); portText; c.(EmailSMTPUser); c.(EmailSMTPPass);
     c.(EmailNoReply); ""%string]
  /\ exists m' cmd,
       handleSubmit entered = Some (m', cmd)
       /\ m'.(currentScreen) = advancedConfigScreen
       /\ m'.(config)
          = Cfg.setEmail c.(EmailSMTPHost)
              (if c.(EmailSMTPPort) >? 0 then c.(EmailSMTPPort) else 587)
              c.(EmailSMTPUser) c.(EmailSMTPPass) c.(EmailNoReply) c.
Proof.
  intros c portText Hset Hport entered.
  assert (Hscreen : entered.(currentScreen) = emailInputScreen)
    by (subst entered;
        destruct (initScreen_frame (Upd.setCurrentScreen emailInputScreen m))
          as (fs & i & ->); reflexivity).
  assert (Hconfig : entered.(config) = c)
    by (subst entered;
        destruct (initScreen_frame (Upd.setCurrentScreen emailInputScreen m))
          as (fs & i & ->); reflexivity).
  assert (Hvalues : map (fun f => textinput.Value f.(input)) entered.(fields)
                    = [c.(EmailSMTPHost); portText; c.(EmailSMTPUser);
                       c.(EmailSMTPPass); c.(EmailNoReply); ""%string]).
  { subst entered. unfold initScreen, updateFocus.
    cbn [currentScreen config fields focusIndex Upd.setErr Upd.setFocusIndex
         Upd.setFields Upd.setCurrentScreen].
    change (String.eqb emailInputScreen welcomeScreen) with false.
    change (String.eqb emailInputScreen hybridModeScreen) with false.
    change (String.eqb emailInputScreen hybridCredentialsScreen) with false.
    change (String.eqb emailInputScreen domainConfigScreen) with false.
    change (String.eqb emailInputScreen emailConfigScreen) with false.
    change (String.eqb emailInputScreen emailInputScreen) with true.
    cbv iota.
    cbn [currentScreen config fields focusIndex Upd.setErr Upd.setFocusIndex
         Upd.setFields Upd.setCurrentScreen].
    rewrite focusEach_values. unfold emailInputFields. fold c.
    cbn [map]. fold portText.
    rewrite !seededInput_value
      by (intros i; apply Hset; simpl; tauto).
    cbn [input setInput].
    destruct (String.eqb_spec c.(EmailSMTPPass) "") as [Hnone | Hsome].
    - rewrite Hnone. reflexivity.
    - rewrite Hset by (simpl; tauto). reflexivity. }
  split; [ exact Hvalues | ].
  assert (Hparsed : match Go.Atoi portText with Some p => p | None => 587 end
                    = (if c.(EmailSMTPPort) >? 0 then c.(EmailSMTPPort)
                       else 587)).
  { subst portText. destruct (Z.gtb_spec c.(EmailSMTPPort) 0).
    - rewrite Atoi_Itoa by lia. reflexivity.
    - reflexivity. }
  unfold handleSubmit. rewrite Hscreen.
  change (String.eqb emailInputScreen domainConfigScreen) with false.
  change (String.eqb emailInputScreen emailInputScreen) with true.
  cbv iota. rewrite (saveEmailConfig_values entered _ _ _ _ _ _ Hvalues).
  cbn [bind]. rewrite Hparsed, Hconfig.
  set (saved := Cfg.setEmail c.(EmailSMTPHost)
                  (if c.(EmailSMTPPort) >? 0 then c.(EmailSMTPPort) else 587)
                  c.(EmailSMTPUser) c.(EmailSMTPPass) c.(EmailNoReply) c).
  destruct (nextScreen_cases (Upd.setConfig saved entered))
    as (c' & Hsave & _ & _ & Hcases).
  cbv zeta in Hcases.
  cbn [currentScreen lastChoice config Upd.setConfig] in Hsave, Hcases.
  rewrite Hscreen in Hsave, Hcases.
  change (String.eqb emailInputScreen emailInputScreen) with true in Hsave.
  cbv iota in Hsave.
  rewrite (saveEmailConfig_values (Upd.setConfig saved entered)
             _ _ _ _ _ _ Hvalues) in Hsave.
  rewrite Hparsed in Hsave.
  assert (Hc' : c' = saved).
  { injection Hsave as Hsave. rewrite <- Hsave. reflexivity. }
  subst c'. rewrite Hcases.
  change (getNextScreen emailInputScreen entered.(lastChoice) saved)
    with advancedConfigScreen.
  change (String.eqb advancedConfigScreen installScreen) with false.
  change (String.eqb advancedConfigScreen crowdsecInstallScreen) with false.
  change (String.eqb advancedConfigScreen completeScreen) with false.
  cbv iota.
  match goal with
  | |- context [initScreen ?x] =>
      destruct (initScreen_frame x) as (fs & i & ->)
  end.
  do 2 eexists. split; [ reflexivity | ]. split; reflexivity.
Qed.

Lemma focusEach_answers (fs : list field) (i focus : Z) :
  map (fun f => (f.(required), textinput.Value f.(input)))
    (focusEach i focus fs)
  = map (fun f => (f.(required), textinput.Value f.(input))) fs.
Proof.
  pose proof (focusEach_content fs i focus) as Hcontent.
  apply (f_equal
           (map (fun c : fieldType * string * bool
                         * (string * string * bool * Z * Z) =>
                   (snd (fst c), fst (fst (fst (fst (snd c))))))))
    in Hcontent.
  rewrite !map_map in Hcontent. exact Hcontent.
Qed.

Lemma missingRequired_none (fs : list field) :
  Forall (fun p : bool * string => fst p && String.eqb (snd p) "" = false)
    (map (fun f => (f.(required), textinput.Value f.(input))) fs) ->
  missingRequired fs = None.
Proof.
  induction fs as [ | f rest IH ]; intros Hall; [ reflexivity | ].
  inversion Hall as [ | p ps Hf Hrest ]; subst. unfold missingRequired.
  cbn [find]. cbn [fst snd] in Hf. rewrite Hf. now apply IH.
Qed.

Lemma answers_values (fs : list field) (answers : list (bool * string)) :
  map (fun f => (f.(required), textinput.Value f.(input))) fs = answers ->
  map (fun f => textinput.Value f.(input)) fs = map snd answers.
Proof. intros <-. now rewrite map_map. Qed.

(** What the domain screen shows on entry, field by field: whether it is
    required and the text in it. *)
Lemma domain_screen_on_entry (m : model) :
  let c := m.(config) in
  let entered := initScreen (Upd.setCurrentScreen domainConfigScreen m) in
  entered.(currentScreen) = domainConfigScreen
  /\ entered.(config) = c
  /\ map (fun f => (f.(required), textinput.Value f.(input))) entered.(fields)
     = map (fun f => (f.(required), textinput.Value f.(input)))
         (if c.(HybridMode) then hybridDomainFields c
          else standardDomainFields c).
Proof.
  intros c entered.
  assert (Hframe : entered.(currentScreen) = domainConfigScreen
                   /\ entered.(config) = c)
    by (subst entered;
        destruct (initScreen_frame (Upd.setCurrentScreen domainConfigScreen m))
          as (fs & i & ->); split; reflexivity).
  destruct Hframe as [Hscreen Hconfig].
  split; [ exact Hscreen | ]. split; [ exact Hconfig | ].
  subst entered. unfold initScreen, updateFocus.
  cbn [currentScreen config fields focusIndex Upd.setErr Upd.setFocusIndex
       Upd.setFields Upd.setCurrentScreen].
  change (String.eqb domainConfigScreen welcomeScreen) with false.
  change (String.eqb domainConfigScreen hybridModeScreen) with false.
  change (String.eqb domainConfigScreen hybridCredentialsScreen) with false.
  change (String.eqb domainConfigScreen domainConfigScreen) with true.
  cbv iota. fold c.
  destruct c.(HybridMode);
    cbn [fields focusIndex Upd.setFields]; apply focusEach_answers.
Qed.

Lemma nextScreen_from_domain (m : model) :
  m.(currentScreen) = domainConfigScreen ->
  exists m' cmd,
    nextScreen m = Some (m', cmd)
    /\ m'.(config) = m.(config)
    /\ m'.(currentScreen)
       = (if m.(config).(HybridMode) then advancedConfigScreen
          else emailConfigScreen).
Proof.
  intros Hscreen.
  destruct (nextScreen_cases m) as (c & _ & Hsame & _ & Hcases).
  cbv zeta in Hcases. rewrite Hsame in Hcases
    by (rewrite Hscreen; discriminate).
  rewrite Hcases, Hscreen, setConfig_same.
  unfold getNextScreen.
  change (String.eqb domainConfigScreen welcomeScreen) with false.
  change (String.eqb domainConfigScreen hybridModeScreen) with false.
  change (String.eqb domainConfigScreen hybridCredentialsScreen) with false.
  change (String.eqb domainConfigScreen domainConfigScreen) with true.
  cbv iota.
  destruct m.(config).(HybridMode);
    match goal with
    | |- context [initScreen ?x] =>
        destruct (initScreen_frame x) as (fs & i & Hinit)
    end;
    do 2 eexists; (split; [ reflexivity | ]); rewrite Hinit;
    split; reflexivity.
Qed.

Lemma focusEach_entries (fs : list field) (i focus : Z) :
  map (fun f => (f.(label), f.(required), textinput.Value f.(input)))
    (focusEach i focus fs)
  = map (fun f => (f.(label), f.(required), textinput.Value f.(input))) fs.
Proof.
  pose proof (focusEach_content fs i focus) as Hcontent.
  apply (f_equal
           (map (fun c : fieldType * string * bool
                         * (string * string * bool * Z * Z) =>
                   (snd (fst (fst c)), snd (fst c),
                    fst (fst (fst (fst (snd c))))))))
    in Hcontent.
  rewrite !map_map in Hcontent. exact Hcontent.
Qed.

(** The validation loop stops at the first entry that is required and
    empty, and reports its label. *)
Lemma missingRequired_label (fs : list field) :
  option_map label (missingRequired fs)
  = option_map (fun e : string * bool * string => fst (fst e))
      (find (fun e : string * bool * string =>
               snd (fst e) && String.eqb (snd e) "")
         (map (fun f => (f.(label), f.(required), textinput.Value f.(input)))
            fs)).
Proof.
  unfold missingRequired.
  induction fs as [ | f rest IH ]; [ reflexivity | ].
  cbn [map find fst snd].
  destruct (f.(required) && String.eqb (textinput.Value f.(input)) "");
    [ reflexivity | exact IH ].
Qed.

Lemma domain_entries_on_entry (m : model) :
  let c := m.(config) in
  let entered := initScreen (Upd.setCurrentScreen domainConfigScreen m) in
  map (fun f => (f.(label), f.(required), textinput.Value f.(input)))
    entered.(fields)
  = map (fun f => (f.(label), f.(required), textinput.Value f.(input)))
      (if c.(HybridMode) then hybridDomainFields c
       else standardDomainFields c).
Proof.
  intros c entered. subst entered. unfold initScreen, updateFocus.
  cbn [currentScreen config fields focusIndex Upd.setErr Upd.setFocusIndex
       Upd.setFields Upd.setCurrentScreen].
  change (String.eqb domainConfigScreen welcomeScreen) with false.
  change (String.eqb domainConfigScreen hybridModeScreen) with false.
  change (String.eqb domainConfigScreen hybridCredentialsScreen) with false.
  change (String.eqb domainConfigScreen domainConfigScreen) with true.
  cbv iota. fold c.
  destruct c.(HybridMode);
    cbn [fields focusIndex Upd.setFields]; apply focusEach_entries.
Qed.

(** X10.  When the text input stores the configured domain settings as they
    are, entering the domain screen and pressing Continue without typing
    does the following.  In standard mode: with no base domain, or with a
    base domain and no Let's Encrypt e-mail, the empty field is reported as
    required and the wizard stays on the domain screen with the
    configuration as it was; with both, the settings are left as they were,
    with the Gerbil flag set, when the dashboard domain is a non-empty
    subdomain, a dot and the base domain, and a dashboard domain that is the
    base domain itself or empty comes back as [pangolin.] and the base
    domain.  In hybrid mode: a dashboard address that is not empty is left
    as it was, with the Gerbil flag set; an empty one takes the public
    address of the machine when there is one, and is reported as required
    when there is none. *)
Theorem domain_settings_survive_reentry (m : model) (sub : string) :
  let c := m.(config) in
  let entered := initScreen (Upd.setCurrentScreen domainConfigScreen m) in
  let rejected (name : string) :=
    exists m',
      handleButtonPress entered = Some (m', nilCmd)
      /\ m'.(err) = Some (name ++ " is required")%string
      /\ m'.(currentScreen) = domainConfigScreen
      /\ m'.(config) = c in
  (forall s i,
     In s [c.(BaseDomain); sub; c.(LetsEncryptEmail); c.(DashboardDomain);
           getPublicIP] ->
     textinput.Value (textinput_SetValue s i) = s) ->
  (c.(HybridMode) = false ->
   (c.(BaseDomain) = ""%string -> rejected "Base Domain"%string)
   /\ (c.(BaseDomain) <> ""%string -> c.(LetsEncryptEmail) = ""%string ->
       rejected "Let's Encrypt Email"%string)
   /\ (c.(BaseDomain) <> ""%string -> c.(LetsEncryptEmail) <> ""%string ->
       (sub <> ""%string ->
        c.(DashboardDomain) = (sub ++ "." ++ c.(BaseDomain))%string ->
        exists m' cmd,
          handleButtonPress entered = Some (m', cmd)
          /\ m'.(currentScreen) = emailConfigScreen
          /\ m'.(config) = Cfg.setInstallGerbil true c)
       /\ (c.(DashboardDomain) = c.(BaseDomain)
           \/ c.(DashboardDomain) = ""%string ->
           exists m' cmd,
             handleButtonPress entered = Some (m', cmd)
             /\ m'.(currentScreen) = emailConfigScreen
             /\ m'.(config)
                = Cfg.setInstallGerbil true
                    (Cfg.setDashboardDomain
                       ("pangolin." ++ c.(BaseDomain))%string c))))
  /\ (c.(HybridMode) = true ->
      (c.(DashboardDomain) <> ""%string ->
       exists m' cmd,
         handleButtonPress entered = Some (m', cmd)
         /\ m'.(currentScreen) = advancedConfigScreen
         /\ m'.(config) = Cfg.setInstallGerbil true c)
      /\ (c.(DashboardDomain) = ""%string -> getPublicIP <> ""%string ->
          exists m' cmd,
            handleButtonPress entered = Some (m', cmd)
            /\ m'.(currentScreen) = advancedConfigScreen
            /\ m'.(config)
               = Cfg.setInstallGerbil true
                   (Cfg.setDashboardDomain getPublicIP c))
      /\ (c.(DashboardDomain) = ""%string -> getPublicIP = ""%string ->
          rejected "Public IP or Domain"%string)).
Proof.
  intros c entered rejected Hset.
  destruct (domain_screen_on_entry m) as (Hscreen & Hconfig & Hanswers).
  pose proof (domain_entries_on_entry m) as Hentries.
  cbv zeta in Hentries.
  fold c entered in Hscreen, Hconfig, Hanswers, Hentries.
  assert (Hreject : forall name,
            option_map (fun e : string * bool * string => fst (fst e))
              (find (fun e : string * bool * string =>
                       snd (fst e) && String.eqb (snd e) "")
                 (map (fun f => (f.(label), f.(required),
                                 textinput.Value f.(input)))
                    entered.(fields)))
            = Some name ->
            rejected name).
  { intros name Hfound. rewrite <- missingRequired_label in Hfound.
    subst rejected. cbv beta.
    rewrite (handleButtonPress_domain entered Hscreen).
    unfold validateAndSaveDomainConfig. cbn [fields Upd.setLastChoice].
    destruct (missingRequired entered.(fields)) as [g | ];
      [ | discriminate ].
    cbn [option_map] in Hfound. injection Hfound as ->.
    eexists. split; [ reflexivity | ].
    cbn [err currentScreen config Upd.setErr Upd.setLastChoice].
    split; [ reflexivity | ]. split; assumption. }
  assert (Hsubmit : forall answers,
            map (fun f => (f.(required), textinput.Value f.(input)))
              entered.(fields) = answers ->
            Forall (fun p : bool * string =>
                      fst p && String.eqb (snd p) "" = false) answers ->
            forall saved,
              (v <- (if c.(HybridMode)
                     then d <- nth_error (map snd answers) 0%nat ;;
                          Some (Cfg.setInstallGerbil true
                                  (Cfg.setDashboardDomain d c))
                     else b <- nth_error (map snd answers) 0%nat ;;
                          s <- nth_error (map snd answers) 1%nat ;;
                          e <- nth_error (map snd answers) 2%nat ;;
                          Some (Cfg.setInstallGerbil true
                                  (Cfg.setLetsEncryptEmail e
                                     (Cfg.setDashboardDomain
                                        ((if String.eqb s "" then "pangolin"
                                          else s) ++ "." ++ b)%string
                                        (Cfg.setBaseDomain b c))))) ;;
               Some v) = Some saved ->
              exists m' cmd,
                handleButtonPress entered = Some (m', cmd)
                /\ m'.(currentScreen)
                   = (if c.(HybridMode) then advancedConfigScreen
                      else emailConfigScreen)
                /\ m'.(config) = saved).
  { intros answers Hfields Hfilled saved Hsaved.
    rewrite (handleButtonPress_domain entered Hscreen).
    unfold validateAndSaveDomainConfig.
    cbn [fields config Upd.setLastChoice].
    rewrite (missingRequired_none entered.(fields))
      by (rewrite Hfields; exact Hfilled).
    rewrite Hconfig.
    change 0 with (Z.of_nat 0). change 1 with (Z.of_nat 1).
    change 2 with (Z.of_nat 2).
    rewrite !valueAt_nth. cbn [fields Upd.setLastChoice].
    rewrite (answers_values _ _ Hfields).
    destruct c.(HybridMode) eqn:Hmode.
    - destruct (nth_error (map snd answers) 0) as [d | ];
        [ | discriminate ].
      cbn [bind] in *. injection Hsaved as <-.
      match goal with
      | |- context [nextScreen ?x] =>
          destruct (nextScreen_from_domain x Hscreen)
            as (m' & cmd & -> & Hcfg & Hnext)
      end.
      exists m', cmd. split; [ reflexivity | ].
      cbn [config Upd.setConfig HybridMode Cfg.setInstallGerbil
           Cfg.setDashboardDomain] in Hcfg, Hnext.
      rewrite Hmode in Hnext. split; assumption.
    - destruct (nth_error (map snd answers) 0) as [b | ];
        [ | discriminate ].
      destruct (nth_error (map snd answers) 1) as [s | ];
        [ | discriminate ].
      destruct (nth_error (map snd answers) 2) as [e | ];
        [ | discriminate ].
      cbn [bind] in *. injection Hsaved as <-.
      match goal with
      | |- context [nextScreen ?x] =>
          destruct (nextScreen_from_domain x Hscreen)
            as (m' & cmd & -> & Hcfg & Hnext)
      end.
      exists m', cmd. split; [ reflexivity | ].
      cbn [config Upd.setConfig HybridMode Cfg.setInstallGerbil
           Cfg.setLetsEncryptEmail Cfg.setDashboardDomain Cfg.setBaseDomain]
        in Hcfg, Hnext.
      rewrite Hmode in Hnext. split; assumption. }
  assert (Hsame : forall d,
            d = c.(DashboardDomain) ->
            Cfg.setInstallGerbil true
              (Cfg.setLetsEncryptEmail c.(LetsEncryptEmail)
                 (Cfg.setDashboardDomain d
                    (Cfg.setBaseDomain c.(BaseDomain) c)))
            = Cfg.setInstallGerbil true c)
    by (intros d ->; destruct c; reflexivity).
  assert (Hfull : forall v : string, v <> ""%string ->
            true && String.eqb v "" = false)
    by (intros v Hv; now apply String.eqb_neq).
  split.
  - intros Hmode. rewrite Hmode in Hanswers, Hsubmit, Hentries.
    unfold standardDomainFields in Hanswers, Hentries.
    cbn [map] in Hanswers, Hentries.
    rewrite !seededInput_value in Hanswers, Hentries
      by (intros i; apply Hset; simpl; tauto).
    cbn [required label input setInput seededInput createInputField
         createButtonField] in Hanswers, Hentries.
    split; [ | split ].
    + intros Hbase. apply Hreject. rewrite Hentries, Hbase. reflexivity.
    + intros Hbase Hmail. apply Hreject. rewrite Hentries, Hmail.
      cbn [find fst snd andb].
      rewrite (proj2 (String.eqb_neq _ _) Hbase). reflexivity.
    + intros Hbase Hmail. split.
      * intros Hsub Hdash.
        assert (Hshown : negb (String.eqb c.(DashboardDomain) "")
                         && negb (String.eqb c.(BaseDomain) "") = true).
        { apply andb_true_iff. split; apply negb_true_iff, String.eqb_neq;
            [ | exact Hbase ].
          rewrite Hdash. destruct sub; [ contradiction | discriminate ]. }
        rewrite Hshown in Hanswers.
        rewrite Hdash, TrimSuffix_append in Hanswers.
        assert (Hdiffer :
                  String.eqb sub (sub ++ "." ++ c.(BaseDomain)) = false).
        { apply String.eqb_neq. intros Heq. symmetry in Heq.
          revert Heq. apply append_longer. discriminate. }
        rewrite Hdiffer in Hanswers.
        rewrite Hset in Hanswers by (simpl; tauto).
        destruct (Hsubmit _ Hanswers)
          with (saved := Cfg.setInstallGerbil true c)
          as (m' & cmd & Hrun & Hnext & Hcfg).
        -- repeat constructor; cbn [fst snd]; try now apply Hfull.
        -- cbn [map snd nth_error bind].
           assert (Hnot : String.eqb sub "" = false)
             by now apply String.eqb_neq.
           rewrite Hnot, <- Hdash. now rewrite Hsame.
        -- now exists m', cmd.
      * intros Hplain.
        assert (Hkept : (if negb (String.eqb c.(DashboardDomain) "")
                            && negb (String.eqb c.(BaseDomain) "")
                         then
                           if String.eqb
                                (Go.TrimSuffix c.(DashboardDomain)
                                   ("." ++ c.(BaseDomain)))
                                c.(DashboardDomain)
                           then None
                           else Some (Go.TrimSuffix c.(DashboardDomain)
                                        ("." ++ c.(BaseDomain)))
                         else None) = None).
        { destruct Hplain as [Hequal | Hempty].
          - destruct (_ && _); [ | reflexivity ].
            rewrite Hequal, TrimSuffix_longer by (simpl; lia).
            now rewrite String.eqb_refl.
          - rewrite Hempty. reflexivity. }
        rewrite Hkept in Hanswers.
        destruct (Hsubmit _ Hanswers)
          with (saved := Cfg.setInstallGerbil true
                           (Cfg.setDashboardDomain
                              ("pangolin." ++ c.(BaseDomain))%string c))
          as (m' & cmd & Hrun & Hnext & Hcfg).
        -- repeat constructor; cbn [fst snd]; try now apply Hfull.
        -- cbn [map snd nth_error bind input setInput createInputField
                textinput.Value textinput.setPlaceholder textinput.setLimits
                textinput.New tiValue String.eqb].
           destruct c; reflexivity.
        -- now exists m', cmd.
  - intros Hmode. rewrite Hmode in Hanswers, Hsubmit, Hentries.
    unfold hybridDomainFields in Hanswers, Hentries.
    cbn [map] in Hanswers, Hentries.
    split; [ | split ].
    + intros Hdash.
      assert (Hnot : String.eqb c.(DashboardDomain) "" = false)
        by now apply String.eqb_neq.
      rewrite Hnot in Hanswers.
      rewrite seededInput_value in Hanswers
        by (intros i; apply Hset; simpl; tauto).
      cbn [required seededInput setInput createInputField createButtonField
           input] in Hanswers.
      destruct (Hsubmit _ Hanswers) with (saved := Cfg.setInstallGerbil true c)
        as (m' & cmd & Hrun & Hnext & Hcfg).
      * repeat constructor; cbn [fst snd]; try now apply Hfull.
      * reflexivity.
      * now exists m', cmd.
    + intros Hdash Hpublic. rewrite Hdash in Hanswers.
      change (String.eqb "" "") with true in Hanswers. cbv iota in Hanswers.
      rewrite seededInput_value in Hanswers
        by (intros i; apply Hset; simpl; tauto).
      cbn [required seededInput setInput createInputField createButtonField
           input] in Hanswers.
      destruct (Hsubmit _ Hanswers)
        with (saved := Cfg.setInstallGerbil true
                         (Cfg.setDashboardDomain getPublicIP c))
        as (m' & cmd & Hrun & Hnext & Hcfg).
      * repeat constructor; cbn [fst snd]; try now apply Hfull.
      * reflexivity.
      * now exists m', cmd.
    + intros Hdash Hpublic. apply Hreject.
      rewrite Hentries, Hdash.
      change (String.eqb "" "") with true. cbv iota.
      rewrite seededInput_value by (intros i; apply Hset; simpl; tauto).
      rewrite Hpublic. reflexivity.
Qed.

Example split_examples :
  Strings.Split "pangolin.example.com" "." = ["pangolin"; "example"; "com"]%string
  /\ Strings.Split "a..b." "." = ["a"; ""; "b"; ""]%string
  /\ Strings.Split "" "." = [""]%string
  /\ Strings.Split "a, b, c" ", " = ["a"; "b"; "c"]%string
  /\ Strings.Split "aaa" "aa" = [""; "a"]%string
  /\ Strings.TrimPrefix "https://x.y" "https://" = "x.y"%string.
Proof. repeat split; reflexivity. Qed.

Example load_example :
  loadExistingConfig false (Ok "https://pangolin.example.com"%string)
    (Ok "admin@example.com"%string)
  = Ok (mkConfig false "pangolin.example.com" "example.com"
          "admin@example.com" false false "" 0 "" "" "" false Docker false ""
          []).
Proof. reflexivity. Qed.

(** ** An existing installation *)

Lemma prefix_dot (c : ascii) (rest : string) :
  String.prefix "." (String c rest) = Ascii.eqb c ".".
Proof.
  cbn [String.prefix]. destruct (ascii_dec "." c) as [Heq | Hne].
  - subst c. now destruct rest.
  - symmetry. apply Ascii.eqb_neq. congruence.
Qed.

Lemma append_assoc (s t u : string) :
  ((s ++ t) ++ u)%string = (s ++ t ++ u)%string.
Proof. induction s as [ | c s IH ]; simpl; [ reflexivity | now rewrite IH ]. Qed.

Lemma splitFrom_dotFree (s : string) :
  forall piece,
    dotFree s = true ->
    Strings.splitFrom "." s 0 piece = [(piece ++ s)%string].
Proof.
  induction s as [ | c s IH ]; intros piece Hfree.
  - simpl. destruct piece; simpl; [ reflexivity | ].
    f_equal. f_equal. induction piece; simpl; [ reflexivity | congruence ].
  - cbn [dotFree] in Hfree. apply andb_true_iff in Hfree.
    destruct Hfree as [Hc Hs]. cbn [Strings.splitFrom].
    rewrite prefix_dot. apply negb_true_iff in Hc. rewrite Hc.
    rewrite (IH _ Hs), append_assoc. reflexivity.
Qed.

Lemma splitFrom_append (s t : string) :
  forall piece,
    Strings.splitFrom "." (s ++ "." ++ t) 0 piece
    = Strings.splitFrom "." s 0 piece ++ Strings.splitFrom "." t 0 "".
Proof.
  induction s as [ | c s IH ]; intros piece.
  - cbn [append Strings.splitFrom]. rewrite prefix_dot. reflexivity.
  - cbn [append Strings.splitFrom]. rewrite !prefix_dot.
    destruct (Ascii.eqb c ".").
    + cbn [String.length Nat.sub]. rewrite IH. reflexivity.
    + apply IH.
Qed.

Lemma HasPrefix_append (p s : string) : Strings.HasPrefix (p ++ s) p = true.
Proof.
  unfold Strings.HasPrefix. induction p as [ | c p IH ]; simpl.
  - now destruct s.
  - destruct (ascii_dec c c); [ exact IH | contradiction ].
Qed.

Lemma TrimPrefix_append (p s : string) : Strings.TrimPrefix (p ++ s) p = s.
Proof.
  unfold Strings.TrimPrefix. rewrite HasPrefix_append, length_append.
  replace (String.length p + String.length s - String.length p)%nat
    with (String.length s) by lia.
  induction p as [ | c p IH ]; simpl; [ apply substring_all | exact IH ].
Qed.

Lemma last_two (A : Type) (front : list A) (x y : A) :
  skipn (Z.to_nat (Go.len (front ++ [x; y]) - 2)) (front ++ [x; y]) = [x; y]
  /\ (Go.len (front ++ [x; y]) >=? 2) = true.
Proof.
  unfold Go.len. rewrite length_app. cbn [length].
  replace (Z.to_nat (Z.of_nat (length front + 2) - 2)) with (length front)
    by lia.
  split.
  - rewrite skipn_app, skipn_all, Nat.sub_diag. reflexivity.
  - apply Z.geb_le. lia.
Qed.

(** X11.  What [loadExistingConfig] finds.  A missing configuration file is
    reported before anything is read, and a failed read of the application
    configuration before one of the Traefik configuration.  When both reads
    succeed the result is a standard-mode Docker configuration with the
    Traefik e-mail; from a dashboard URL with a scheme, the dashboard domain
    is the host as written and the base domain its last two labels, however
    many labels come before them; a host of one label leaves both empty. *)
Theorem existing_config_domains (scheme front a b email : string) :
  In scheme ["https://"; "http://"]%string ->
  dotFree a = true -> dotFree b = true ->
  let loaded host :=
    loadExistingConfig false (Ok (scheme ++ host)%string) (Ok email) in
  let found dashboard base :=
    Ok (Cfg.setInstallationContainerType Docker
          (Cfg.setLetsEncryptEmail email
             (Cfg.setBaseDomain base
                (Cfg.setDashboardDomain dashboard emptyConfig)))) in
  loaded (front ++ "." ++ a ++ "." ++ b)%string
  = found (front ++ "." ++ a ++ "." ++ b)%string (a ++ "." ++ b)%string
  /\ loaded (a ++ "." ++ b)%string
     = found (a ++ "." ++ b)%string (a ++ "." ++ b)%string
  /\ loaded a = found ""%string ""%string
  /\ (forall app traefik,
        loadExistingConfig true app traefik
        = Err "config file does not exist")
  /\ (forall e traefik,
        loadExistingConfig false (Err e) traefik
        = Err ("failed to read app config: " ++ e))
  /\ (forall url e,
        loadExistingConfig false (Ok url) (Err e)
        = Err ("failed to read traefik config: " ++ e)).
Proof.
  intros Hscheme Ha Hb loaded found.
  assert (Hhost : forall host,
            loaded host
            = Ok (Cfg.setInstallationContainerType Docker
                    (Cfg.setHybridMode false
                       (Cfg.setLetsEncryptEmail email
                          (if Go.len (Strings.Split host ".") >=? 2
                           then
                             Cfg.setBaseDomain
                               (Go.Join
                                  (skipn
                                     (Z.to_nat
                                        (Go.len (Strings.Split host ".") - 2))
                                     (Strings.Split host ".")) ".")
                               (Cfg.setDashboardDomain host emptyConfig)
                           else emptyConfig))))).
  { intros host. subst loaded. unfold loadExistingConfig.
    simpl in Hscheme. destruct Hscheme as [<- | [<- | []]].
    - rewrite (HasPrefix_append "https://" host),
        (TrimPrefix_append "https://" host). reflexivity.
    - change (Strings.HasPrefix ("http://" ++ host) "https://") with false.
      rewrite (HasPrefix_append "http://" host),
        (TrimPrefix_append "http://" host). reflexivity. }
  assert (Htwo : Strings.Split (a ++ "." ++ b) "." = [] ++ [a; b]).
  { unfold Strings.Split. rewrite splitFrom_append.
    rewrite (splitFrom_dotFree a "" Ha), (splitFrom_dotFree b "" Hb).
    reflexivity. }
  assert (Hmany : Strings.Split (front ++ "." ++ a ++ "." ++ b) "."
                  = Strings.Split front "." ++ [a; b]).
  { unfold Strings.Split at 1. rewrite splitFrom_append.
    f_equal. exact Htwo. }
  split; [ | split; [ | split; [ | repeat split ] ] ].
  - rewrite Hhost, Hmany.
    destruct (last_two _ (Strings.Split front ".") a b) as [-> ->].
    reflexivity.
  - rewrite Hhost, Htwo.
    destruct (last_two _ [] a b) as [-> ->]. reflexivity.
  - rewrite Hhost. unfold Strings.Split.
    rewrite (splitFrom_dotFree a "" Ha). reflexivity.
Qed.

(** ** Walks in the screen graph *)

Ltac screen_cases s :=
  repeat match goal with
         | |- context [String.eqb s ?x] =>
             destruct (String.eqb_spec s x) as [-> | ?]
         end.

Lemma forward_closer (s : screenID) (choice : Z) (config : Config) :
  s <> completeScreen ->
  (stepsToExit (getNextScreen s choice config) < stepsToExit s)%nat.
Proof.
  intros Hne. unfold getNextScreen.
  destruct (choice =? 0), (HybridMode config), (DoCrowdsecInstall config);
    unfold stepsToExit at 2; screen_cases s;
    try contradiction; vm_compute; lia.
Qed.

Lemma stepsToExit_bound (s : screenID) :
  (stepsToExit s <= 15)%nat /\ (stepsToExit s = 0%nat -> s = completeScreen).
Proof.
  unfold stepsToExit. screen_cases s; split; intros; try lia; try reflexivity;
    discriminate.
Qed.

Lemma walkForward_closer (steps : list (Z * Config)) :
  forall s,
    (stepsToExit (walkForward s steps) <= stepsToExit s - length steps)%nat.
Proof.
  induction steps as [ | [choice config] rest IH ]; intros s.
  - simpl. lia.
  - cbn [walkForward length].
    destruct (String.eqb_spec s completeScreen) as [-> | Hne].
    + specialize (IH completeScreen).
      change (getNextScreen completeScreen choice config)
        with completeScreen.
      change (stepsToExit completeScreen) with 0%nat in *. lia.
    + pose proof (forward_closer s choice config Hne).
      specialize (IH (getNextScreen s choice config)). lia.
Qed.

Lemma back_closer (s : screenID) (config : Config) :
  s <> completeScreen -> s <> welcomeScreen ->
  getPrevScreen s config <> completeScreen
  /\ (stepsToStart (getPrevScreen s config) < stepsToStart s)%nat.
Proof.
  intros Hexit Hstart. unfold getPrevScreen.
  destruct (HybridMode config), (EnableEmail config),
    (DoCrowdsecInstall config);
    unfold stepsToStart at 2; screen_cases s;
    try contradiction; (split; [ discriminate | vm_compute; lia ]).
Qed.

Lemma stepsToStart_bound (s : screenID) :
  (stepsToStart s <= 12)%nat /\ (stepsToStart s = 0%nat -> s = welcomeScreen).
Proof.
  unfold stepsToStart. screen_cases s; split; intros; try lia;
    try reflexivity; discriminate.
Qed.

Lemma walkBack_closer (configs : list Config) :
  forall s,
    s <> completeScreen ->
    walkBack s configs <> completeScreen
    /\ (stepsToStart (walkBack s configs)
        <= stepsToStart s - length configs)%nat.
Proof.
  induction configs as [ | config rest IH ]; intros s Hne.
  - simpl. split; [ exact Hne | lia ].
  - cbn [walkBack length].
    destruct (String.eqb_spec s welcomeScreen) as [-> | Hstart].
    + change (getPrevScreen welcomeScreen config) with welcomeScreen.
      destruct (IH welcomeScreen Hne) as [Hstay Hle].
      split; [ exact Hstay | ].
      change (stepsToStart welcomeScreen) with 0%nat in *. lia.
    + destruct (back_closer s config Hne Hstart) as [Hprev Hlt].
      destruct (IH _ Hprev) as [Hstay Hle].
      split; [ exact Hstay | lia ].
Qed.

(** X12.  The screen graph has no way round: whatever the answers and the
    configuration at each step, fifteen applications of [getNextScreen] from
    any screen identifier, declared or not, end on the exit screen, and
    twelve applications of [getPrevScreen] from any identifier but the exit
    screen end on the welcome screen; and both walks stay where they ended.
    Fewer steps do not always do. *)
Theorem screen_walks_end :
  (forall s steps,
     (15 <= length steps)%nat -> walkForward s steps = completeScreen)
  /\ (forall s configs,
        s <> completeScreen -> (12 <= length configs)%nat ->
        walkBack s configs = welcomeScreen)
  /\ (exists s steps,
        length steps = 14%nat /\ walkForward s steps <> completeScreen)
  /\ (exists s configs,
        s <> completeScreen /\ length configs = 11%nat
        /\ walkBack s configs <> welcomeScreen).
Proof.
  split; [ | split; [ | split ] ].
  - intros s steps Hlen.
    apply stepsToExit_bound.
    pose proof (walkForward_closer steps s).
    pose proof (proj1 (stepsToExit_bound s)). lia.
  - intros s configs Hne Hlen.
    apply stepsToStart_bound.
    pose proof (proj2 (walkBack_closer configs s Hne)).
    pose proof (proj1 (stepsToStart_bound s)). lia.
  - exists "nowhere"%string.
    exists (repeat (0, Cfg.setDoCrowdsecInstall true emptyConfig) 14).
    split; [ reflexivity | vm_compute; discriminate ].
  - exists setupTokenScreen.
    exists (repeat (Cfg.setDoCrowdsecInstall true
                      (Cfg.setEnableEmail true emptyConfig)) 7
            ++ repeat (Cfg.setHybridMode true emptyConfig) 4).
    split; [ discriminate | ].
    split; [ reflexivity | vm_compute; discriminate ].
Qed.

(** ** [Enter] on a text input *)

(** Where [nextScreen] lands and what it leaves in the configuration: the
    screen the graph answers with, and the configuration as it was, but for
    the e-mail settings saved on the e-mail input screen. *)
Lemma nextScreen_result (m : model) :
  exists c m' cmd,
    (if String.eqb m.(currentScreen) emailInputScreen
     then saveEmailConfig m else Some m) = Some (Upd.setConfig c m)
    /\ (m.(currentScreen) <> emailInputScreen -> c = m.(config))
    /\ nextScreen m = Some (m', cmd)
    /\ m'.(currentScreen)
       = getNextScreen m.(currentScreen) m.(lastChoice) m.(config)
    /\ m'.(config) = c.
Proof.
  destruct (nextScreen_cases m) as (c & Hsaved & Hsame & _ & Hcases).
  cbv zeta in Hcases. exists c.
  set (next := getNextScreen m.(currentScreen) m.(lastChoice) m.(config))
    in *.
  destruct (String.eqb next installScreen);
    [ do 2 eexists; repeat split; try eassumption; reflexivity | ].
  destruct (String.eqb next crowdsecInstallScreen);
    [ do 2 eexists; repeat split; try eassumption; reflexivity | ].
  destruct (String.eqb next completeScreen);
    [ do 2 eexists; repeat split; try eassumption; reflexivity | ].
  destruct (initScreen_frame (Upd.setCurrentScreen next (Upd.setConfig c m)))
    as (fs & i & Hinit).
  rewrite Hinit in Hcases.
  do 2 eexists. repeat split; try eassumption; reflexivity.
Qed.

Lemma setEmail_twice (host user pass noReply : string) (port : Z)
    (c : Config) :
  Cfg.setEmail host port user pass noReply
    (Cfg.setEmail host port user pass noReply c)
  = Cfg.setEmail host port user pass noReply c.
Proof. destruct c; reflexivity. Qed.

(** C8.  [Enter] on a text input that has a field after it moves the focus
    to that field, clears the error and leaves the screen and the
    configuration as they are, with no command; in particular, with two
    inputs and a button and the focus on the second input, the focus lands
    on the button.  [Enter] on a text input that is the last field submits
    the screen, which is [handleSubmit]: on the e-mail input screen the five
    settings are saved from the fields and the wizard moves to the
    advanced-configuration screen; on the domain screen the first empty
    required field is reported and the wizard stays, and with none empty the
    domain settings are saved from the fields and the wizard moves on; on
    every other screen the wizard moves to the screen the graph answers
    with. *)
Theorem enter_on_input (m : model) (f : field) :
  Go.index m.(fields) m.(focusIndex) = Some f ->
  f.(ftype) = fieldInput ->
  (m.(focusIndex) < Go.len m.(fields) - 1 ->
   exists m',
     handleEnter m = Some (m', nilCmd)
     /\ m'.(focusIndex) = m.(focusIndex) + 1
     /\ m'.(currentScreen) = m.(currentScreen)
     /\ m'.(config) = m.(config)
     /\ m'.(installing) = m.(installing)
     /\ forall f1 b,
          m.(fields) = [f1; f; b] -> b.(ftype) = fieldButton ->
          m.(focusIndex) = 1 ->
          m'.(focusIndex) = 2 /\ Go.index m'.(fields) m'.(focusIndex) = Some b)
  /\ (m.(focusIndex) = Go.len m.(fields) - 1 ->
      let values := map (fun g => textinput.Value g.(input)) m.(fields) in
      handleEnter m = handleSubmit m
      /\ (m.(currentScreen) <> domainConfigScreen ->
          m.(currentScreen) <> emailInputScreen ->
          exists m' cmd,
            handleEnter m = Some (m', cmd)
            /\ m'.(currentScreen)
               = getNextScreen m.(currentScreen) m.(lastChoice) m.(config)
            /\ m'.(config) = m.(config))
      /\ (m.(currentScreen) = emailInputScreen ->
          (forall host port user pass noReply rest,
             values = host :: port :: user :: pass :: noReply :: rest ->
             exists m' cmd,
               handleEnter m = Some (m', cmd)
               /\ m'.(currentScreen) = advancedConfigScreen
               /\ m'.(config)
                  = Cfg.setEmail host
                      (match Go.Atoi port with Some p => p | None => 587 end)
                      user pass noReply m.(config))
          /\ (Go.len m.(fields) < 5 ->
              exists m' cmd,
                handleEnter m = Some (m', cmd)
                /\ m'.(currentScreen) = advancedConfigScreen
                /\ m'.(config) = m.(config)))
      /\ (m.(currentScreen) = domainConfigScreen ->
          (forall g,
             missingRequired m.(fields) = Some g ->
             handleEnter m
             = Some (Upd.setErr (Some (g.(label) ++ " is required")%string) m,
                     nilCmd))
          /\ (missingRequired m.(fields) = None ->
              (m.(config).(HybridMode) = true ->
               forall raw rest,
                 values = raw :: rest ->
                 exists m' cmd,
                   handleEnter m = Some (m', cmd)
                   /\ m'.(currentScreen) = advancedConfigScreen
                   /\ m'.(config)
                      = Cfg.setInstallGerbil true
                          (Cfg.setDashboardDomain raw m.(config)))
              /\ (m.(config).(HybridMode) = false ->
                  forall base sub email rest,
                    values = base :: sub :: email :: rest ->
                    exists m' cmd,
                      handleEnter m = Some (m', cmd)
                      /\ m'.(currentScreen) = emailConfigScreen
                      /\ m'.(config)
                         = Cfg.setInstallGerbil true
                             (Cfg.setLetsEncryptEmail email
                                (Cfg.setDashboardDomain
                                   ((if String.eqb sub "" then "pangolin"
                                     else sub) ++ "." ++ base)%string
                                   (Cfg.setBaseDomain base m.(config)))))))).
Proof.
  intros Hat Hinput.
  pose proof (index_in_range _ _ _ _ Hat) as Hrange.
  assert (Hsome : (Go.len m.(fields) =? 0) = false) by (apply Z.eqb_neq; lia).
  split.
  - intros Hnext. unfold handleEnter. rewrite Hsome, Hat. cbn [bind].
    rewrite Hinput.
    destruct (Z.ltb_spec m.(focusIndex) (Go.len m.(fields) - 1)); [ | lia ].
    rewrite handleNavigation_forward by lia.
    eexists. split; [ reflexivity | ].
    do 4 (split; [ reflexivity | ]).
    intros f1 b Hfields Hb Hfocus. unfold updateFocus.
    cbn [focusIndex fields Upd.setFields Upd.setFocusIndex Upd.setErr].
    rewrite Hfocus, Hfields. change (1 + 1) with 2.
    split; [ reflexivity | ].
    unfold Go.index, Go.len. rewrite focusEach_length.
    change (Z.to_nat 2) with 2%nat. cbn [length Z.of_nat Z.leb Z.ltb andb].
    simpl. now rewrite Hb.
  - intros Hlast values.
    assert (Hsubmit : handleEnter m = handleSubmit m).
    { unfold handleEnter. rewrite Hsome, Hat. cbn [bind]. rewrite Hinput.
      destruct (Z.ltb_spec m.(focusIndex) (Go.len m.(fields) - 1)); [ lia | ].
      rewrite skipn_all2; [ reflexivity | ].
      unfold Go.len in Hlast. lia. }
    split; [ exact Hsubmit | ]. rewrite Hsubmit. unfold handleSubmit.
    split; [ | split ].
    + intros Hdomain Hmail.
      destruct (String.eqb_spec m.(currentScreen) domainConfigScreen);
        [ contradiction | ].
      destruct (String.eqb_spec m.(currentScreen) emailInputScreen);
        [ contradiction | ].
      destruct (nextScreen_result m)
        as (c & m' & cmd & _ & Hsame & Hrun & Hscreen & Hconfig).
      exists m', cmd. split; [ exact Hrun | ]. split; [ exact Hscreen | ].
      rewrite Hconfig. now apply Hsame.
    + intros Hmail. rewrite Hmail.
      change (String.eqb emailInputScreen domainConfigScreen) with false.
      change (String.eqb emailInputScreen emailInputScreen) with true.
      cbv iota.
      assert (Hgraph : forall m1 : model,
                m1.(currentScreen) = emailInputScreen ->
                getNextScreen m1.(currentScreen) m1.(lastChoice) m1.(config)
                = advancedConfigScreen)
        by (intros m1 ->; reflexivity).
      split.
      * intros host port user pass noReply rest Hvalues.
        rewrite (saveEmailConfig_values m _ _ _ _ _ _ Hvalues). cbn [bind].
        match goal with
        | |- context [nextScreen ?x] =>
            destruct (nextScreen_result x)
              as (c & m' & cmd & Hsaved & _ & Hrun & Hscreen & Hconfig);
            rewrite (Hgraph x Hmail) in Hscreen;
            rewrite (saveEmailConfig_values x _ _ _ _ _ _ Hvalues) in Hsaved
        end.
        cbn [currentScreen Upd.setConfig] in Hsaved. rewrite Hmail in Hsaved.
        change (String.eqb emailInputScreen emailInputScreen) with true
          in Hsaved.
        cbv iota in Hsaved.
        exists m', cmd. split; [ exact Hrun | ]. split; [ exact Hscreen | ].
        rewrite Hconfig. injection Hsaved as Hsaved.
        rewrite setEmail_twice in Hsaved. now symmetry.
      * intros Hfew.
        assert (Hskip : saveEmailConfig m = Some m).
        { unfold saveEmailConfig.
          destruct (Z.geb_spec (Go.len m.(fields)) 5); [ lia | reflexivity ]. }
        rewrite Hskip. cbn [bind].
        destruct (nextScreen_result m)
          as (c & m' & cmd & Hsaved & _ & Hrun & Hscreen & Hconfig).
        rewrite (Hgraph m Hmail) in Hscreen.
        rewrite Hmail in Hsaved.
        change (String.eqb emailInputScreen emailInputScreen) with true
          in Hsaved.
        cbv iota in Hsaved. rewrite Hskip in Hsaved.
        exists m', cmd. split; [ exact Hrun | ]. split; [ exact Hscreen | ].
        rewrite Hconfig. injection Hsaved as Hsaved.
        apply (f_equal config) in Hsaved. now symmetry.
    + intros Hdomain. rewrite Hdomain.
      change (String.eqb domainConfigScreen domainConfigScreen) with true.
      cbv iota. unfold validateAndSaveDomainConfig.
      split.
      * intros g ->. reflexivity.
      * intros ->.
        change 0 with (Z.of_nat 0). change 1 with (Z.of_nat 1).
        change 2 with (Z.of_nat 2). rewrite !valueAt_nth. fold values.
        split.
        -- intros Hmode raw rest ->. rewrite Hmode. cbn [nth_error bind].
           match goal with
           | |- context [nextScreen ?x] =>
               destruct (nextScreen_from_domain x Hdomain)
                 as (m' & cmd & -> & Hcfg & Hnext)
           end.
           cbn [config Upd.setConfig HybridMode Cfg.setInstallGerbil
                Cfg.setDashboardDomain] in Hcfg, Hnext.
           rewrite Hmode in Hnext.
           exists m', cmd. split; [ reflexivity | ].
           split; [ exact Hnext | exact Hcfg ].
        -- intros Hmode base sub email rest ->. rewrite Hmode.
           cbn [nth_error bind].
           match goal with
           | |- context [nextScreen ?x] =>
               destruct (nextScreen_from_domain x Hdomain)
                 as (m' & cmd & -> & Hcfg & Hnext)
           end.
           cbn [config Upd.setConfig HybridMode Cfg.setInstallGerbil
                Cfg.setLetsEncryptEmail Cfg.setDashboardDomain
                Cfg.setBaseDomain] in Hcfg, Hnext.
           rewrite Hmode in Hnext.
           exists m', cmd. split; [ reflexivity | ].
           split; [ exact Hnext | exact Hcfg ].
Qed.

End MoreProperties.

(** ** The further properties on the test machine *)

Lemma answer_then_back_witness :
  let m := labModel hybridModeScreen emptyConfig in
  exists m' cmd,
    handleButtonPress (ext := labCollaborators None) m = Some (m', cmd)
    /\ m'.(currentScreen)
       = getNextScreen m.(currentScreen) m'.(lastChoice) m'.(config)
    /\ getPrevScreen m'.(currentScreen) m'.(config) = hybridModeScreen.
Proof.
  intros m.
  assert (Hrun : exists m' cmd,
             handleButtonPress (ext := labCollaborators None) m
             = Some (m', cmd))
    by (vm_compute; do 2 eexists; reflexivity).
  destruct Hrun as (m' & cmd & Hrun).
  exists m', cmd. split; [ exact Hrun | ].
  apply (answer_then_back (ext := labCollaborators None) m m' cmd).
  - vm_compute. tauto.
  - intros Hon. vm_compute in Hon. discriminate Hon.
  - exact Hrun.
Defined.

Lemma navigation_cycles_witness :
  let m := labModel emailInputScreen emptyConfig in
  let forward :=
    fst (handleNavigation (World := unit) m 1) in
  let backward :=
    fst (handleNavigation (World := unit) m (-1)) in
  0 <= m.(focusIndex) < Go.len m.(fields)
  /\ forward.(focusIndex) = 1
  /\ backward.(focusIndex) = 5
  /\ (fst (handleNavigation (World := unit) forward (-1)))
       .(focusIndex) = 0
  /\ (fst (handleNavigation (World := unit) backward 1))
       .(focusIndex) = 0.
Proof.
  intros m forward backward.
  assert (Hfocus : 0 <= m.(focusIndex) < Go.len m.(fields))
    by (vm_compute; split; [ discriminate | reflexivity ]).
  split; [ exact Hfocus | ].
  destruct (navigation_cycles (World := unit) m)
    as [_ Hmoves].
  destruct (Hmoves Hfocus) as (Hf & Hb & Hfb & Hbf & _).
  split; [ exact Hf | ]. split; [ exact Hb | ].
  split; [ exact Hfb | exact Hbf ].
Defined.

Lemma inputs_follow_focus_witness :
  let m := labModel emailInputScreen emptyConfig in
  let m' := updateFocus m in
  exists f,
    nth_error m'.(fields) 0 = Some f
    /\ f.(ftype) = fieldInput
    /\ textinput.Focused f.(input) = true
    /\ forall j g,
         nth_error m'.(fields) j = Some g ->
         g.(ftype) = fieldInput ->
         textinput.Focused g.(input) = true ->
         j = 0%nat.
Proof.
  intros m m'.
  destruct (inputs_follow_focus (ext := labCollaborators None) m)
    as (_ & _ & _ & Hone).
  eexists. split; [ vm_compute; reflexivity | ].
  split; [ reflexivity | ]. split; [ reflexivity | ].
  intros j g Hat Hinput Hfocused. symmetry.
  refine (Hone m' (or_introl eq_refl) 0%nat j _ g _ Hat _ Hinput _ Hfocused);
    vm_compute; reflexivity.
Defined.

Lemma nextScreen_follows_graph_witness :
  let m := labModel setupTokenScreen emptyConfig in
  nextScreen (ext := labCollaborators None) m
  = Some (Upd.setCurrentScreen completeScreen m, tea_Quit).
Proof.
  intros m.
  assert (Hrun : exists m' cmd,
             nextScreen (ext := labCollaborators None) m = Some (m', cmd))
    by (vm_compute; do 2 eexists; reflexivity).
  destruct Hrun as (m' & cmd & Hrun).
  destruct (nextScreen_follows_graph (ext := labCollaborators None)
              m m' cmd Hrun) as (_ & _ & _ & Hquit).
  destruct Hquit as [-> ->]; [ vm_compute; reflexivity | exact Hrun ].
Defined.

Lemma keys_while_typing_witness :
  let m := labModel emailInputScreen emptyConfig in
  Update (ext := labCollaborators None) m (KeyMsg "ctrl+c")
  = Some (m, tea_Quit)
  /\ exists m' cmd,
       Update (ext := labCollaborators None) m (KeyMsg "esc")
       = Some (m', cmd)
       /\ m'.(currentScreen) = emailInputScreen
       /\ m'.(showHelp) = false.
Proof.
  intros m.
  assert (Hfocused : exists f,
             focusedInput m = Some (Some f)
             /\ textinput.Focused f.(input) = true)
    by (vm_compute; eexists; split; reflexivity).
  destruct Hfocused as (f & Hat & Hfocus).
  destruct (keys_while_typing (ext := labCollaborators None) m (Some f)
              eq_refl Hat) as [Hquit Htyped].
  split; [ exact Hquit | ].
  destruct (Htyped f "esc" eq_refl Hfocus) as (_ & m' & cmd & Hrun & Hs & _
                                                & _ & Hh & _).
  - vm_compute. intuition discriminate.
  - exists m', cmd. split; [ exact Hrun | ].
    split; [ exact Hs | exact Hh ].
Defined.

Lemma batch_first_marker_decides_witness :
  let m := Upd.setInstalling true (labModel installScreen emptyConfig) in
  let quiet := ["Pulling images"; "Starting containers"] in
  exists m',
    deliver (ext := labCollaborators None) m
      (installBatchLogsMsg
         (quiet ++ ["Error response from daemon"; successMarker])%list)
    = Some m'
    /\ m'.(installing) = false
    /\ m'.(err) = Some "installation failed".
Proof.
  intros m quiet.
  destruct (batch_first_marker_decides (ext := labCollaborators None) m
              quiet [successMarker] "Error response from daemon")
    as (_ & _ & Hfailed).
  - repeat constructor.
  - apply Hfailed; vm_compute; reflexivity.
Defined.

Lemma email_settings_survive_reentry_witness :
  let c :=
    Cfg.setEmail "smtp.example.com" 2525 "mailer" "hunter2"
      "noreply@example.com" emptyConfig in
  let m := labModel emailConfigScreen c in
  let entered :=
    initScreen (ext := labCollaborators None)
      (Upd.setCurrentScreen emailInputScreen m) in
  map (fun f => textinput.Value f.(input)) entered.(fields)
  = ["smtp.example.com"; "2525"; "mailer"; "hunter2"; "noreply@example.com";
     ""]
  /\ exists m' cmd,
       handleSubmit (ext := labCollaborators None) entered = Some (m', cmd)
       /\ m'.(currentScreen) = advancedConfigScreen
       /\ m'.(config) = c.
Proof.
  intros c m entered.
  apply (email_settings_survive_reentry (ext := labCollaborators None) m).
  - intros s i _. reflexivity.
  - vm_compute. reflexivity.
Defined.

Lemma domain_settings_survive_reentry_witness :
  let c :=
    Cfg.setLetsEncryptEmail "admin@example.com"
      (Cfg.setBaseDomain "example.com"
         (Cfg.setDashboardDomain "pangolin.example.com" emptyConfig)) in
  let m := labModel hybridModeScreen c in
  let entered :=
    initScreen (ext := labCollaborators None)
      (Upd.setCurrentScreen domainConfigScreen m) in
  exists m' cmd,
    handleButtonPress (ext := labCollaborators None) entered
    = Some (m', cmd)
    /\ m'.(currentScreen) = emailConfigScreen
    /\ m'.(config) = Cfg.setInstallGerbil true c.
Proof.
  intros c m entered.
  destruct (domain_settings_survive_reentry (ext := labCollaborators None)
              m "pangolin") as [Hstandard _].
  - intros s i _. reflexivity.
  - destruct (Hstandard eq_refl) as (_ & _ & Hfilled).
    destruct Hfilled as [Hsub _];
      [ vm_compute; discriminate | vm_compute; discriminate | ].
    apply Hsub; [ vm_compute; discriminate | reflexivity ].
Defined.

Lemma enter_on_input_witness :
  let first := createInputField "SMTP Host" false in
  let second := createInputField "SMTP Port" false in
  let button := createButtonField "Continue" in
  let m :=
    Upd.setFocusIndex 1
      (Upd.setFields [first; second; button]
         (Upd.setCurrentScreen emailInputScreen (initialModel None []))) in
  let c :=
    Cfg.setEmail "smtp.example.com" 2525 "mailer" "hunter2"
      "noreply@example.com" emptyConfig in
  let filled := labModel emailInputScreen c in
  let last :=
    Upd.setFocusIndex 4 (Upd.setFields (firstn 5 filled.(fields)) filled) in
  (Go.index m.(fields) m.(focusIndex) = Some second
   /\ exists m',
        handleEnter (ext := labCollaborators None) m = Some (m', nilCmd)
        /\ m'.(focusIndex) = 2
        /\ Go.index m'.(fields) m'.(focusIndex) = Some button
        /\ m'.(currentScreen) = m.(currentScreen)
        /\ m'.(config) = m.(config))
  /\ exists m' cmd,
       handleEnter (ext := labCollaborators None)
         (Upd.setConfig emptyConfig last) = Some (m', cmd)
       /\ m'.(currentScreen) = advancedConfigScreen
       /\ m'.(config) = c.
Proof.
  intros first second button m c filled last.
  split.
  - assert (Hat : Go.index m.(fields) m.(focusIndex) = Some second)
      by (vm_compute; reflexivity).
    split; [ exact Hat | ].
    destruct (enter_on_input (ext := labCollaborators None) m second
                Hat eq_refl) as [Hnext _].
    destruct Hnext as (m' & Hrun & _ & Hscreen & Hconfig & _ & Hbutton);
      [ vm_compute; reflexivity | ].
    destruct (Hbutton first button eq_refl eq_refl eq_refl)
      as [Hfocus Hbtn].
    exists m'. repeat split; assumption.
  - assert (Hat : exists f,
              Go.index (Upd.setConfig emptyConfig last).(fields)
                (Upd.setConfig emptyConfig last).(focusIndex) = Some f
              /\ f.(ftype) = fieldInput)
      by (vm_compute; eexists; split; reflexivity).
    destruct Hat as (f & Hat & Hinput).
    destruct (enter_on_input (ext := labCollaborators None)
                (Upd.setConfig emptyConfig last) f Hat Hinput)
      as [_ Hsubmit].
    destruct Hsubmit as (_ & _ & Hmail & _); [ vm_compute; reflexivity | ].
    destruct (Hmail eq_refl) as [Hsaved _].
    apply (Hsaved "smtp.example.com" "2525" "mailer" "hunter2"
             "noreply@example.com" []).
    vm_compute. reflexivity.
Defined.

(** C5 (as stated, refuted).  An existing standard installation is loaded,
    the operator answers yes to hybrid mode and submits the domain screen
    with the address it shows.  The submission succeeds, the wizard is in
    hybrid mode on the advanced-configuration screen with the address as
    shown, and the base domain is still the one that was loaded.  (The run
    lists: the screen, the mode and the missing required field before the
    last [Enter]; then the screen, the mode, the dashboard domain and the
    base domain after it.) *)
Lemma hybrid_keeps_base_domain :
  (loaded <- (match loadExistingConfig false
                      (Ok "https://pangolin.example.com")
                      (Ok "admin@example.com") with
              | Ok c => Some c
              | Err _ => None
              end) ;;
   before <- deliverAll (ext := labCollaborators None)
               (initialModel (Some loaded) [])
               (map KeyMsg ["enter"; "shift+tab"; "enter"; "enter"; "tab"]) ;;
   after <- Update (ext := labCollaborators None) before (KeyMsg "enter") ;;
   Some (before.(currentScreen), before.(config).(HybridMode),
         option_map label (missingRequired before.(fields)),
         (fst after).(currentScreen), (fst after).(config).(HybridMode),
         (fst after).(config).(DashboardDomain),
         (fst after).(config).(BaseDomain)))
  = Some (domainConfigScreen, true, None,
          advancedConfigScreen, true, "pangolin.example.com", "example.com")
  /\ "example.com" <> "".
Proof. split; [ vm_compute; reflexivity | discriminate ]. Qed.

Lemma existing_config_domains_witness :
  loadExistingConfig false (Ok "https://pangolin.example.co.uk")
    (Ok "admin@example.com")
  = Ok (Cfg.setInstallationContainerType Docker
          (Cfg.setLetsEncryptEmail "admin@example.com"
             (Cfg.setBaseDomain "co.uk"
                (Cfg.setDashboardDomain "pangolin.example.co.uk"
                   emptyConfig)))).
Proof.
  destruct (existing_config_domains "https://" "pangolin.example" "co" "uk"
              "admin@example.com") as [Hmany _].
  - vm_compute. tauto.
  - vm_compute. reflexivity.
  - vm_compute. reflexivity.
  - exact Hmany.
Defined.

Lemma screen_walks_end_witness :
  walkForward welcomeScreen (repeat (0, emptyConfig) 15) = completeScreen
  /\ walkBack setupTokenScreen (repeat emptyConfig 12) = welcomeScreen.
Proof.
  destruct screen_walks_end as (Hforward & Hback & _).
  split.
  - apply Hforward. vm_compute. repeat constructor.
  - apply Hback; [ vm_compute; discriminate | vm_compute; repeat constructor ].
Defined.

Lemma wizard_stops_before_install_witness :
  let msgs :=
    map KeyMsg
      ["enter"; "tab"; "enter"; "enter"; "enter"; "enter"; "enter";
       "enter"] in
  exists m m',
    deliverAll (ext := labCollaborators None) (initialModel None []) msgs
    = Some m
    /\ m.(currentScreen) = installContainersScreen
    /\ Update (ext := labCollaborators None) m (KeyMsg "enter")
       = Some (m', tea_Batch
                     [spinner_Tick;
                      performConfigCreationAndProceedAsync
                        (ext := labCollaborators None) m'])
    /\ m'.(currentScreen) = installContainersScreen
    /\ m'.(installing) = true.
Proof.
  intros msgs.
  destruct (wizard_stops_before_install (ext := labCollaborators None)
              None [] msgs) as (m & Hrun & _ & _ & Hlast).
  assert (Hseen :
            option_map (fun m => (m.(currentScreen), m.(mkeys)))
              (deliverAll (ext := labCollaborators None)
                 (initialModel None []) msgs)
            = Some (installContainersScreen, keys))
    by (vm_compute; reflexivity).
  rewrite Hrun in Hseen. cbn [option_map] in Hseen.
  injection Hseen as Hon Hkeys.
  destruct (Hlast Hon "enter") as (m' & Hpress & Hstay & Hbusy);
    try (rewrite Hkeys; vm_compute; reflexivity).
  exists m, m'. split; [ exact Hrun | ]. split; [ exact Hon | ].
  split; [ exact Hpress | ]. split; [ exact Hstay | exact Hbusy ].
Defined.
